(** * deepracer-llm-agent: the protocol adapter layer, embedded and verified

    A shallow embedding of the Python sources of the agent:

    - [Py]: the slice of the Python runtime the sources rely on (exceptions,
      string methods, list slices);
    - [Json]: JSON values as [json.loads] builds them, with the dictionary and
      attribute accesses the sources perform on them, and [json.loads] itself;
    - [Re]: a backtracking matcher for the regular-expression operators used by
      [utils/json_extractor.py];
    - [JsonExtractor], [ModelMetadata], [Bedrock], [Pricing], [Agent]: the
      modules of the package, function by function.

    Conventions.  Python [float]s are modelled as real numbers (no rounding, no
    NaN, no infinities); Python [int]s as [Z].  Text is modelled as its byte
    sequence, and the character classes ([str.strip], [str.lower], [\s]) are
    the ASCII ones.  A Python [dict] is an association list in insertion order with
    unique keys.  Logging has no effect on results and is left out. *)

From Stdlib Require Import String Ascii List ZArith Bool Arith Lia DecimalString.
From Stdlib Require Import Reals Lra.
From Stdlib Require PrimFloat Uint63.
Import ListNotations.

Set Warnings "-register-all,-inexact-float".

Local Open Scope string_scope.
Local Open Scope list_scope.

(* ================================================================== *)
(** * The Python runtime *)
(* ================================================================== *)

Module Py.

(** Exceptions the sources raise themselves or receive from the runtime.
    [ExternalError] stands for whatever the external collaborators (network
    transport, file system) raise. *)
Inductive exn : Type :=
| ValueError (msg : string)
| KeyError (key : string)
| IndexError (msg : string)
| TypeError (msg : string)
| AttributeError (msg : string)
| JSONDecodeError (msg : string)
| FileNotFoundError (msg : string)
| OverflowError (msg : string)
| ExternalError (msg : string).

(** [str(e)] *)
Definition exn_str (e : exn) : string :=
  match e with
  | ValueError m | IndexError m | TypeError m | AttributeError m
  | JSONDecodeError m | FileNotFoundError m | OverflowError m
  | ExternalError m => m
  | KeyError k => "'" ++ k ++ "'"
  end.

(** A computation that returns or raises. *)
Inductive result (A : Type) : Type :=
| Ok (a : A)
| Raise (e : exn).
Arguments Ok {A} a.
Arguments Raise {A} e.

Definition bind {A B} (c : result A) (k : A -> result B) : result B :=
  match c with
  | Ok a => k a
  | Raise e => Raise e
  end.

Definition is_ok {A} (c : result A) : bool :=
  match c with Ok _ => true | Raise _ => false end.

(** [try: c  except Exception as e: h e] *)
Definition try_except {A} (c : result A) (h : exn -> A) : A :=
  match c with
  | Ok a => a
  | Raise e => h e
  end.

(** ** Strings *)

Definition nl : string := String "010"%char EmptyString.
Definition dquote : ascii := "034"%char.

(** Source text is written with apostrophes where the Python text has double
    quotes: [q "{'a': 1}"] is the text [{"a": 1}] of seven plus two bytes. *)
Fixpoint q (s : string) : string :=
  match s with
  | EmptyString => EmptyString
  | String c r => String (if Ascii.eqb c "'"%char then dquote else c) (q r)
  end.

Definition ascii_lower (c : ascii) : ascii :=
  let n := nat_of_ascii c in
  if (65 <=? n)%nat && (n <=? 90)%nat then ascii_of_nat (n + 32) else c.

(** [s.lower()] *)
Fixpoint lower (s : string) : string :=
  match s with
  | EmptyString => EmptyString
  | String c r => String (ascii_lower c) (lower r)
  end.

(** [c.isspace()] on ASCII: tab, line feed, vertical tab, form feed, carriage
    return, the four separators 0x1c-0x1f and the space. *)
Definition is_space (c : ascii) : bool :=
  let n := nat_of_ascii c in
  ((9 <=? n)%nat && (n <=? 13)%nat) || ((28 <=? n)%nat && (n <=? 32)%nat).

Fixpoint lstrip (s : string) : string :=
  match s with
  | String c r => if is_space c then lstrip r else s
  | EmptyString => EmptyString
  end.

(** Drops trailing whitespace: a character is kept when something is kept
    after it or when it is not a space. *)
Fixpoint rstrip (s : string) : string :=
  match s with
  | EmptyString => EmptyString
  | String c r =>
      match rstrip r with
      | EmptyString => if is_space c then EmptyString else String c EmptyString
      | r' => String c r'
      end
  end.

(** [s.strip()] *)
Definition strip (s : string) : string := rstrip (lstrip s).

(** [s.startswith(p)] *)
Fixpoint starts_with (p s : string) : bool :=
  match p, s with
  | EmptyString, _ => true
  | String a p', String b s' => Ascii.eqb a b && starts_with p' s'
  | String _ _, EmptyString => false
  end.

(** [needle in hay] on strings *)
Fixpoint contains (needle hay : string) : bool :=
  if starts_with needle hay then true
  else match hay with
       | EmptyString => false
       | String _ r => contains needle r
       end.

(** [s.split(sep)] for a one-character separator: never the empty list. *)
Fixpoint split (sep : ascii) (s : string) : list string :=
  match s with
  | EmptyString => [EmptyString]
  | String c r =>
      if Ascii.eqb c sep then EmptyString :: split sep r
      else match split sep r with
           | [] => [String c EmptyString]
           | w :: ws => String c w :: ws
           end
  end.

(** ** Lists *)

(** [l[i]] for a non-negative literal index *)
Definition index {A} (l : list A) (i : nat) : result A :=
  match nth_error l i with
  | Some a => Ok a
  | None => Raise (IndexError "list index out of range")
  end.

(** [l[-k:]]: the last [k] elements when [k > 0]; all of [l] when [k = 0]
    (the slice [l[0:]]); [l[|k|:]] when [k < 0]. *)
Definition slice_last {A} (k : Z) (l : list A) : list A :=
  match k with
  | Z0 => l
  | Zpos p => skipn (length l - Pos.to_nat p) l
  | Zneg p => skipn (Pos.to_nat p) l
  end.

End Py.

Module PyNotations.
  Notation "x <- c ;; k" := (Py.bind c (fun x => k))
    (at level 61, c at next level, right associativity).
  Notation "c ;;; k" := (Py.bind c (fun _ => k))
    (at level 61, right associativity).
End PyNotations.

(* ================================================================== *)
(** * Binary64 arithmetic *)
(* ================================================================== *)

(** A Python [float] is a binary64 number.  A finite float is the real it
    denotes; the result of an operation is the exact result rounded to the
    nearest float, ties to the even significand, as IEEE 754 prescribes and
    the platform computes. *)

Module Float64.

(** [2^e] *)
Definition pow2 (e : Z) : R := powerRZ 2 e.

(** The nearest integer, ties to the even one. *)
Definition rne (y : R) : Z :=
  let f := Zfloor y in
  let frac := (y - IZR f)%R in
  if Rlt_dec frac (1 / 2) then f
  else if Rlt_dec (1 / 2) frac then (f + 1)%Z
  else if Z.even f then f else (f + 1)%Z.

(** The binade of [x], searched downwards from [k]: the first [k' <= k] with
    [2^k' <= x], or the exponent reached when the fuel is spent. *)
Fixpoint binade (fuel : nat) (k : Z) (x : R) : Z :=
  match fuel with
  | O => k
  | S fuel' => if Rle_dec (pow2 k) x then k else binade fuel' (k - 1) x
  end.

(** Rounding of a real [x >= 0] to binary64, to nearest with ties to even:
    53 significant bits above the least normal exponent -1022, multiples of
    [2^-1074] below it; nothing when the rounded magnitude reaches [2^1024],
    where the operation gives an infinity. *)
Definition round_pos (x : R) : option R :=
  let e := (binade 2045 1023 x - 52)%Z in
  let r := (IZR (rne (x / pow2 e)) * pow2 e)%R in
  if Rle_dec (pow2 1024) r then None else Some r.

Definition round64 (x : R) : option R :=
  if Rlt_dec x 0 then option_map Ropp (round_pos (- x)) else round_pos x.

(** The operations on floats: a finite value, or [None] for what is not
    finite (an infinity or a NaN), which stays so through every operation
    below. *)
Definition f64 : Type := option R.

Definition fsub (a b : f64) : f64 :=
  match a, b with
  | Some x, Some y => round64 (x - y)
  | _, _ => None
  end.

Definition fmul (a b : f64) : f64 :=
  match a, b with
  | Some x, Some y => round64 (x * y)
  | _, _ => None
  end.

Definition fadd (a b : f64) : f64 :=
  match a, b with
  | Some x, Some y => round64 (x + y)
  | _, _ => None
  end.

(** [math.sqrt] on a float that is not negative. *)
Definition fsqrt (a : f64) : f64 :=
  match a with
  | Some x => round64 (sqrt x)
  | None => None
  end.

(** [a < b], false as soon as [a] is not finite; a [b] that is not finite
    stands for [float('inf')]. *)
Definition flt (a b : f64) : bool :=
  match a, b with
  | Some x, Some y => if Rlt_dec x y then true else false
  | Some _, None => true
  | None, _ => false
  end.

End Float64.

(* ================================================================== *)
(** * JSON values and the accesses the sources perform on them *)
(* ================================================================== *)

Module Json.
Import Py PyNotations.

(** What [json.loads] returns: [None], [bool], [int], [float], [str], [list]
    and [dict] with string keys. *)
Inductive json : Type :=
| JNull
| JBool (b : bool)
| JInt (n : Z)
| JFloat (x : R)
| JStr (s : string)
| JArr (items : list json)
| JObj (fields : list (string * json)).

Definition dict : Type := list (string * json).

Fixpoint dict_get (k : string) (d : dict) : option json :=
  match d with
  | [] => None
  | (k', v) :: d' => if String.eqb k k' then Some v else dict_get k d'
  end.

(** [d[k] = v]: replaces the value of an existing key where it stands,
    appends a new key at the end. *)
Fixpoint dict_set (k : string) (v : json) (d : dict) : dict :=
  match d with
  | [] => [(k, v)]
  | (k', v') :: d' =>
      if String.eqb k k' then (k', v) :: d' else (k', v') :: dict_set k v d'
  end.

Definition dict_has (k : string) (d : dict) : bool :=
  match dict_get k d with Some _ => true | None => false end.

(** ** [isinstance] tests *)

(** [isinstance(v, int)]: [bool] is a subclass of [int]. *)
Definition is_int (v : json) : bool :=
  match v with JInt _ | JBool _ => true | _ => false end.

(** [isinstance(v, (int, float))] *)
Definition is_number (v : json) : bool :=
  match v with JInt _ | JBool _ | JFloat _ => true | _ => false end.

Definition is_str (v : json) : bool :=
  match v with JStr _ => true | _ => false end.

Definition is_list (v : json) : bool :=
  match v with JArr _ => true | _ => false end.

(** The value of a number in arithmetic and comparisons. *)
Definition num_value (v : json) : option R :=
  match v with
  | JInt n => Some (IZR n)
  | JFloat x => Some x
  | JBool b => Some (if b then 1%R else 0%R)
  | _ => None
  end.

(** The value of an [int] in arithmetic and comparisons. *)
Definition int_value (v : json) : option Z :=
  match v with
  | JInt n => Some n
  | JBool b => Some (if b then 1%Z else 0%Z)
  | _ => None
  end.

(** Truth value, as [if v:] and [not v] use it. *)
Definition truth (v : json) : bool :=
  match v with
  | JNull => false
  | JBool b => b
  | JInt n => negb (Z.eqb n 0)
  | JFloat x => if Req_dec_T x 0 then false else true
  | JStr s => negb (String.eqb s "")
  | JArr l => match l with [] => false | _ => true end
  | JObj d => match d with [] => false | _ => true end
  end.

(** [v == s] for a string [s]: only the same string is equal to it. *)
Definition eq_str (v : json) (s : string) : bool :=
  match v with JStr s' => String.eqb s' s | _ => false end.

(** [a < b] on numbers: two [int]s compare as integers, a [float] with any
    number as reals; other operands do not compare. *)
Definition lt_num (a b : json) : result bool :=
  match int_value a, int_value b with
  | Some m, Some n => Ok (m <? n)%Z
  | _, _ =>
      match num_value a, num_value b with
      | Some x, Some y => Ok (if Rlt_dec x y then true else false)
      | _, _ => Raise (TypeError "'<' not supported")
      end
  end.

(** [n > 0] *)
Definition positive (n : json) : result bool := lt_num (JInt 0) n.

(** ** Accesses *)

(** [k in v] *)
Definition py_in (k : string) (v : json) : result bool :=
  match v with
  | JObj d => Ok (dict_has k d)
  | JArr l => Ok (existsb (fun x => eq_str x k) l)
  | JStr s => Ok (contains k s)
  | _ => Raise (TypeError "argument is not iterable")
  end.

(** [v[k]] for a string [k] *)
Definition getitem (v : json) (k : string) : result json :=
  match v with
  | JObj d => match dict_get k d with
              | Some x => Ok x
              | None => Raise (KeyError k)
              end
  | JArr _ | JStr _ => Raise (TypeError "indices must be integers")
  | _ => Raise (TypeError "object is not subscriptable")
  end.

(** [v[0]] *)
Definition getitem0 (v : json) : result json :=
  match v with
  | JArr l => index l 0
  | JStr s => match s with
              | EmptyString => Raise (IndexError "string index out of range")
              | String c _ => Ok (JStr (String c EmptyString))
              end
  | JObj _ => Raise (KeyError "0")
  | _ => Raise (TypeError "object is not subscriptable")
  end.

(** [v.get(k, default)] *)
Definition get (v : json) (k : string) (default : json) : result json :=
  match v with
  | JObj d => Ok (match dict_get k d with Some x => x | None => default end)
  | _ => Raise (AttributeError "object has no attribute 'get'")
  end.

(** [v.get(k)] *)
Definition get_none (v : json) (k : string) : result json := get v k JNull.

(** [v[k] = x], returning the updated object *)
Definition setitem (v : json) (k : string) (x : json) : result json :=
  match v with
  | JObj d => Ok (JObj (dict_set k x d))
  | JArr _ => Raise (TypeError "list indices must be integers")
  | _ => Raise (TypeError "object does not support item assignment")
  end.

(** [v.items()] *)
Definition items (v : json) : result dict :=
  match v with
  | JObj d => Ok d
  | _ => Raise (AttributeError "object has no attribute 'items'")
  end.

(** Iteration [for x in v] over a list; a dict iterates over its keys and a
    string over its characters. *)
Definition iter (v : json) : result (list json) :=
  match v with
  | JArr l => Ok l
  | JObj d => Ok (map (fun kv => JStr (fst kv)) d)
  | JStr s => Ok (map (fun c => JStr (String c EmptyString))
                      (list_ascii_of_string s))
  | _ => Raise (TypeError "object is not iterable")
  end.

End Json.

(* ================================================================== *)
(** * [json.loads] *)
(* ================================================================== *)

(** The decoder in two passes, both by structural recursion: a character
    automaton that cuts the text into tokens, and a pushdown recogniser that
    builds the value.  Any syntax error is a [JSONDecodeError].  The literals
    [NaN], [Infinity] and [-Infinity], which Python decodes to non-finite
    floats, have no value among the reals and are not decoded; the limits of
    the interpreter on the digits of an integer and on the depth of nesting
    are not part of the decoder either. *)

Module JsonDecoder.
Import Py PyNotations Json.

Inductive token : Type :=
| TLBrace | TRBrace | TLBrack | TRBrack | TColon | TComma
| TVal (v : json).

(** *** Numbers *)

Definition is_digit (c : ascii) : bool :=
  let n := nat_of_ascii c in (48 <=? n)%nat && (n <=? 57)%nat.

Definition digit_value (c : ascii) : Z := Z.of_nat (nat_of_ascii c - 48).

Fixpoint span_digits (cs : list ascii) : list ascii * list ascii :=
  match cs with
  | c :: r => if is_digit c
              then let (ds, rest) := span_digits r in (c :: ds, rest)
              else ([], cs)
  | [] => ([], [])
  end.

Definition digits_value (ds : list ascii) : Z :=
  fold_left (fun acc c => (acc * 10 + digit_value c)%Z) ds 0%Z.

(** [m * 10^e] *)
Definition dec_to_R (m e : Z) : R :=
  if (0 <=? e)%Z then IZR (m * 10 ^ e) else (IZR m / IZR (10 ^ (- e)))%R.

(** The integer part: [0] or a digit string without a leading zero. *)
Definition int_part_ok (ds : list ascii) : bool :=
  match ds with
  | [] => false
  | [ _ ] => true
  | c :: _ => negb (Ascii.eqb c "0"%char)
  end.

Definition is_e (c : ascii) : bool :=
  Ascii.eqb c "e"%char || Ascii.eqb c "E"%char.

(** The exponent [[eE][-+]?\d+] followed by the end of the literal. *)
Definition exponent_of (cs : list ascii) : option Z :=
  match cs with
  | [] => Some 0%Z
  | c :: r =>
      if is_e c then
        let (neg, r1) :=
          match r with
          | s :: r' => if Ascii.eqb s "-"%char then (true, r')
                       else if Ascii.eqb s "+"%char then (false, r')
                       else (false, r)
          | [] => (false, r)
          end in
        match span_digits r1 with
        | ((_ :: _) as ds, []) =>
            Some (if neg then (- digits_value ds)%Z else digits_value ds)
        | _ => None
        end
      else None
  end.

(** A number literal: an optional minus sign, the integer part, an optional
    fraction and an optional exponent; an [int] without fraction and exponent,
    a [float] otherwise. *)
Definition number_of_chars (cs : list ascii) : option json :=
  let (neg, cs1) :=
    match cs with
    | c :: r => if Ascii.eqb c "-"%char then (true, r) else (false, cs)
    | [] => (false, cs)
    end in
  let sign (z : Z) := if neg then (- z)%Z else z in
  let (ds, rest) := span_digits cs1 in
  if negb (int_part_ok ds) then None
  else
    match rest with
    | [] => Some (JInt (sign (digits_value ds)))
    | c :: r =>
        if Ascii.eqb c "."%char then
          match span_digits r with
          | ((_ :: _) as fs, rest') =>
              match exponent_of rest' with
              | Some e =>
                  Some (JFloat (dec_to_R (sign (digits_value (ds ++ fs)))
                                         (e - Z.of_nat (length fs))))
              | None => None
              end
          | _ => None
          end
        else
          match exponent_of rest with
          | Some e => Some (JFloat (dec_to_R (sign (digits_value ds)) e))
          | None => None
          end
    end.

Definition is_number_char (c : ascii) : bool :=
  is_digit c || is_e c || Ascii.eqb c "-"%char || Ascii.eqb c "+"%char
  || Ascii.eqb c "."%char.

(** *** Literals *)

Definition is_letter (c : ascii) : bool :=
  let n := nat_of_ascii c in
  ((65 <=? n)%nat && (n <=? 90)%nat) || ((97 <=? n)%nat && (n <=? 122)%nat).

Definition literal_of_chars (cs : list ascii) : option json :=
  let w := string_of_list_ascii cs in
  if String.eqb w "true" then Some (JBool true)
  else if String.eqb w "false" then Some (JBool false)
  else if String.eqb w "null" then Some JNull
  else None.

(** *** Strings *)

Definition hex_value (c : ascii) : option N :=
  let n := N_of_ascii c in
  if (48 <=? n)%N && (n <=? 57)%N then Some (n - 48)%N
  else if (97 <=? n)%N && (n <=? 102)%N then Some (n - 87)%N
  else if (65 <=? n)%N && (n <=? 70)%N then Some (n - 55)%N
  else None.

(** The bytes of a code point. *)
Definition utf8 (n : N) : list ascii :=
  let cont (k : N) := ascii_of_N (128 + k mod 64)%N in
  if (n <? 128)%N then [ascii_of_N n]
  else if (n <? 2048)%N then [ascii_of_N (192 + n / 64)%N; cont n]
  else if (n <? 65536)%N then
    [ascii_of_N (224 + n / 4096)%N; cont (n / 64)%N; cont n]
  else [ascii_of_N (240 + n / 262144)%N; cont (n / 4096)%N; cont (n / 64)%N;
        cont n].

Definition is_high_surrogate (n : N) : bool := (55296 <=? n)%N && (n <=? 56319)%N.
Definition is_low_surrogate (n : N) : bool := (56320 <=? n)%N && (n <=? 57343)%N.

(** The one-character escapes: quote, backslash, slash, b, f, n, r, t. *)
Definition simple_escape (c : ascii) : option ascii :=
  if Ascii.eqb c dquote then Some dquote
  else if Ascii.eqb c "\"%char then Some "\"%char
  else if Ascii.eqb c "/"%char then Some "/"%char
  else if Ascii.eqb c "b"%char then Some "008"%char
  else if Ascii.eqb c "f"%char then Some "012"%char
  else if Ascii.eqb c "n"%char then Some "010"%char
  else if Ascii.eqb c "r"%char then Some "013"%char
  else if Ascii.eqb c "t"%char then Some "009"%char
  else None.

(** *** The character automaton *)

(** [LStr acc hi]: inside a string, [acc] the bytes read so far in reverse,
    [hi] a high surrogate just decoded and waiting for its low half. *)
Inductive lstate : Type :=
| LDefault
| LStr (acc : list ascii) (hi : option N)
| LEsc (acc : list ascii) (hi : option N)
| LUni (acc : list ascii) (hi : option N) (val : N) (count : nat)
| LNum (cs : list ascii)
| LWord (cs : list ascii).

Definition push_bytes (bs acc : list ascii) : list ascii := rev bs ++ acc.

Definition flush_high (hi : option N) (acc : list ascii) : list ascii :=
  match hi with
  | Some h => push_bytes (utf8 h) acc
  | None => acc
  end.

Definition join_surrogates (h l : N) : N :=
  (65536 + (h - 55296) * 1024 + (l - 56320))%N.

(** A completed [\uXXXX] escape of value [n]. *)
Definition unicode_escape (acc : list ascii) (hi : option N) (n : N) : lstate :=
  match hi with
  | Some h =>
      if is_low_surrogate n
      then LStr (push_bytes (utf8 (join_surrogates h n)) acc) None
      else if is_high_surrogate n
           then LStr (push_bytes (utf8 h) acc) (Some n)
           else LStr (push_bytes (utf8 n) (push_bytes (utf8 h) acc)) None
  | None =>
      if is_high_surrogate n then LStr acc (Some n)
      else LStr (push_bytes (utf8 n) acc) None
  end.

(** The whitespace of the JSON grammar. *)
Definition is_json_ws (c : ascii) : bool :=
  Ascii.eqb c " "%char || Ascii.eqb c "009"%char || Ascii.eqb c "010"%char
  || Ascii.eqb c "013"%char.

(** A character met between tokens. *)
Definition lex_default (c : ascii) : option (lstate * list token) :=
  if is_json_ws c then Some (LDefault, [])
  else if Ascii.eqb c "{"%char then Some (LDefault, [TLBrace])
  else if Ascii.eqb c "}"%char then Some (LDefault, [TRBrace])
  else if Ascii.eqb c "["%char then Some (LDefault, [TLBrack])
  else if Ascii.eqb c "]"%char then Some (LDefault, [TRBrack])
  else if Ascii.eqb c ":"%char then Some (LDefault, [TColon])
  else if Ascii.eqb c ","%char then Some (LDefault, [TComma])
  else if Ascii.eqb c dquote then Some (LStr [] None, [])
  else if Ascii.eqb c "-"%char || is_digit c then Some (LNum [c], [])
  else if is_letter c then Some (LWord [c], [])
  else None.

(** The token a finished number or word stands for, then the character that
    finished it. *)
Definition close_with (v : option json) (c : ascii)
  : option (lstate * list token) :=
  match v, lex_default c with
  | Some x, Some (st, toks) => Some (st, TVal x :: toks)
  | _, _ => None
  end.

Definition lex_step (st : lstate) (c : ascii) : option (lstate * list token) :=
  match st with
  | LDefault => lex_default c
  | LStr acc hi =>
      if Ascii.eqb c dquote
      then Some (LDefault,
                 [TVal (JStr (string_of_list_ascii (rev (flush_high hi acc))))])
      else if Ascii.eqb c "\"%char then Some (LEsc acc hi, [])
      else if (nat_of_ascii c <? 32)%nat then None
      else Some (LStr (c :: flush_high hi acc) None, [])
  | LEsc acc hi =>
      if Ascii.eqb c "u"%char then Some (LUni acc hi 0%N 0, [])
      else match simple_escape c with
           | Some e => Some (LStr (e :: flush_high hi acc) None, [])
           | None => None
           end
  | LUni acc hi val count =>
      match hex_value c with
      | Some d =>
          let val' := (val * 16 + d)%N in
          if (count =? 3)%nat then Some (unicode_escape acc hi val', [])
          else Some (LUni acc hi val' (S count), [])
      | None => None
      end
  | LNum cs =>
      if is_number_char c then Some (LNum (c :: cs), [])
      else close_with (number_of_chars (rev cs)) c
  | LWord cs =>
      if is_letter c then Some (LWord (c :: cs), [])
      else close_with (literal_of_chars (rev cs)) c
  end.

(** The end of the text. *)
Definition lex_end (st : lstate) : option (list token) :=
  match st with
  | LDefault => Some []
  | LNum cs => option_map (fun v => [TVal v]) (number_of_chars (rev cs))
  | LWord cs => option_map (fun v => [TVal v]) (literal_of_chars (rev cs))
  | LStr _ _ | LEsc _ _ | LUni _ _ _ _ => None
  end.

Fixpoint lex_from (st : lstate) (s : string) : option (list token) :=
  match s with
  | EmptyString => lex_end st
  | String c r =>
      match lex_step st c with
      | Some (st', toks) => option_map (app toks) (lex_from st' r)
      | None => None
      end
  end.

Definition lex (s : string) : option (list token) := lex_from LDefault s.

(** *** The pushdown recogniser *)

(** An open container: an array with its items so far in reverse, or an
    object with its fields so far and the key whose value is being read. *)
Inductive frame : Type :=
| FArr (items : list json)
| FObj (fields : dict) (key : option string).

Inductive phase : Type :=
| PValue          (* a value must come *)
| PValueOrClose   (* just after an opening bracket *)
| PKeyOrClose     (* just after an opening brace *)
| PKey            (* after a comma in an object *)
| PColon          (* after a key *)
| PAfter          (* after a value inside a container *)
| PDone (v : json).

Definition pstate : Type := (list frame * phase)%type.

(** A value is complete: it goes to the container being read, or it is the
    result.  A repeated key keeps its place and takes the later value. *)
Definition complete (v : json) (stack : list frame) : option pstate :=
  match stack with
  | [] => Some ([], PDone v)
  | FArr items :: st => Some (FArr (v :: items) :: st, PAfter)
  | FObj fields (Some k) :: st => Some (FObj (dict_set k v fields) None :: st, PAfter)
  | FObj _ None :: _ => None
  end.

Definition start_value (stack : list frame) (t : token) : option pstate :=
  match t with
  | TVal v => complete v stack
  | TLBrack => Some (FArr [] :: stack, PValueOrClose)
  | TLBrace => Some (FObj [] None :: stack, PKeyOrClose)
  | _ => None
  end.

Definition take_key (stack : list frame) (t : token) : option pstate :=
  match t, stack with
  | TVal (JStr k), FObj fields None :: st => Some (FObj fields (Some k) :: st, PColon)
  | _, _ => None
  end.

Definition parse_step (ps : pstate) (t : token) : option pstate :=
  let (stack, ph) := ps in
  match ph with
  | PValue => start_value stack t
  | PValueOrClose =>
      match t, stack with
      | TRBrack, FArr [] :: st => complete (JArr []) st
      | _, _ => start_value stack t
      end
  | PKeyOrClose =>
      match t, stack with
      | TRBrace, FObj fields None :: st => complete (JObj fields) st
      | _, _ => take_key stack t
      end
  | PKey => take_key stack t
  | PColon => match t with TColon => Some (stack, PValue) | _ => None end
  | PAfter =>
      match stack, t with
      | FArr items :: st, TComma => Some (stack, PValue)
      | FArr items :: st, TRBrack => complete (JArr (rev items)) st
      | FObj fields None :: st, TComma => Some (stack, PKey)
      | FObj fields None :: st, TRBrace => complete (JObj fields) st
      | _, _ => None
      end
  | PDone _ => None
  end.

Fixpoint parse_from (ps : pstate) (ts : list token) : option json :=
  match ts with
  | [] => match ps with (_, PDone v) => Some v | _ => None end
  | t :: ts' =>
      match parse_step ps t with
      | Some ps' => parse_from ps' ts'
      | None => None
      end
  end.

(** [json.loads(s)] *)
Definition json_loads (s : string) : result json :=
  match lex s with
  | Some ts =>
      match parse_from ([], PValue) ts with
      | Some v => Ok v
      | None => Raise (JSONDecodeError "Expecting value")
      end
  | None => Raise (JSONDecodeError "Expecting value")
  end.

End JsonDecoder.


(* ================================================================== *)
(** * Regular expressions *)
(* ================================================================== *)

(** The operators that occur in [json_pattern], with the semantics of
    Python's backtracking matcher: alternatives are tried left to right, a
    greedy operator tries the longest repetition first, a lazy one the
    shortest, and the first complete match wins.  The matcher is written
    with a continuation for what follows the expression. *)

Module Re.
Import Py.

Inductive cclass : Type :=
| CSpace   (* \s *)
| CAny.    (* [\s\S] *)

Definition class_mem (c : cclass) (a : ascii) : bool :=
  match c with
  | CSpace => is_space a
  | CAny => true
  end.

Inductive regex : Type :=
| RLit (l : string)            (* literal text *)
| ROpt (r : regex)             (* (?:r)? *)
| RStar (c : cclass)           (* c*, greedy *)
| RStarLazy (c : cclass)       (* c*?, lazy *)
| RSeq (r1 r2 : regex)
| RAlt (r1 r2 : regex)
| RGroup (n : nat) (r : regex).  (* capturing group number n *)

(** The groups that took part in the match, latest first. *)
Definition captures : Type := list (nat * string).

Fixpoint strip_prefix (l s : string) : option string :=
  match l, s with
  | EmptyString, _ => Some s
  | String a l', String b s' => if Ascii.eqb a b then strip_prefix l' s' else None
  | String _ _, EmptyString => None
  end.

(** The text between a position [s] and a later position [s'] of the same
    subject. *)
Definition consumed (s s' : string) : string :=
  String.substring 0 (String.length s - String.length s') s.

Fixpoint mtch (r : regex) (s : string) (caps : captures)
              (k : string -> captures -> option captures) : option captures :=
  match r with
  | RLit l =>
      match strip_prefix l s with
      | Some s' => k s' caps
      | None => None
      end
  | ROpt r1 =>
      match mtch r1 s caps k with
      | Some c => Some c
      | None => k s caps
      end
  | RStar c =>
      (fix star (s : string) : option captures :=
         match s with
         | String a s' =>
             if class_mem c a
             then match star s' with
                  | Some x => Some x
                  | None => k s caps
                  end
             else k s caps
         | EmptyString => k s caps
         end) s
  | RStarLazy c =>
      (fix star (s : string) : option captures :=
         match k s caps with
         | Some x => Some x
         | None =>
             match s with
             | String a s' => if class_mem c a then star s' else None
             | EmptyString => None
             end
         end) s
  | RSeq r1 r2 => mtch r1 s caps (fun s' caps' => mtch r2 s' caps' k)
  | RAlt r1 r2 =>
      match mtch r1 s caps k with
      | Some c => Some c
      | None => mtch r2 s caps k
      end
  | RGroup n r1 =>
      mtch r1 s caps (fun s' caps' => k s' ((n, consumed s s') :: caps'))
  end.

(** A match that starts at the beginning of [s]. *)
Definition match_here (r : regex) (s : string) : option captures :=
  mtch r s [] (fun _ caps => Some caps).

(** [re.search(r, s)]: the match at the leftmost position that has one. *)
Fixpoint search (r : regex) (s : string) : option captures :=
  match match_here r s with
  | Some c => Some c
  | None =>
      match s with
      | String _ s' => search r s'
      | EmptyString => None
      end
  end.

(** [m.group(n)]: [None] for a group that took no part in the match. *)
Fixpoint group (m : captures) (n : nat) : option string :=
  match m with
  | [] => None
  | (n', s) :: m' => if Nat.eqb n n' then Some s else group m' n
  end.

End Re.

(* ================================================================== *)
(** * utils/json_extractor.py *)
(* ================================================================== *)

Module JsonExtractor.
Import Py PyNotations Json JsonDecoder Re.

Definition fence : string := "```".

(** The pattern of the source: a fenced block, with or without the [json]
    tag, whose content between optional whitespace is group 1; or, as the
    second alternative, a lazily closed brace block, group 2. *)
Definition json_pattern : regex :=
  RAlt
    (RSeq (RLit fence)
       (RSeq (ROpt (RLit "json"))
          (RSeq (RStar CSpace)
             (RSeq (RGroup 1 (RStarLazy CAny))
                (RSeq (RStar CSpace) (RLit fence))))))
    (RGroup 2 (RSeq (RLit "{") (RSeq (RStarLazy CAny) (RLit "}")))).

(** [json_match.group(1) or json_match.group(2)]: the first group unless it
    is [None] or empty. *)
Definition group1_or_group2 (m : captures) : option string :=
  match group m 1 with
  | Some (String _ _ as g) => Some g
  | _ => group m 2
  end.

(** The body of the [try] block. *)
Definition extract_attempt (content : string) : result json :=
  match search json_pattern content with
  | Some m =>
      match group1_or_group2 m with
      | Some g => json_loads (strip g)
      | None => Raise (AttributeError "'NoneType' object has no attribute 'strip'")
      end
  | None => json_loads (strip content)
  end.

Definition extract_json_from_llm_response (content : string)
                                          (model_name : string) : result json :=
  match extract_attempt content with
  | Ok v => Ok v
  | Raise (JSONDecodeError _) | Raise (AttributeError _) =>
      Raise (ValueError ("No valid JSON found in " ++ model_name ++ " response"))
  | Raise e => Raise e
  end.

End JsonExtractor.

(* ================================================================== *)
(** * utils/model_metadata.py *)
(* ================================================================== *)

Module ModelMetadata.
Import Py PyNotations Json JsonDecoder.

Inductive ActionSpaceType : Type := DISCRETE | CONTINUOUS.

(** [ActionSpaceType(v)]: the member with that value, or [ValueError]. *)
Definition ActionSpaceType_of (v : json) : result ActionSpaceType :=
  if eq_str v "discrete" then Ok DISCRETE
  else if eq_str v "continuous" then Ok CONTINUOUS
  else Raise (ValueError "not a valid ActionSpaceType").

(** [NeuralNetworkType.LLM.value] *)
Definition LLM : string := "LLM".

(** [if b: raise e] *)
Definition raise_if (b : bool) (e : exn) : result unit :=
  if b then Raise e else Ok tt.

Definition no_metadata {A} : result A := Raise (ValueError "No metadata loaded").

(** The handler has one attribute, [self.metadata]: [None] until a file is
    loaded, then whatever [json.load] returned.  Every method below takes it
    as [md]. *)

Definition get_action_space_type (md : json) : result ActionSpaceType :=
  if negb (truth md) then no_metadata
  else
    explicit <- py_in "action_space_type" md ;;
    if explicit then
      t <- getitem md "action_space_type" ;;
      ActionSpaceType_of t
    else
      space <- getitem md "action_space" ;;
      Ok (if is_list space then DISCRETE else CONTINUOUS).

Definition validate_llm_config (llm_config : json) : result unit :=
  has_id <- py_in "model_id" llm_config ;;
  raise_if (negb has_id) (ValueError "Missing model_id in llm_config") ;;;
  max_tokens <- get_none llm_config "max_tokens" ;;
  raise_if (negb (is_int max_tokens))
           (ValueError "Missing or invalid max_tokens in llm_config") ;;;
  system_prompt <- get_none llm_config "system_prompt" ;;
  raise_if (negb (is_str system_prompt || is_list system_prompt))
           (ValueError "Missing or invalid system_prompt in llm_config") ;;;
  window <- get_none llm_config "context_window" ;;
  if negb (is_int window)
  then Raise (ValueError "Invalid context_window in llm_config")
  else
    window0 <- get llm_config "context_window" (JInt 0) ;;
    match int_value window0 with
    | Some n => raise_if (n <? 0)%Z (ValueError "Invalid context_window in llm_config")
    | None => Raise (TypeError "'<' not supported")
    end.

Fixpoint validate_discrete_actions (actions : list json) : result unit :=
  match actions with
  | [] => Ok tt
  | action :: rest =>
      steering <- get_none action "steering_angle" ;;
      if negb (is_number steering)
      then Raise (ValueError "Invalid discrete action format")
      else
        speed <- get_none action "speed" ;;
        if negb (is_number speed)
        then Raise (ValueError "Invalid discrete action format")
        else validate_discrete_actions rest
  end.

(** [space[axis].get(bound)] *)
Definition range_get (space : json) (axis bound : string) : result json :=
  range <- getitem space axis ;;
  get_none range bound.

(** [space[axis][bound]] as a number *)
Definition range_bound (space : json) (axis bound : string) : result R :=
  range <- getitem space axis ;;
  b <- getitem range bound ;;
  match num_value b with
  | Some x => Ok x
  | None => Raise (TypeError "comparison not supported")
  end.

(** [if space[axis]["low"] >= space[axis]["high"]: raise ValueError(msg)] *)
Definition check_range_order (space : json) (axis msg : string) : result unit :=
  low <- range_bound space axis "low" ;;
  high <- range_bound space axis "high" ;;
  if Rlt_dec low high then Ok tt else Raise (ValueError msg).

Definition validate_continuous_space (space : json) : result unit :=
  has_speed <- py_in "speed" space ;;
  has_both <- (if has_speed then py_in "steering_angle" space else Ok false) ;;
  raise_if (negb has_both)
           (ValueError "Continuous action space missing required ranges") ;;;
  a <- range_get space "speed" "low" ;;
  b <- (if is_number a then range_get space "speed" "high" else Ok JNull) ;;
  c <- (if is_number b then range_get space "steering_angle" "low" else Ok JNull) ;;
  d <- (if is_number c then range_get space "steering_angle" "high" else Ok JNull) ;;
  raise_if (negb (is_number d))
           (ValueError "Invalid continuous action range format") ;;;
  check_range_order space "speed" "Speed range low must be less than high" ;;;
  check_range_order space "steering_angle"
                    "Steering angle range low must be less than high".

Definition _validate_metadata (md : json) : result unit :=
  if negb (truth md) then no_metadata
  else
    has_space <- py_in "action_space" md ;;
    raise_if (negb has_space) (ValueError "Missing action_space in model metadata") ;;;
    has_sensor <- py_in "sensor" md ;;
    sensor_ok <- (if has_sensor
                  then s <- getitem md "sensor" ;; Ok (is_list s)
                  else Ok false) ;;
    raise_if (negb sensor_ok)
             (ValueError "Missing or invalid sensor configuration in model metadata") ;;;
    has_nn <- py_in "neural_network" md ;;
    raise_if (negb has_nn) (ValueError "Missing neural_network in model metadata") ;;;
    nn <- getitem md "neural_network" ;;
    (if eq_str nn LLM then
       has_cfg <- py_in "llm_config" md ;;
       raise_if (negb has_cfg)
                (ValueError "LLM neural network type requires llm_config to be specified") ;;;
       llm_config <- getitem md "llm_config" ;;
       validate_llm_config llm_config
     else
       has_alg <- py_in "training_algorithm" md ;;
       raise_if (negb has_alg)
                (ValueError "Missing training_algorithm for traditional neural network")) ;;;
    action_space_type <- get_action_space_type md ;;
    match action_space_type with
    | DISCRETE =>
        space <- getitem md "action_space" ;;
        match space with
        | JArr actions => validate_discrete_actions actions
        | _ => Raise (ValueError "Discrete action space should be a list")
        end
    | CONTINUOUS =>
        space <- getitem md "action_space" ;;
        validate_continuous_space space
    end.

(** The file system as the loader sees it: the text of the file at a path,
    or nothing there. *)
Definition file_system : Type := string -> option string.

(** [load_model_metadata(file_path)]: the result, and [self.metadata]
    afterwards.  The attribute is assigned before validation and keeps the
    loaded value when validation raises. *)
Definition load_model_metadata (fs : file_system) (file_path : string)
                               (md : json) : result json * json :=
  match fs file_path with
  | None => (Raise (FileNotFoundError ("Model metadata file not found: " ++ file_path)), md)
  | Some text =>
      match json_loads text with
      | Raise e => (Raise e, md)
      | Ok loaded =>
          (_validate_metadata loaded ;;;
           get_action_space_type loaded ;;;
           getitem loaded "neural_network" ;;;
           Ok loaded,
           loaded)
      end
  end.

Definition is_llm_model (md : json) : result bool :=
  if negb (truth md) then no_metadata
  else nn <- getitem md "neural_network" ;; Ok (eq_str nn LLM).

(** [get_llm_config()]: [None] is [JNull]. *)
Definition get_llm_config (md : json) : result json :=
  if negb (truth md) then Ok JNull
  else
    llm <- is_llm_model md ;;
    if negb llm then Ok JNull else get_none md "llm_config".

(** ** Nearest discrete action *)

(** The float that a number becomes in arithmetic with a float.  An [int]
    (a [bool] is one) is converted, and raises [OverflowError] when it is too
    large; a float literal stands for the float nearest to it, an infinity
    when it is out of range. *)
Definition to_float (v : json) : result Float64.f64 :=
  match int_value v with
  | Some n =>
      match Float64.round64 (IZR n) with
      | Some x => Ok (Some x)
      | None => Raise (OverflowError "int too large to convert to float")
      end
  | None =>
      match v with
      | JFloat x => Ok (Float64.round64 x)
      | _ => Raise (TypeError "unsupported operand type(s) for -")
      end
  end.

(** [v - x] for a float [x] *)
Definition sub_float (v : json) (x : R) : result Float64.f64 :=
  a <- to_float v ;;
  Ok (Float64.fsub a (Float64.round64 x)).

(** The [for] loop of [find_closest_discrete_action].  [i] is the position
    of the entry at hand; [closest] is the entry held by [closest_action],
    with its position in the list, which stands for the identity of the
    object.  [min_distance] starts as [float('inf')], which is [None]. *)
Fixpoint closest_loop (steering_angle speed : R) (actions : list json) (i : nat)
                      (closest : nat * json) (min_distance : Float64.f64)
  : result (nat * json) :=
  match actions with
  | [] => Ok closest
  | action :: rest =>
      a <- getitem action "steering_angle" ;;
      steering_diff <- sub_float a steering_angle ;;
      b <- getitem action "speed" ;;
      speed_diff <- sub_float b speed ;;
      let distance :=
        Float64.fsqrt (Float64.fadd (Float64.fmul steering_diff steering_diff)
                                    (Float64.fmul speed_diff speed_diff)) in
      if Float64.flt distance min_distance
      then closest_loop steering_angle speed rest (S i) (i, action) distance
      else closest_loop steering_angle speed rest (S i) closest min_distance
  end.

Definition is_discrete (t : ActionSpaceType) : bool :=
  match t with DISCRETE => true | CONTINUOUS => false end.

(** [find_closest_discrete_action(steering_angle, speed)]: [None], or the
    closest entry with its position in the action list. *)
Definition find_closest_discrete_action (md : json) (steering_angle speed : R)
  : result (option (nat * json)) :=
  if negb (truth md) then Ok None
  else
    t <- get_action_space_type md ;;
    if negb (is_discrete t) then Ok None
    else
      actions <- getitem md "action_space" ;;
      first <- getitem0 actions ;;
      entries <- iter actions ;;
      r <- closest_loop steering_angle speed entries 0 (0%nat, first) None ;;
      Ok (Some r).

(** ** Normalisation *)

(** [min(a, b)]: [b] when [b < a], else [a]. *)
Definition py_min (a b : json) : result json :=
  lt <- lt_num b a ;; Ok (if lt then b else a).

(** [max(a, b)]: [b] when [b > a], else [a]. *)
Definition py_max (a b : json) : result json :=
  gt <- lt_num a b ;; Ok (if gt then b else a).

(** [space[axis][bound]] *)
Definition range_item (space : json) (axis bound : string) : result json :=
  range <- getitem space axis ;;
  getitem range bound.

(** [if x < space[axis]["low"] or x > space[axis]["high"]: logger.warning(...)]:
    the condition, and under it the two bounds that the message formats. *)
Definition warn_if_exceeds (space : json) (axis : string) (x : R) : result unit :=
  low <- range_item space axis "low" ;;
  under <- lt_num (JFloat x) low ;;
  outside <- (if under then Ok true
              else high <- range_item space axis "high" ;;
                   lt_num high (JFloat x)) ;;
  if outside then
    range_item space axis "low" ;;;
    range_item space axis "high" ;;;
    Ok tt
  else Ok tt.

(** [max(space[axis]["low"], min(space[axis]["high"], x))] *)
Definition clamp (space : json) (axis : string) (x : R) : result json :=
  low <- range_item space axis "low" ;;
  high <- range_item space axis "high" ;;
  m <- py_min high (JFloat x) ;;
  py_max low m.

(** [a == x] for a float [x] *)
Definition eq_float (a : json) (x : R) : bool :=
  match num_value a with
  | Some y => if Req_dec_T y x then true else false
  | None => false
  end.

(** [any(action["steering_angle"] == steering_angle and
         action["speed"] == speed for action in discrete_actions)] *)
Fixpoint exact_match (steering_angle speed : R) (actions : list json) : result bool :=
  match actions with
  | [] => Ok false
  | action :: rest =>
      a <- getitem action "steering_angle" ;;
      same <- (if eq_float a steering_angle
               then b <- getitem action "speed" ;; Ok (eq_float b speed)
               else Ok false) ;;
      if same then Ok true else exact_match steering_angle speed rest
  end.

(** What [normalize_action] returns: a dict it built, or an entry of the
    action list itself, given with its position. *)
Inductive normalized : Type :=
| NewDict (a : json)
| Member (i : nat) (a : json).

Definition action_of (n : normalized) : json :=
  match n with NewDict a | Member _ a => a end.

Definition is_continuous (t : ActionSpaceType) : bool :=
  match t with CONTINUOUS => true | DISCRETE => false end.

Definition normalize_action (md : json) (steering_angle speed : R)
  : result normalized :=
  if negb (truth md) then no_metadata
  else
    t <- get_action_space_type md ;;
    if is_continuous t then
      continuous_space <- getitem md "action_space" ;;
      warn_if_exceeds continuous_space "steering_angle" steering_angle ;;;
      warn_if_exceeds continuous_space "speed" speed ;;;
      normalized_steering_angle <- clamp continuous_space "steering_angle" steering_angle ;;
      normalized_speed <- clamp continuous_space "speed" speed ;;
      Ok (NewDict (JObj [("steering_angle", normalized_steering_angle);
                         ("speed", normalized_speed)]))
    else
      discrete_actions <- getitem md "action_space" ;;
      entries <- iter discrete_actions ;;
      exact_match steering_angle speed entries ;;;
      closest_action <- find_closest_discrete_action md steering_angle speed ;;
      match closest_action with
      | Some (i, a) =>
          if negb (truth a)
          then Raise (ValueError "Failed to find a valid discrete action")
          else Ok (Member i a)
      | None => Raise (ValueError "Failed to find a valid discrete action")
      end.

End ModelMetadata.

(* ================================================================== *)
(** * services/bedrock: the vendor adapters and the dispatcher *)
(* ================================================================== *)

Module Bedrock.
Import Py PyNotations Json JsonDecoder JsonExtractor.

Inductive family : Type := Claude | Mistral | Llama | Nova.

(** The attributes the three handlers of the package declare in [__init__].
    The conversation context is the list of message dicts, oldest first. *)
Record handler : Type := {
  kind : family;
  model_id : string;
  system_prompt : json;
  max_context_messages : json;
  conversation_context : list json;
  action_space : json;
  action_space_type : json;
}.

Definition new_handler (k : family) (id : string) : handler :=
  {| kind := k;
     model_id := id;
     system_prompt := JStr "You are an AI driver assistant.";
     max_context_messages := JInt 0;
     conversation_context := [];
     action_space := JNull;
     action_space_type := JNull |}.

Definition set_system_prompt (h : handler) (prompt : json) : handler :=
  {| kind := kind h; model_id := model_id h; system_prompt := prompt;
     max_context_messages := max_context_messages h;
     conversation_context := conversation_context h;
     action_space := action_space h; action_space_type := action_space_type h |}.

Definition set_max_context_messages (h : handler) (max_messages : json) : handler :=
  {| kind := kind h; model_id := model_id h; system_prompt := system_prompt h;
     max_context_messages := max_messages;
     conversation_context := conversation_context h;
     action_space := action_space h; action_space_type := action_space_type h |}.

Definition set_action_space (h : handler) (space : json) : handler :=
  {| kind := kind h; model_id := model_id h; system_prompt := system_prompt h;
     max_context_messages := max_context_messages h;
     conversation_context := conversation_context h;
     action_space := space; action_space_type := action_space_type h |}.

Definition set_action_space_type (h : handler) (t : json) : handler :=
  {| kind := kind h; model_id := model_id h; system_prompt := system_prompt h;
     max_context_messages := max_context_messages h;
     conversation_context := conversation_context h;
     action_space := action_space h; action_space_type := t |}.

Definition set_context (h : handler) (ctx : list json) : handler :=
  {| kind := kind h; model_id := model_id h; system_prompt := system_prompt h;
     max_context_messages := max_context_messages h;
     conversation_context := ctx;
     action_space := action_space h; action_space_type := action_space_type h |}.

(** [self.conversation_context.append(m)] *)
Definition append_message (h : handler) (m : json) : handler :=
  set_context h (conversation_context h ++ [m]).

Definition clear_conversation (h : handler) : handler := set_context h [].

Definition message (role : string) (content : json) : json :=
  JObj [("role", JStr role); ("content", content)].

(** [if len(ctx) > n * 2: ctx = ctx[-n*2:]].  A float bound compares but
    cannot index. *)
Definition limit_pairs (n : json) (ctx : list json) : result (list json) :=
  match n with
  | JFloat x =>
      if Rlt_dec (x * 2) (INR (length ctx))
      then Raise (TypeError "slice indices must be integers")
      else Ok ctx
  | _ =>
      match int_value n with
      | Some k => Ok (if (k * 2 <? Z.of_nat (length ctx))%Z
                      then slice_last (k * 2) ctx else ctx)
      | None => Raise (TypeError "'>' not supported")
      end
  end.

(** [ctx = ctx[-n:]] *)
Definition limit_last (n : json) (ctx : list json) : result (list json) :=
  match int_value n with
  | Some k => Ok (slice_last k ctx)
  | None => Raise (TypeError "slice indices must be integers")
  end.

(** [extract_driving_action]: the extractor searches a [str]; any other
    reply text makes [re.search] or the slice before it raise. *)
Definition extract_driving_action (response_text : json) (model_name : string)
  : result json :=
  match response_text with
  | JStr s => extract_json_from_llm_response s model_name
  | _ => Raise (TypeError "expected string or bytes-like object")
  end.

(** The prompt is the value the caller passes, a [str] by its annotation; the
    handlers only place it in messages.  An absent or empty [image_data] is
    the empty string.

    Each call of [process] makes one request to the provider.  The request
    body that [prepare_prompt] builds only feeds that external call and does
    not change the handler, so the outcome of the pair [prepare_prompt],
    [invoke_model] is an input of the model: the decoded response body, or
    the exception raised. *)
Definition round_trip : Type := result json.

(** A step that may raise after it has changed the handler. *)
Definition stepped (A : Type) : Type := (result A * handler)%type.

(** ** claude_handler.py *)

Module ClaudeHandler.

(** The [for block in content] loop. *)
Fixpoint join_text_blocks (blocks : list json) (response_text : string)
  : result string :=
  match blocks with
  | [] => Ok response_text
  | block :: rest =>
      t <- get_none block "type" ;;
      if eq_str t "text" then
        piece <- get block "text" (JStr "") ;;
        match piece with
        | JStr p => join_text_blocks rest (response_text ++ p)
        | _ => Raise (TypeError "can only concatenate str to str")
        end
      else join_text_blocks rest response_text
  end.

Definition extract_response_text (h : handler) (response_body : json)
  : stepped string :=
  match (content <- get response_body "content" (JArr []) ;;
         blocks <- iter content ;;
         join_text_blocks blocks "") with
  | Raise e => (Raise e, h)
  | Ok response_text =>
      match positive (max_context_messages h) with
      | Raise e => (Raise e, h)
      | Ok false => (Ok response_text, h)
      | Ok true =>
          let assistant_message :=
            message "assistant"
              (JArr [JObj [("type", JStr "text"); ("text", JStr response_text)]]) in
          let h1 := append_message h assistant_message in
          match limit_pairs (max_context_messages h1) (conversation_context h1) with
          | Raise e => (Raise e, h1)
          | Ok ctx => (Ok response_text, set_context h1 ctx)
          end
      end
  end.

Definition process (h : handler) (prompt : json) (image_data : string)
                   (rt : round_trip) : stepped json :=
  let user_content := JArr [JObj [("type", JStr "text"); ("text", prompt)]] in
  match positive (max_context_messages h) with
  | Raise e => (Raise e, h)
  | Ok tracking =>
      let h1 := if tracking then append_message h (message "user" user_content)
                else h in
      match rt with
      | Raise e => (Raise e, h1)
      | Ok response_body =>
          match extract_response_text h1 response_body with
          | (Raise e, h2) => (Raise e, h2)
          | (Ok response_text, h2) =>
              (extract_driving_action (JStr response_text) "Claude", h2)
          end
      end
  end.

End ClaudeHandler.

(** ** llama_handler.py *)

Module LlamaHandler.

Definition extract_response_text (h : handler) (response_body : json)
  : stepped json :=
  match get response_body "generation" (JStr "") with
  | Raise e => (Raise e, h)
  | Ok response_text =>
      match positive (max_context_messages h) with
      | Raise e => (Raise e, h)
      | Ok false => (Ok response_text, h)
      | Ok true =>
          let h1 := append_message h (message "assistant" response_text) in
          match limit_pairs (max_context_messages h1) (conversation_context h1) with
          | Raise e => (Raise e, h1)
          | Ok ctx => (Ok response_text, set_context h1 ctx)
          end
      end
  end.

Definition process (h : handler) (prompt : json) (image_data : string)
                   (rt : round_trip) : stepped json :=
  match positive (max_context_messages h) with
  | Raise e => (Raise e, h)
  | Ok tracking =>
      let h1 := if tracking then append_message h (message "user" prompt)
                else h in
      match rt with
      | Raise e => (Raise e, h1)
      | Ok response_body =>
          match extract_response_text h1 response_body with
          | (Raise e, h2) => (Raise e, h2)
          | (Ok response_text, h2) =>
              (extract_driving_action response_text "Llama", h2)
          end
      end
  end.

End LlamaHandler.

(** ** nova_handler.py *)

Module NovaHandler.

Section Dumps.

(** [json.dumps], which only produces the text kept in the context when the
    response has an unexpected shape. *)
Variable json_dumps : json -> string.

Definition _create_user_message (prompt : json) (image_data : string) : json :=
  let text_part := JObj [("text", prompt)] in
  let image_part :=
    JObj [("image", JObj [("format", JStr "jpeg");
                          ("source", JObj [("bytes", JStr image_data)])])] in
  message "user"
    (JArr (if String.eqb image_data "" then [text_part]
           else [text_part; image_part])).

(** The text at [output.message.content[0].text] when the three nested
    fields are present and true, [None] otherwise: the condition of both
    [if] statements of [extract_response_text] and the value read under
    it. *)
Definition reply_text (response_body : json) : result (option json) :=
  output <- get_none response_body "output" ;;
  if negb (truth output) then Ok None
  else
    output <- getitem response_body "output" ;;
    msg <- get_none output "message" ;;
    if negb (truth msg) then Ok None
    else
      msg <- getitem output "message" ;;
      content <- get_none msg "content" ;;
      if negb (truth content) then Ok None
      else
        content <- getitem msg "content" ;;
        first <- getitem0 content ;;
        t <- get first "text" (JStr "") ;;
        Ok (Some t).

Definition extract_response_text (h : handler) (response_body : json)
  : stepped json :=
  let finish (h' : handler) : stepped json :=
    match reply_text response_body with
    | Raise e => (Raise e, h')
    | Ok (Some t) => (Ok t, h')
    | Ok None => (Raise (ValueError "Unexpected Nova response structure"), h')
    end in
  match positive (max_context_messages h) with
  | Raise e => (Raise e, h)
  | Ok false => finish h
  | Ok true =>
      match reply_text response_body with
      | Raise e => (Raise e, h)
      | Ok found =>
          let content_text :=
            match found with
            | Some t => t
            | None => JStr (json_dumps response_body)
            end in
          let assistant_message :=
            message "assistant" (JArr [JObj [("text", content_text)]]) in
          let h1 := append_message h assistant_message in
          match limit_last (max_context_messages h1) (conversation_context h1) with
          | Raise e => (Raise e, h1)
          | Ok ctx => finish (set_context h1 ctx)
          end
      end
  end.

Definition process (h : handler) (prompt : json) (image_data : string)
                   (rt : round_trip) : stepped json :=
  let user_message := _create_user_message prompt image_data in
  match positive (max_context_messages h) with
  | Raise e => (Raise e, h)
  | Ok tracking =>
      let h1 := if tracking then append_message h user_message else h in
      match rt with
      | Raise e => (Raise e, h1)
      | Ok response_body =>
          match extract_response_text h1 response_body with
          | (Raise e, h2) => (Raise e, h2)
          | (Ok response_text, h2) =>
              (extract_driving_action response_text "Nova", h2)
          end
      end
  end.

End Dumps.

End NovaHandler.

(** ** The dispatcher, bedrock/__init__.py *)

Section Service.

Variable json_dumps : json -> string.

(** [MistralHandler.process]: the class is imported from a module of the
    package that defines it elsewhere; its entry point is a parameter. *)
Variable mistral_process : handler -> json -> string -> round_trip -> stepped json.

Definition get_handler_for_model (model_id : string) : result handler :=
  segment <- index (split "/" model_id) 1 ;;
  let model_prefix := lower segment in
  if contains "anthropic" model_prefix || contains "claude" (lower model_id)
  then Ok (new_handler Claude model_id)
  else if contains "mistral" model_prefix
  then Ok (new_handler Mistral model_id)
  else if contains "meta" model_prefix || contains "llama" (lower model_id)
  then Ok (new_handler Llama model_id)
  else if contains "amazon" model_prefix || contains "nova" (lower model_id)
  then Ok (new_handler Nova model_id)
  else Raise (ValueError ("Unsupported model type: " ++ model_id)).

(** [handler.process(prompt, image_data)], by the class of the handler. *)
Definition handler_process (h : handler) (prompt : json) (image_data : string)
                           (rt : round_trip) : stepped json :=
  match kind h with
  | Claude => ClaudeHandler.process h prompt image_data rt
  | Mistral => mistral_process h prompt image_data rt
  | Llama => LlamaHandler.process h prompt image_data rt
  | Nova => NovaHandler.process json_dumps h prompt image_data rt
  end.

Record service : Type := {
  region : string;
  active_handler : option handler;
}.

Definition new_service (r : string) : service :=
  {| region := r; active_handler := None |}.

Definition set_model (s : service) (model_id : string) : result service :=
  h <- get_handler_for_model model_id ;;
  Ok {| region := region s; active_handler := Some h |}.

(** [process(prompt, image_data, model_id)]: a handler resolved for this call
    only when [model_id] is given, else the active one.  The result and the
    service afterwards. *)
Definition process (s : service) (prompt : json) (image_data : string)
                   (model_id : option string) (rt : round_trip)
  : result json * service :=
  match model_id with
  | Some (String _ _ as id) =>
      match get_handler_for_model id with
      | Raise e => (Raise e, s)
      | Ok h => (fst (handler_process h prompt image_data rt), s)
      end
  | _ =>
      match active_handler s with
      | Some h =>
          let (r, h') := handler_process h prompt image_data rt in
          (r, {| region := region s; active_handler := Some h' |})
      | None => (Raise (ValueError "No model specified and no active model set"), s)
      end
  end.

End Service.

End Bedrock.

(* ================================================================== *)
(** * services/pricing.py *)
(* ================================================================== *)

Module Pricing.

(** The cost arithmetic is written once over the number type and its
    operations, and read both over the reals and over binary64. *)
Section Arithmetic.

Variable F : Type.
Variable of_int : Z -> F.
Variables add mul div : F -> F -> F.

Record TokenPricing : Type := {
  prompt_rate : F;
  completion_rate : F;
}.

Record Cost : Type := {
  prompt_cost : F;
  completion_cost : F;
  total_cost : F;
}.

Record PricingService : Type := {
  default_pricing : TokenPricing;
  current_pricing : TokenPricing;
}.

(** [__init__], given the two default rates written in the source. *)
Definition init (defaults : TokenPricing) : PricingService :=
  {| default_pricing := defaults; current_pricing := defaults |}.

Definition get_pricing (self : PricingService) : TokenPricing :=
  current_pricing self.

Definition reset_to_defaults (self : PricingService) : PricingService :=
  {| default_pricing := default_pricing self;
     current_pricing := default_pricing self |}.

Definition calculate_cost (self : PricingService)
                          (prompt_tokens completion_tokens : Z) : Cost :=
  let prompt_cost :=
    mul (of_int prompt_tokens)
        (div (prompt_rate (current_pricing self)) (of_int 1000)) in
  let completion_cost :=
    mul (of_int completion_tokens)
        (div (completion_rate (current_pricing self)) (of_int 1000)) in
  {| prompt_cost := prompt_cost;
     completion_cost := completion_cost;
     total_cost := add prompt_cost completion_cost |}.

End Arithmetic.

Arguments prompt_rate {F} _.
Arguments completion_rate {F} _.
Arguments prompt_cost {F} _.
Arguments completion_cost {F} _.
Arguments total_cost {F} _.
Arguments default_pricing {F} _.
Arguments current_pricing {F} _.
Arguments init {F} _.
Arguments get_pricing {F} _.
Arguments reset_to_defaults {F} _.

(** Over the reals. *)
Definition defaults_R : TokenPricing R :=
  {| prompt_rate := 0.002%R; completion_rate := 0.006%R |}.

Definition calculate_cost_R : PricingService R -> Z -> Z -> Cost R :=
  calculate_cost R IZR Rplus Rmult Rdiv.

(** Over binary64, for token counts below 2^53, which convert exactly. *)
Module Binary64.
Import PrimFloat.

Definition float_of_int (n : Z) : float := of_uint63 (Uint63.of_Z n).

Definition defaults : TokenPricing float :=
  {| prompt_rate := 0.002%float; completion_rate := 0.006%float |}.

Definition calculate_cost_b64 : PricingService float -> Z -> Z -> Cost float :=
  calculate_cost float float_of_int PrimFloat.add PrimFloat.mul PrimFloat.div.

End Binary64.

End Pricing.

(* ================================================================== *)
(** * agent.py *)
(* ================================================================== *)

Module Agent.
Import Py PyNotations Json JsonDecoder ModelMetadata.

(** ** [base64.b64encode] *)

Definition b64_char (n : N) : ascii :=
  if (n <? 26)%N then ascii_of_N (65 + n)%N
  else if (n <? 52)%N then ascii_of_N (71 + n)%N
  else if (n <? 62)%N then ascii_of_N (n - 4)%N
  else if (n =? 62)%N then "+"%char
  else "/"%char.

Definition b64_quad (a b c : ascii) : N :=
  (N_of_ascii a * 65536 + N_of_ascii b * 256 + N_of_ascii c)%N.

Definition b64_sextet (n : N) (k : N) : ascii := b64_char ((n / k) mod 64)%N.

Fixpoint b64encode (bytes : string) : string :=
  match bytes with
  | EmptyString => EmptyString
  | String a EmptyString =>
      let n := b64_quad a zero zero in
      String (b64_sextet n 262144) (String (b64_sextet n 4096) "==")
  | String a (String b EmptyString) =>
      let n := b64_quad a b zero in
      String (b64_sextet n 262144)
        (String (b64_sextet n 4096) (String (b64_sextet n 64) "="))
  | String a (String b (String c rest)) =>
      let n := b64_quad a b c in
      String (b64_sextet n 262144)
        (String (b64_sextet n 4096)
           (String (b64_sextet n 64) (String (b64_sextet n 1) (b64encode rest))))
  end.

(** [str(n)] *)
Definition str_of_int (n : Z) : string := NilZero.string_of_int (Z.to_int n).

(** [os.environ.get] *)
Definition environ : Type := string -> option string.

(** [env.get(a) or env.get(b) or default]: an unset or empty variable is
    skipped. *)
Definition env_or (env : environ) (name : string) (otherwise : string) : string :=
  match env name with
  | Some (String _ _ as v) => v
  | _ => otherwise
  end.

Section Environment.

(** The two library and package functions the handlers need. *)
Variable json_dumps : json -> string.
Variable mistral_process :
  Bedrock.handler -> json -> string -> Bedrock.round_trip -> Bedrock.stepped json.

(** [float(s)] for a string [s]: its value, or nothing when it raises
    [ValueError]. *)
Variable float_of_str : string -> option R.

(** The attributes of the agent that frame processing reads and writes.
    [metadata] is the dict that the module-level [model_metadata] handler
    loaded and keeps: the agent and the handler hold the same object. *)
Record agent : Type := {
  metadata : json;
  bedrock_service : Bedrock.service;
  model_id : json;
  image_count : Z;
  max_context_messages : json;
}.

Definition with_image_count (a : agent) (n : Z) : agent :=
  {| metadata := metadata a; bedrock_service := bedrock_service a;
     model_id := model_id a; image_count := n;
     max_context_messages := max_context_messages a |}.

Definition with_service (a : agent) (s : Bedrock.service) : agent :=
  {| metadata := metadata a; bedrock_service := s;
     model_id := model_id a; image_count := image_count a;
     max_context_messages := max_context_messages a |}.

Definition with_metadata (a : agent) (md : json) : agent :=
  {| metadata := md; bedrock_service := bedrock_service a;
     model_id := model_id a; image_count := image_count a;
     max_context_messages := max_context_messages a |}.

(** ** [_normalize_action] *)

(** [float(v)]: an [int] is rounded to the nearest float and raises
    [OverflowError] when it is too large. *)
Definition py_float (v : json) : result R :=
  match v with
  | JInt n =>
      match Float64.round64 (IZR n) with
      | Some x => Ok x
      | None => Raise (OverflowError "int too large to convert to float")
      end
  | JFloat x => Ok x
  | JBool b => Ok (if b then 1%R else 0%R)
  | JStr s =>
      match float_of_str s with
      | Some x => Ok x
      | None => Raise (ValueError "could not convert string to float")
      end
  | _ => Raise (TypeError "float() argument must be a string or a real number")
  end.

Definition is_axis (key : string) : bool :=
  String.eqb key "steering_angle" || String.eqb key "speed".

(** The loop that copies the other fields of the action into the normalised
    dict. *)
Definition preserve_fields (action normalized : dict) : dict :=
  fold_left
    (fun n kv =>
       if negb (dict_has (fst kv) n) && negb (is_axis (fst kv))
       then dict_set (fst kv) (snd kv) n
       else n)
    action normalized.

Fixpoint list_set {A} (l : list A) (i : nat) (x : A) : list A :=
  match l, i with
  | [], _ => []
  | _ :: r, O => x :: r
  | y :: r, S j => y :: list_set r j x
  end.

(** The metadata once entry [i] of its action list has become [entry]. *)
Definition set_action_entry (md : json) (i : nat) (entry : json) : json :=
  match md with
  | JObj d =>
      match dict_get "action_space" d with
      | Some (JArr l) => JObj (dict_set "action_space" (JArr (list_set l i entry)) d)
      | _ => md
      end
  | _ => md
  end.

(** The [try] block: the dict returned and the metadata afterwards.  For a
    discrete space the dict returned is the entry of the action list itself,
    so the fields copied into it stay in the metadata. *)
Definition normalize_attempt (md action : json) : result (json * json) :=
  a <- get action "steering_angle" (JFloat 0) ;;
  steering_angle <- py_float a ;;
  b <- get action "speed" (JFloat 1) ;;
  speed <- py_float b ;;
  normalized <- normalize_action md steering_angle speed ;;
  fields <- items action ;;
  match normalized with
  | NewDict (JObj d) => Ok (JObj (preserve_fields fields d), md)
  | Member i (JObj d) =>
      let entry := JObj (preserve_fields fields d) in
      Ok (entry, set_action_entry md i entry)
  | _ => Raise (TypeError "argument is not iterable")
  end.

Definition _normalize_action (md action : json) : json * json :=
  match normalize_attempt md action with
  | Ok r => r
  | Raise _ => (action, md)
  end.

(** ** [process_image] *)

Definition _image_to_base64 (fs : file_system) (image_path : string) : result string :=
  match fs image_path with
  | Some bytes => Ok (b64encode bytes)
  | None => Raise (FileNotFoundError ("No such file or directory: " ++ image_path))
  end.

Definition context_hint : string :=
  " Compare with previous image to interpret how you are moving.".

(** [prompt += context_hint]: the prompt afterwards and the metadata
    afterwards.  A list is extended in place by the characters, and that
    list is the one the metadata holds. *)
Definition add_hint (md prompt : json) : result (json * json) :=
  match prompt with
  | JStr p => Ok (JStr (p ++ context_hint), md)
  | JArr l =>
      let l' := l ++ map (fun c => JStr (String c EmptyString))
                         (list_ascii_of_string context_hint) in
      match md with
      | JObj d =>
          match dict_get "llm_config" d with
          | Some (JObj cfg) =>
              Ok (JArr l',
                  JObj (dict_set "llm_config"
                          (JObj (dict_set "repeated_prompt" (JArr l') cfg)) d))
          | _ => Ok (JArr l', md)
          end
      | _ => Ok (JArr l', md)
      end
  | _ => Raise (TypeError "unsupported operand type(s) for +=")
  end.

(** The statements of the outer [try] that come before the inner one. *)
Definition prepare_frame (a : agent) (fs : file_system) (image_path : string)
  : result (string * json * json) :=
  b64_image <- _image_to_base64 fs image_path ;;
  llm_config <- get (metadata a) "llm_config" (JObj []) ;;
  prompt <- get llm_config "repeated_prompt"
              (JStr ("Analyze this image. This is image #"
                     ++ str_of_int (image_count a) ++ ".")) ;;
  if (1 <? image_count a)%Z then
    tracking <- positive (max_context_messages a) ;;
    if tracking then
      r <- add_hint (metadata a) prompt ;;
      Ok (b64_image, fst r, snd r)
    else Ok (b64_image, prompt, metadata a)
  else Ok (b64_image, prompt, metadata a).

(** The validation of the parsed action in the inner [try]. *)
Definition fill_missing (action : json) : result json :=
  has_steering <- py_in "steering_angle" action ;;
  has_speed <- (if has_steering then py_in "speed" action else Ok false) ;;
  if has_steering && has_speed then Ok action
  else
    has_steering <- py_in "steering_angle" action ;;
    a1 <- (if has_steering then Ok action
           else setitem action "steering_angle" (JFloat 0)) ;;
    has_speed <- py_in "speed" a1 ;;
    a2 <- (if has_speed then Ok a1 else setitem a1 "speed" (JFloat 1)) ;;
    a3 <- setitem a2 "fallback" (JBool true) ;;
    setitem a3 "error" (JStr "Missing required parameters in response").

(** The dict of the inner [except]. *)
Definition failed (e : exn) : json :=
  JObj [("steering_angle", JFloat 0); ("speed", JFloat 1);
        ("fallback", JBool true);
        ("error", JStr ("Failed to process: " ++ exn_str e))].

(** The dict of the outer [except]. *)
Definition safe_default : json :=
  JObj [("steering_angle", JFloat 0); ("speed", JFloat 1)].

(** [process_image(image_path)]: the value returned and the agent
    afterwards. *)
Definition process_image (a : agent) (fs : file_system) (image_path : string)
                         (rt : Bedrock.round_trip) : json * agent :=
  let a1 := with_image_count a (image_count a + 1) in
  match prepare_frame a1 fs image_path with
  | Raise _ => (safe_default, a1)
  | Ok (b64_image, prompt, md) =>
      let a2 := with_metadata a1 md in
      let (r, s) := Bedrock.process json_dumps mistral_process
                      (bedrock_service a2) prompt b64_image None rt in
      let a3 := with_service a2 s in
      match (action <- r ;; fill_missing action) with
      | Raise e => (failed e, a3)
      | Ok action =>
          let (result, md') := _normalize_action (metadata a3) action in
          (result, with_metadata a3 md')
      end
  end.

(** ** [__init__] *)

(** [os.environ.get(name, default)] *)
Definition env_get (env : environ) (name otherwise : string) : string :=
  match env name with
  | Some v => v
  | None => otherwise
  end.

Definition _get_model_id_from_metadata (env : environ) (md : json) : result json :=
  llm <- is_llm_model md ;;
  configured <-
    (if llm then
       llm_config <- get_llm_config md ;;
       if truth llm_config then
         has_id <- py_in "model_id" llm_config ;;
         if has_id then id <- getitem llm_config "model_id" ;; Ok (Some id)
         else Ok None
       else Ok None
     else Ok None) ;;
  match configured with
  | Some id => Ok id
  | None =>
      Ok (JStr (env_or env "INFERENCE_PROFILE_ARN"
                  (env_or env "DEFAULT_MODEL_ID"
                     "anthropic.claude-3-sonnet-20240229-v1:0")))
  end.

(** [bedrock_service.set_model(model_id)]: only a [str] has [split]. *)
Definition set_model (s : Bedrock.service) (id : json) : result Bedrock.service :=
  match id with
  | JStr m => Bedrock.set_model s m
  | _ => Raise (AttributeError "object has no attribute 'split'")
  end.

(** The four setters called on the active handler. *)
Definition configure (s : Bedrock.service) (md : json) : result Bedrock.service :=
  match Bedrock.active_handler s with
  | None => Raise (AttributeError "'NoneType' object has no attribute 'set_system_prompt'")
  | Some h =>
      llm_config <- getitem md "llm_config" ;;
      prompt <- get llm_config "system_prompt" (JStr "You are an AI driver assistant.") ;;
      let h := Bedrock.set_system_prompt h prompt in
      llm_config <- getitem md "llm_config" ;;
      window <- get llm_config "context_window" (JInt 0) ;;
      let h := Bedrock.set_max_context_messages h window in
      space <- get md "action_space" JNull ;;
      let h := Bedrock.set_action_space h space in
      space_type <- get md "action_space_type" JNull ;;
      let h := Bedrock.set_action_space_type h space_type in
      Ok {| Bedrock.region := Bedrock.region s; Bedrock.active_handler := Some h |}
  end.

(** [LLMAgent(metadata_path)], with the module-level handler not yet loaded.
    The pricing service and the logger take no part in frame processing and
    are left out. *)
Definition init (fs : file_system) (env : environ) (metadata_path : string)
  : result agent :=
  md <- fst (load_model_metadata fs metadata_path JNull) ;;
  let aws_region := env_get env "AWS_REGION" "eu-central-1" in
  id <- _get_model_id_from_metadata env md ;;
  raise_if (negb (truth id))
           (ValueError "No model ID specified in configuration or environment") ;;;
  s <- set_model (Bedrock.new_service aws_region) id ;;
  s <- configure s md ;;
  llm_config <- get md "llm_config" (JObj []) ;;
  window <- get llm_config "context_window" (JInt 0) ;;
  Ok {| metadata := md; bedrock_service := s; model_id := id;
        image_count := 0; max_context_messages := window |}.

End Environment.

End Agent.

(* ================================================================== *)
(** * Sample configurations and responses *)
(* ================================================================== *)

Module Samples.
Import Py Json JsonDecoder ModelMetadata.

(** A metadata file with three discrete actions, bound to a Claude inference
    profile, remembering one turn. *)
Definition discrete_metadata_text : string :=
  q "{'action_space': [{'steering_angle': -30, 'speed': 1}, {'steering_angle': 0, 'speed': 2}, {'steering_angle': 30, 'speed': 1}], 'sensor': ['FRONT_FACING_CAMERA'], 'neural_network': 'LLM', 'llm_config': {'model_id': 'arn:aws:bedrock:eu-central-1:123456789012:inference-profile/eu.anthropic.claude-3-sonnet-20240229-v1:0', 'max_tokens': 1000, 'system_prompt': 'You drive a car.', 'repeated_prompt': 'Next image.', 'context_window': 1}}".

Definition discrete_actions : list json :=
  [JObj [("steering_angle", JInt (-30)); ("speed", JInt 1)];
   JObj [("steering_angle", JInt 0); ("speed", JInt 2)];
   JObj [("steering_angle", JInt 30); ("speed", JInt 1)]].

(** A metadata file that declares an LLM and has no [llm_config]. *)
Definition llm_without_config_text : string :=
  q "{'action_space': [{'steering_angle': 0, 'speed': 1}], 'sensor': ['FRONT_FACING_CAMERA'], 'neural_network': 'LLM'}".

(** A metadata object with an empty list of actions. *)
Definition empty_space_metadata : json :=
  JObj [("action_space", JArr []);
        ("sensor", JArr [JStr "FRONT_FACING_CAMERA"]);
        ("neural_network", JStr "DEEP_CONVOLUTIONAL_NETWORK_SHALLOW");
        ("training_algorithm", JStr "clipped_ppo")].

(** A metadata object with a continuous space: steering in [-30, 30], speed
    in [1, 4]. *)
Definition continuous_metadata : json :=
  JObj [("action_space",
         JObj [("steering_angle", JObj [("low", JInt (-30)); ("high", JInt 30)]);
               ("speed", JObj [("low", JInt 1); ("high", JInt 4)])]);
        ("sensor", JArr [JStr "FRONT_FACING_CAMERA"]);
        ("neural_network", JStr "DEEP_CONVOLUTIONAL_NETWORK_SHALLOW");
        ("training_algorithm", JStr "sac")].

(** A metadata object with two actions on either side of the straight line
    at the same speed. *)
Definition two_sided_actions : list json :=
  [JObj [("steering_angle", JInt (-1)); ("speed", JInt 1)];
   JObj [("steering_angle", JInt 1); ("speed", JInt 1)]].

Definition two_sided_metadata : json :=
  JObj [("action_space", JArr two_sided_actions);
        ("sensor", JArr [JStr "FRONT_FACING_CAMERA"]);
        ("neural_network", JStr "DEEP_CONVOLUTIONAL_NETWORK_SHALLOW");
        ("training_algorithm", JStr "clipped_ppo")].

(** The files of a run: the metadata and one camera frame. *)
Definition files : file_system :=
  fun path =>
    if String.eqb path "model_metadata.json" then Some discrete_metadata_text
    else if String.eqb path "bad_metadata.json" then Some llm_without_config_text
    else if String.eqb path "frame_1.jpg" then Some "JFIF"
    else None.

Definition no_environ : Agent.environ := fun _ => None.

(** A nested object, raw and in the two kinds of fenced block. *)
Definition nested_value : json := JObj [("a", JObj [("b", JInt 1)])].
Definition nested_raw : string := q "{'a': {'b': 1}}".
Definition nested_tagged : string := "```json" ++ nl ++ nested_raw ++ nl ++ "```".
Definition nested_untagged : string := "```" ++ nl ++ nested_raw ++ nl ++ "```".

(** Response bodies of the three vendors that carry the reply [text]. *)
Definition claude_body (text : string) : json :=
  JObj [("content", JArr [JObj [("type", JStr "text"); ("text", JStr text)]])].

Definition llama_body (text : string) : json :=
  JObj [("generation", JStr text)].

Definition nova_body (text : string) : json :=
  JObj [("output",
         JObj [("message",
                JObj [("content", JArr [JObj [("text", JStr text)]])])])].

(** The agent that [LLMAgent("model_metadata.json")] builds from [files]. *)
Definition discrete_metadata : json :=
  JObj [("action_space", JArr discrete_actions);
        ("sensor", JArr [JStr "FRONT_FACING_CAMERA"]);
        ("neural_network", JStr "LLM");
        ("llm_config",
         JObj [("model_id", JStr "arn:aws:bedrock:eu-central-1:123456789012:inference-profile/eu.anthropic.claude-3-sonnet-20240229-v1:0");
               ("max_tokens", JInt 1000);
               ("system_prompt", JStr "You drive a car.");
               ("repeated_prompt", JStr "Next image.");
               ("context_window", JInt 1)])].

Definition claude_agent : Agent.agent :=
  {| Agent.metadata := discrete_metadata;
     Agent.bedrock_service :=
       {| Bedrock.region := "eu-central-1";
          Bedrock.active_handler :=
            Some {| Bedrock.kind := Bedrock.Claude;
                    Bedrock.model_id := "arn:aws:bedrock:eu-central-1:123456789012:inference-profile/eu.anthropic.claude-3-sonnet-20240229-v1:0";
                    Bedrock.system_prompt := JStr "You drive a car.";
                    Bedrock.max_context_messages := JInt 1;
                    Bedrock.conversation_context := [];
                    Bedrock.action_space := JArr discrete_actions;
                    Bedrock.action_space_type := JNull |} |};
     Agent.model_id := JStr "arn:aws:bedrock:eu-central-1:123456789012:inference-profile/eu.anthropic.claude-3-sonnet-20240229-v1:0";
     Agent.image_count := 0;
     Agent.max_context_messages := JInt 1 |}.

(** Stand-ins for the functions the model takes as parameters, for the
    runs below, which do not reach them. *)
Definition dumps_stub : json -> string := fun _ => "".
Definition mistral_stub
  : Bedrock.handler -> json -> string -> Bedrock.round_trip -> Bedrock.stepped json :=
  fun h _ _ _ => (Raise (ExternalError "no Mistral handler"), h).
Definition float_stub : string -> option R := fun _ => None.

Definition good_reply : string := q "{'steering_angle': 0, 'speed': 2}".

(** A reply whose steering angle is [null]. *)
Definition null_steering_reply : string := q "{'steering_angle': null, 'speed': 99}".

(** Two actions of which the first is so close to the origin that the square
    of its steering angle is below every float, and the second is the
    origin. *)
Definition underflow_actions : list json :=
  [JObj [("steering_angle", JFloat (Float64.pow2 (-600))); ("speed", JInt 0)];
   JObj [("steering_angle", JInt 0); ("speed", JInt 0)]].

Definition underflow_metadata : json :=
  JObj [("action_space", JArr underflow_actions);
        ("sensor", JArr [JStr "FRONT_FACING_CAMERA"]);
        ("neural_network", JStr "DEEP_CONVOLUTIONAL_NETWORK_SHALLOW");
        ("training_algorithm", JStr "clipped_ppo")].

(** Three actions of which the first is farther from the origin than the two
    others by less than the rounding of the sum of squares. *)
Definition rounding_actions : list json :=
  [JObj [("steering_angle", JInt 1); ("speed", JFloat (Float64.pow2 (-30)))];
   JObj [("steering_angle", JInt 1); ("speed", JInt 0)];
   JObj [("steering_angle", JInt (-1)); ("speed", JInt 0)]].

Definition rounding_metadata : json :=
  JObj [("action_space", JArr rounding_actions);
        ("sensor", JArr [JStr "FRONT_FACING_CAMERA"]);
        ("neural_network", JStr "DEEP_CONVOLUTIONAL_NETWORK_SHALLOW");
        ("training_algorithm", JStr "clipped_ppo")].

End Samples.

(* ================================================================== *)
(** * Runs of a handler *)
(* ================================================================== *)

Module Runs.
Import Py PyNotations Json Bedrock.

(** One call of [process]: the prompt, the image and the outcome of the
    request. *)
Definition call : Type := (json * string * round_trip)%type.

(** The handler after a sequence of calls of [process]; the results of the
    calls are dropped. *)
Definition run (json_dumps : json -> string)
               (mistral_process : handler -> json -> string -> round_trip -> stepped json)
               (h : handler) (calls : list call) : handler :=
  fold_left
    (fun h c =>
       snd (handler_process json_dumps mistral_process h (fst (fst c)) (snd (fst c)) (snd c)))
    calls h.

(** A handler of family [k] that remembers [n] turns. *)
Definition fresh (k : family) (n : Z) : handler :=
  set_max_context_messages (new_handler k "model") (JInt n).

(** The last [k] entries of a list. *)
Definition keep_last {A} (k : nat) (l : list A) : list A := skipn (length l - k) l.

(** The two messages that a call adds to the conversation when the request
    returns a body and the handler reads a reply from it; nothing when the
    request or the reading raises. *)
Definition exchange (json_dumps : json -> string) (k : family) (c : call)
  : option (list json) :=
  let prompt := fst (fst c) in
  let image := snd (fst c) in
  match snd c with
  | Raise _ => None
  | Ok body =>
      match k with
      | Claude =>
          match (content <- get body "content" (JArr []) ;;
                 blocks <- iter content ;;
                 ClaudeHandler.join_text_blocks blocks "") with
          | Ok text =>
              Some [message "user" (JArr [JObj [("type", JStr "text"); ("text", prompt)]]);
                    message "assistant"
                      (JArr [JObj [("type", JStr "text"); ("text", JStr text)]])]
          | Raise _ => None
          end
      | Llama =>
          match get body "generation" (JStr "") with
          | Ok reply => Some [message "user" prompt; message "assistant" reply]
          | Raise _ => None
          end
      | Nova =>
          match NovaHandler.reply_text body with
          | Ok found =>
              let content_text :=
                match found with
                | Some t => t
                | None => JStr (json_dumps body)
                end in
              Some [NovaHandler._create_user_message prompt image;
                    message "assistant" (JArr [JObj [("text", content_text)]])]
          | Raise _ => None
          end
      | Mistral => None
      end
  end.

(** The messages of a sequence of calls that all add their exchange. *)
Fixpoint history (json_dumps : json -> string) (k : family) (calls : list call)
  : option (list json) :=
  match calls with
  | [] => Some []
  | c :: rest =>
      match exchange json_dumps k c, history json_dumps k rest with
      | Some e, Some h => Some (e ++ h)
      | _, _ => None
      end
  end.

(** The number of entries a handler keeps for [context_window = n]: the
    Claude and Llama handlers keep [n] pairs, the Nova handler [n] messages. *)
Definition context_bound (k : family) (n : Z) : nat :=
  match k with
  | Nova => Z.to_nat n
  | _ => (2 * Z.to_nat n)%nat
  end.

End Runs.

(* ================================================================== *)
(** * Notions used to state the properties of the action space *)
(* ================================================================== *)

Module ActionSpace.
Import Py PyNotations Json ModelMetadata.

(** The number an action entry carries on an axis (zero for an entry that
    carries none, which validation excludes). *)
Definition axis_value (e : json) (axis : string) : R :=
  match e with
  | JObj d =>
      match dict_get axis d with
      | Some a => match num_value a with Some x => x | None => 0%R end
      | None => 0%R
      end
  | _ => 0%R
  end.

Definition steering_of (e : json) : R := axis_value e "steering_angle".
Definition speed_of (e : json) : R := axis_value e "speed".

(** The Euclidean distance from the pair [(s, v)] to an entry, as a real
    number, nothing rounded. *)
Definition distance (s v : R) (e : json) : R :=
  sqrt ((steering_of e - s) * (steering_of e - s)
        + (speed_of e - v) * (speed_of e - v)).

(** An entry as validation leaves it: a dict with a number on both axes. *)
Definition declared_entry (e : json) : Prop :=
  exists d a b,
    e = JObj d
    /\ dict_get "steering_angle" d = Some a /\ is_number a = true
    /\ dict_get "speed" d = Some b /\ is_number b = true.

(** The declared action list of a metadata object. *)
Definition declared_actions (md : json) (actions : list json) : Prop :=
  getitem md "action_space" = Ok (JArr actions).

(** The declared range of an axis of a continuous space. *)
Definition declared_range (md : json) (axis : string) (low high : R) : Prop :=
  exists space,
    getitem md "action_space" = Ok space
    /\ range_bound space axis "low" = Ok low
    /\ range_bound space axis "high" = Ok high.

(** The float an entry carries on an axis. *)
Definition axis_float (e : json) (axis : string) : Float64.f64 :=
  Float64.round64 (axis_value e axis).

(** The distance from the pair [(s, v)] to an entry as the loop computes it,
    every operation rounded; [None] when it is not finite. *)
Definition computed_distance (s v : R) (e : json) : Float64.f64 :=
  let steering_diff :=
    Float64.fsub (axis_float e "steering_angle") (Float64.round64 s) in
  let speed_diff := Float64.fsub (axis_float e "speed") (Float64.round64 v) in
  Float64.fsqrt (Float64.fadd (Float64.fmul steering_diff steering_diff)
                              (Float64.fmul speed_diff speed_diff)).

(** [a <= b] on computed distances, one that is not finite being above every
    finite one. *)
Definition fle (a b : Float64.f64) : Prop :=
  match a, b with
  | _, None => True
  | None, Some _ => False
  | Some x, Some y => (x <= y)%R
  end.

(** The integer on an axis of an entry, if it carries one, converts to a
    float. *)
Definition int_fits (e : json) (axis : string) : Prop :=
  match e with
  | JObj d =>
      match dict_get axis d with
      | Some a =>
          match int_value a with
          | Some n => Float64.round64 (IZR n) <> None
          | None => True
          end
      | None => True
      end
  | _ => True
  end.

Definition ints_fit (e : json) : Prop :=
  int_fits e "steering_angle" /\ int_fits e "speed".

(** Entry [e] stands at position [j] of [l], no entry of [l] is at a smaller
    computed distance from [(s, v)], and every entry before it is at a
    strictly greater one. *)
Definition first_minimum (s v : R) (l : list json) (j : nat) (e : json) : Prop :=
  nth_error l j = Some e
  /\ (forall e', In e' l -> fle (computed_distance s v e) (computed_distance s v e'))
  /\ (forall k e', (k < j)%nat -> nth_error l k = Some e' ->
                   Float64.flt (computed_distance s v e) (computed_distance s v e') = true).

End ActionSpace.

(* ================================================================== *)
(** * Notions used to state the properties of the extractor *)
(* ================================================================== *)

Module ExtractorNotions.
Import Py Json JsonDecoder.

(** A text made of whitespace only. *)
Fixpoint all_space (s : string) : bool :=
  match s with
  | EmptyString => true
  | String c r => is_space c && all_space r
  end.

(** What the extractor makes of the text it has selected: the decoded value,
    or its own [ValueError]. *)
Definition loads_or_ValueError (selected model_name : string) : result json :=
  match json_loads selected with
  | Ok v => Ok v
  | Raise _ =>
      Raise (ValueError ("No valid JSON found in " ++ model_name ++ " response"))
  end.

End ExtractorNotions.

(* ================================================================== *)
(** * utils/model_metadata.py: the queries *)
(* ================================================================== *)

Module ModelMetadataQueries.
Import Py PyNotations Json ModelMetadata.

(** [a >= b] and [a <= b] on numbers *)
Definition ge_num (a b : json) : result bool :=
  lt <- lt_num a b ;; Ok (negb lt).

Definition le_num (a b : json) : result bool :=
  gt <- lt_num b a ;; Ok (negb gt).

(** [get_action_space()] *)
Definition get_action_space (md : json) : result json :=
  if negb (truth md) then no_metadata else getitem md "action_space".

(** [get_discrete_actions()]: [None] is [JNull]. *)
Definition get_discrete_actions (md : json) : result json :=
  if negb (truth md) then Ok JNull
  else
    t <- get_action_space_type md ;;
    if negb (is_discrete t) then Ok JNull else getitem md "action_space".

(** [get_continuous_action_space()] *)
Definition get_continuous_action_space (md : json) : result json :=
  if negb (truth md) then Ok JNull
  else
    t <- get_action_space_type md ;;
    if negb (is_continuous t) then Ok JNull else getitem md "action_space".

(** [x >= range["low"] and x <= range["high"]] *)
Definition within_range (range : json) (x : R) : result bool :=
  low <- getitem range "low" ;;
  above <- ge_num (JFloat x) low ;;
  if above then
    high <- getitem range "high" ;;
    le_num (JFloat x) high
  else Ok false.

(** [any(action[axis] == x for action in actions)] *)
Fixpoint any_axis_equals (axis : string) (x : R) (actions : list json) : result bool :=
  match actions with
  | [] => Ok false
  | action :: rest =>
      a <- getitem action axis ;;
      if eq_float a x then Ok true else any_axis_equals axis x rest
  end.

Definition is_valid_steering_angle (md : json) (steering_angle : R) : result bool :=
  if negb (truth md) then no_metadata
  else
    t <- get_action_space_type md ;;
    if is_continuous t then
      space <- getitem md "action_space" ;;
      steering_range <- getitem space "steering_angle" ;;
      within_range steering_range steering_angle
    else
      actions <- getitem md "action_space" ;;
      entries <- iter actions ;;
      any_axis_equals "steering_angle" steering_angle entries.

Definition is_valid_speed (md : json) (speed : R) : result bool :=
  if negb (truth md) then no_metadata
  else
    t <- get_action_space_type md ;;
    if is_continuous t then
      space <- getitem md "action_space" ;;
      speed_range <- getitem space "speed" ;;
      within_range speed_range speed
    else
      actions <- getitem md "action_space" ;;
      entries <- iter actions ;;
      any_axis_equals "speed" speed entries.

End ModelMetadataQueries.


(* ================================================================== *)
(** * Notions used to state the properties of the handlers *)
(* ================================================================== *)

Module HandlerNotions.
Import Json Bedrock.

(** The message that [process] of a handler of family [k] appends for the
    user before the request is made. *)
Definition user_message (k : family) (prompt : json) (image_data : string) : json :=
  match k with
  | Claude => message "user" (JArr [JObj [("type", JStr "text"); ("text", prompt)]])
  | Llama => message "user" prompt
  | Nova => NovaHandler._create_user_message prompt image_data
  | Mistral => JNull
  end.

End HandlerNotions.

(* ================================================================== *)
(** * agent.py: [_parse_action] *)
(* ================================================================== *)

Module AgentParsing.
Import Py PyNotations Json JsonExtractor.

(** The dict of the [except] branch of [_parse_action]. *)
Definition parse_failed (e : exn) : json :=
  JObj [("steering_angle", JFloat 0); ("speed", JFloat 1);
        ("fallback", JBool true);
        ("error", JStr ("Failed to parse: " ++ exn_str e))].

(** [_parse_action(response_text)]: the extractor is called without a model
    name, so with its default ["LLM"]; the check of the two fields is the one
    [process_image] makes. *)
Definition _parse_action (response_text : string) : json :=
  try_except
    (action <- extract_json_from_llm_response response_text "LLM" ;;
     Agent.fill_missing action)
    parse_failed.

End AgentParsing.

(* ================================================================== *)
(** * Further sample configurations *)
(* ================================================================== *)

Module MoreSamples.
Import Py Json.

(** A metadata object with a continuous space, steering in [-30, 30] and
    speed in [1, 4], bound to a Claude inference profile. *)
Definition continuous_llm_metadata : json :=
  JObj [("action_space",
         JObj [("steering_angle", JObj [("low", JInt (-30)); ("high", JInt 30)]);
               ("speed", JObj [("low", JInt 1); ("high", JInt 4)])]);
        ("sensor", JArr [JStr "FRONT_FACING_CAMERA"]);
        ("neural_network", JStr "LLM");
        ("llm_config",
         JObj [("model_id", JStr "profile/eu.anthropic.claude-3-sonnet-20240229-v1:0");
               ("max_tokens", JInt 1000);
               ("system_prompt", JStr "You drive a car.");
               ("repeated_prompt", JStr "Next image.");
               ("context_window", JInt 0)])].

Definition continuous_agent : Agent.agent :=
  {| Agent.metadata := continuous_llm_metadata;
     Agent.bedrock_service :=
       {| Bedrock.region := "eu-central-1";
          Bedrock.active_handler :=
            Some {| Bedrock.kind := Bedrock.Claude;
                    Bedrock.model_id := "profile/eu.anthropic.claude-3-sonnet-20240229-v1:0";
                    Bedrock.system_prompt := JStr "You drive a car.";
                    Bedrock.max_context_messages := JInt 0;
                    Bedrock.conversation_context := [];
                    Bedrock.action_space :=
                      JObj [("steering_angle", JObj [("low", JInt (-30)); ("high", JInt 30)]);
                            ("speed", JObj [("low", JInt 1); ("high", JInt 4)])];
                    Bedrock.action_space_type := JNull |} |};
     Agent.model_id := JStr "profile/eu.anthropic.claude-3-sonnet-20240229-v1:0";
     Agent.image_count := 0;
     Agent.max_context_messages := JInt 0 |}.

(** A reply outside the ranges, with a field of its own. *)
Definition wide_reply : string :=
  q "{'steering_angle': 45, 'speed': 2, 'reason': 'sharp turn'}".

(** A reply that is a JSON string, not an object. *)
Definition string_reply : string := q "'steering_angle and speed'".

End MoreSamples.

(* ================================================================== *)
(** * services/pricing.py: [_get_model_name] *)
(* ================================================================== *)

Module PricingNames.
Import Py.

(** [model_mapping], in the order of the source; the loop over its items
    goes in that order. *)
Definition model_mapping : list (string * string) :=
  [("amazon.nova-lite", "Nova Lite");
   ("amazon.nova-pro", "Nova Pro");
   ("anthropic.claude-3-sonnet", "Claude 3 Sonnet");
   ("anthropic.claude-3-haiku", "Claude 3 Haiku");
   ("anthropic.claude-3-opus", "Claude 3 Opus");
   ("mistral.mistral-large", "Mistral Large");
   ("mistral.pixtral-large", "Pixtral Large 25.02");
   ("meta.llama3", "Llama 3")].

Definition model_families : list string := ["claude"; "mistral"; "nova"; "llama"].

Definition ascii_upper (c : ascii) : ascii :=
  let n := nat_of_ascii c in
  if (97 <=? n)%nat && (n <=? 122)%nat then ascii_of_nat (n - 32) else c.

(** [s.capitalize()] *)
Definition capitalize (s : string) : string :=
  match s with
  | EmptyString => EmptyString
  | String c r => String (ascii_upper c) (lower r)
  end.

(** [for key, value in model_mapping.items(): if key in model_name: return value] *)
Fixpoint first_mapped (mapping : list (string * string)) (model_name : string)
  : option string :=
  match mapping with
  | [] => None
  | (key, value) :: rest =>
      if contains key model_name then Some value else first_mapped rest model_name
  end.

(** [for model_family in [...]: if model_family in model_name.lower():
    return model_family.capitalize()] *)
Fixpoint first_family (families : list string) (model_name : string) : option string :=
  match families with
  | [] => None
  | model_family :: rest =>
      if contains model_family (lower model_name) then Some (capitalize model_family)
      else first_family rest model_name
  end.

(** [parts[-1]] of a list that [split] returned, which is never empty. *)
Definition last_part (parts : list string) : string := last parts EmptyString.

(** [s.split(":")[0]] *)
Definition before_colon (s : string) : string := hd EmptyString (split ":" s).

(** The name the two loops search. *)
Definition searched_name (model_id : string) : string :=
  if contains "arn:aws:bedrock" model_id then
    let parts := split "/" model_id in
    if contains ":" (last_part parts) then before_colon (last_part parts)
    else "Unknown"
  else model_id.

Definition _get_model_name (model_id : string) : string :=
  let model_name := searched_name model_id in
  match first_mapped model_mapping model_name with
  | Some value => value
  | None =>
      match first_family model_families model_name with
      | Some family => family
      | None => "Unknown"
      end
  end.

End PricingNames.

(* ================================================================== *)
(** * __main__.py: the frames of a run *)
(* ================================================================== *)

Module MainFrames.

(** [range(k)] *)
Definition range (k : Z) : list Z := map Z.of_nat (seq 0 (Z.to_nat k)).

(** [l[i]] for an integer [i]: a negative index counts from the end; nothing
    when the index is out of range, where the source raises [IndexError]. *)
Definition list_index {A} (l : list A) (i : Z) : option A :=
  let n := Z.of_nat (length l) in
  if (0 <=? i)%Z then nth_error l (Z.to_nat i)
  else if (0 <=? n + i)%Z then nth_error l (Z.to_nat (n + i))
  else None.

(** The number of frames to process, for [len(image_files) = n]:
    [max_frames = options.get('frames') or ((n - start_offset) // skip_factor)]
    and [frames_to_process = min(max_frames, (n - start_offset) // skip_factor)].
    Nothing when [skip_factor] is zero, where [//] raises.  [Z.div] rounds
    down, as [//] does. *)
Definition frames_to_process (n start_offset skip_factor : Z) (frames : option Z)
  : option Z :=
  if (skip_factor =? 0)%Z then None
  else
    let available := ((n - start_offset) / skip_factor)%Z in
    let max_frames :=
      match frames with
      | Some f => if (f =? 0)%Z then available else f
      | None => available
      end in
    Some (Z.min max_frames available).

(** [frame_index] for each turn of the loop, in order. *)
Definition frame_indices (n start_offset skip_factor : Z) (frames : option Z)
  : option (list Z) :=
  match frames_to_process n start_offset skip_factor frames with
  | None => None
  | Some k => Some (map (fun i => (start_offset + i * skip_factor)%Z) (range k))
  end.

End MainFrames.

(* ================================================================== *)
(** * services/bedrock: the request bodies of the Claude and Nova handlers *)
(* ================================================================== *)

Module Requests.
Import Py PyNotations Json Bedrock.

Section Formatting.

(** [json.dumps], and [str] as an f-string applies it to a value. *)
Variable json_dumps : json -> string.
Variable py_str : json -> string.

(** The outcome of [int(os.environ.get("MAX_TOKENS", "1000"))]. *)
Variable env_max_tokens : result json.

Definition is_none (v : json) : bool :=
  match v with JNull => true | _ => false end.

(** ** claude_handler.py *)

Definition text_block (t : json) : json := JObj [("type", JStr "text"); ("text", t)].

(** [self.conversation_context[-self.max_context_messages*2:]] under
    [if self.conversation_context and self.max_context_messages > 0],
    nothing otherwise.  An empty context decides the condition before the
    bound is compared. *)
Definition claude_context_messages (h : handler) : result (list json) :=
  match conversation_context h with
  | [] => Ok []
  | _ :: _ =>
      tracking <- positive (max_context_messages h) ;;
      if tracking then
        match max_context_messages h with
        | JFloat _ => Raise (TypeError "slice indices must be integers")
        | n =>
            match int_value n with
            | Some k => Ok (slice_last (k * 2) (conversation_context h))
            | None => Raise (TypeError "slice indices must be integers")
            end
        end
      else Ok []
  end.

Definition claude_prepare_prompt (h : handler) (text_prompt : json)
                                 (image_data : string) : result json :=
  let system_content :=
    text_block (system_prompt h)
    :: (if negb (is_none (action_space h)) && negb (is_none (action_space_type h))
        then [text_block
                (JStr ("Action space type: " ++ py_str (action_space_type h) ++ nl
                       ++ "Action space: " ++ json_dumps (action_space h)))]
        else []) in
  context_messages <- claude_context_messages h ;;
  let user_content :=
    text_block text_prompt
    :: (if String.eqb image_data "" then []
        else [JObj [("type", JStr "image");
                    ("source", JObj [("type", JStr "base64");
                                     ("media_type", JStr "image/jpeg");
                                     ("data", JStr image_data)])]]) in
  Ok (JObj [("anthropic_version", JStr "bedrock-2023-05-31");
            ("max_tokens", JInt 1024);
            ("temperature", JFloat 0);
            ("messages",
             JArr (message "system" (JArr system_content)
                   :: context_messages ++ [message "user" (JArr user_content)]))]).

(** The request body that [ClaudeHandler.process] hands to [invoke_model]:
    the user message is appended to the context first, when the context is
    tracked, and [prepare_prompt] reads the context after that. *)
Definition claude_process_request (h : handler) (prompt : json)
                                  (image_data : string) : result json :=
  tracking <- positive (max_context_messages h) ;;
  let h1 := if tracking
            then append_message h (message "user" (JArr [text_block prompt]))
            else h in
  claude_prepare_prompt h1 prompt image_data.

(** ** nova_handler.py *)

(** [self.conversation_context[-self.max_context_messages:]] under the same
    condition. *)
Definition nova_context_messages (h : handler) : result (list json) :=
  match conversation_context h with
  | [] => Ok []
  | _ :: _ =>
      tracking <- positive (max_context_messages h) ;;
      if tracking then limit_last (max_context_messages h) (conversation_context h)
      else Ok []
  end.

Definition nova_prepare_prompt (h : handler) (text_prompt : json)
                               (image_data : string) : result json :=
  let user_message := NovaHandler._create_user_message text_prompt image_data in
  let system_message :=
    message "user"
      (JArr [JObj [("text", system_prompt h)];
             JObj [("text",
                    JStr (json_dumps
                            (JObj [("action_space_type", action_space_type h);
                                   ("action_space", action_space h)])))]]) in
  context_messages <- nova_context_messages h ;;
  max_new_tokens <- env_max_tokens ;;
  Ok (JObj [("inferenceConfig", JObj [("max_new_tokens", max_new_tokens)]);
            ("messages", JArr (system_message :: context_messages ++ [user_message]))]).

(** The request body that [NovaHandler.process] hands to [invoke_model]. *)
Definition nova_process_request (h : handler) (prompt : json)
                                (image_data : string) : result json :=
  let user_message := NovaHandler._create_user_message prompt image_data in
  tracking <- positive (max_context_messages h) ;;
  let h1 := if tracking then append_message h user_message else h in
  nova_prepare_prompt h1 prompt image_data.

End Formatting.

End Requests.
(* ================================================================== *)
(** * Properties *)
(* ================================================================== *)

Import Py PyNotations Json JsonDecoder Re JsonExtractor ModelMetadata.

(** ** Helper tactics and lemmas *)

(** Splits a hypothesis about a [bind] into its two steps. *)
Lemma bind_ok {A B} (c : result A) (k : A -> result B) (b : B) :
  bind c k = Ok b -> exists a, c = Ok a /\ k a = Ok b.
Proof.
  destruct c as [a|e]; simpl; intros H; [eauto | discriminate].
Qed.

Lemma raise_if_ok (b : bool) (e : exn) : raise_if b e = Ok tt -> b = false.
Proof. destruct b; simpl; [discriminate | reflexivity]. Qed.

Ltac bind_inv H :=
  let x := fresh "x" in
  let Hx := fresh "Hx" in
  apply bind_ok in H; destruct H as (x & Hx & H).

Lemma dict_get_nonempty (k : string) (d : dict) (v : json) :
  dict_get k d = Some v -> d <> [].
Proof. destruct d; [discriminate | intros _ H; discriminate H]. Qed.

(** ** Binary64 rounding *)

Section FloatFacts.
Import Float64.

Lemma some_inj {A} (a b : A) : Some a = Some b -> a = b.
Proof. intros H. injection H as H. exact H. Qed.

Lemma pow2_pos (e : Z) : (0 < pow2 e)%R.
Proof. apply powerRZ_lt. lra. Qed.

Lemma pow2_add (a b : Z) : pow2 (a + b) = (pow2 a * pow2 b)%R.
Proof. apply powerRZ_add. lra. Qed.

Lemma pow2_0 : pow2 0 = 1%R.
Proof. reflexivity. Qed.

Lemma pow2_nat (n : nat) : pow2 (Z.of_nat n) = (2 ^ n)%R.
Proof. unfold pow2. symmetry. apply pow_powerRZ. Qed.

Lemma pow2_IZR (n : Z) : (0 <= n)%Z -> pow2 n = IZR (2 ^ n).
Proof.
  intros H. rewrite <- (Z2Nat.id n) by exact H.
  rewrite pow2_nat, <- pow_IZR. reflexivity.
Qed.

Lemma pow2_succ (k : Z) : pow2 (k + 1) = (2 * pow2 k)%R.
Proof.
  rewrite pow2_add, (pow2_IZR 1) by lia.
  change (IZR (2 ^ 1)) with 2%R. lra.
Qed.

Lemma pow2_gt_1 (n : Z) : (0 < n)%Z -> (1 < pow2 n)%R.
Proof.
  intros H. rewrite <- (Z2Nat.id n) by lia. rewrite pow2_nat.
  apply Rlt_pow_R1; [lra | lia].
Qed.

Lemma pow2_lt (a b : Z) : (a < b)%Z -> (pow2 a < pow2 b)%R.
Proof.
  intros H. replace b with (a + (b - a))%Z by lia. rewrite pow2_add.
  pose proof (pow2_pos a). pose proof (pow2_gt_1 (b - a) ltac:(lia)). nra.
Qed.

Lemma pow2_le (a b : Z) : (a <= b)%Z -> (pow2 a <= pow2 b)%R.
Proof.
  intros H. destruct (Z.eq_dec a b) as [->|N]; [lra|].
  apply Rlt_le, pow2_lt. lia.
Qed.

Lemma pow2_lt_inv (a b : Z) : (pow2 a < pow2 b)%R -> (a < b)%Z.
Proof.
  intros H. destruct (Z_lt_le_dec a b) as [L|L]; [exact L|].
  pose proof (pow2_le b a L). lra.
Qed.

Lemma pow2_div (a b : Z) : (pow2 a / pow2 b)%R = pow2 (a - b).
Proof.
  replace a with ((a - b) + b)%Z at 1 by lia. rewrite pow2_add.
  pose proof (pow2_pos b). field. lra.
Qed.

(** ** Nearest integers *)

Lemma rne_IZR (z : Z) : rne (IZR z) = z.
Proof.
  unfold rne. rewrite ZfloorZ.
  destruct (Rlt_dec (IZR z - IZR z) (1 / 2)) as [_|N]; [reflexivity | exfalso; lra].
Qed.

Lemma rne_down (z : Z) (y : R) :
  (IZR z <= y < IZR z + 1 / 2)%R -> rne y = z.
Proof.
  intros H. unfold rne. rewrite (Zfloor_eq z y) by lra.
  destruct (Rlt_dec (y - IZR z) (1 / 2)) as [_|N]; [reflexivity | exfalso; lra].
Qed.

Lemma rne_bounds (y : R) : (y - 1 < IZR (rne y) <= y + 1)%R.
Proof.
  unfold rne. pose proof (Zfloor_bound y) as B.
  destruct (Rlt_dec _ _); [lra|].
  destruct (Rlt_dec _ _); [rewrite plus_IZR; lra|].
  destruct (Z.even _); [lra | rewrite plus_IZR; lra].
Qed.

Lemma rne_nonneg (y : R) : (0 <= y)%R -> (0 <= rne y)%Z.
Proof.
  intros H. unfold rne.
  assert (F : (0 <= Zfloor y)%Z) by (apply Zfloor_lub; exact H).
  destruct (Rlt_dec _ _); [lia|].
  destruct (Rlt_dec _ _); [lia|]. destruct (Z.even _); lia.
Qed.

(** ** The binade *)

Lemma binade_le (fuel : nat) (k : Z) (x : R) : (binade fuel k x <= k)%Z.
Proof.
  revert k. induction fuel as [|f IH]; intros k; cbn [binade]; [lia|].
  destruct (Rle_dec (pow2 k) x); [lia|]. specialize (IH (k - 1)%Z). lia.
Qed.

Lemma binade_ge (fuel : nat) (k : Z) (x : R) :
  (k - Z.of_nat fuel <= binade fuel k x)%Z.
Proof.
  revert k. induction fuel as [|f IH]; intros k; cbn [binade]; [lia|].
  destruct (Rle_dec (pow2 k) x); [lia|]. specialize (IH (k - 1)%Z). lia.
Qed.

(** The search finds the binade of a number within its range. *)
Lemma binade_found (fuel : nat) (k k' : Z) (x : R) :
  (k' <= k)%Z -> (k - k' <= Z.of_nat fuel)%Z ->
  (pow2 k' <= x < pow2 (k' + 1))%R ->
  binade fuel k x = k'.
Proof.
  revert k. induction fuel as [|f IH]; intros k Hle Hfuel Hx; cbn [binade].
  - lia.
  - destruct (Rle_dec (pow2 k) x) as [L|L].
    + assert (k < k' + 1)%Z by (apply pow2_lt_inv; lra). lia.
    + assert (k' < k)%Z.
      { destruct (Z.eq_dec k' k) as [->|N]; [lra | lia]. }
      apply IH; [lia | lia | exact Hx].
Qed.

(** Below the range the search stops at its last exponent. *)
Lemma binade_bottom (fuel : nat) (k : Z) (x : R) :
  (x < pow2 (k - Z.of_nat fuel + 1))%R ->
  binade fuel k x = (k - Z.of_nat fuel)%Z.
Proof.
  revert k. induction fuel as [|f IH]; intros k Hx; cbn [binade]; [lia|].
  destruct (Rle_dec (pow2 k) x) as [L|L].
  - exfalso. pose proof (pow2_le (k - Z.of_nat (S f) + 1) k ltac:(lia)). lra.
  - rewrite IH; [lia|].
    replace (k - 1 - Z.of_nat f + 1)%Z with (k - Z.of_nat (S f) + 1)%Z by lia.
    exact Hx.
Qed.

(** ** Rounding *)

Lemma round_pos_nonneg (x r : R) :
  (0 <= x)%R -> round_pos x = Some r -> (0 <= r)%R.
Proof.
  intros Hx. unfold round_pos.
  destruct (Rle_dec _ _); [discriminate|]. intros H. apply some_inj in H. subst r.
  apply Rmult_le_pos; [|apply Rlt_le, pow2_pos].
  apply IZR_le, rne_nonneg.
  apply Rmult_le_pos; [exact Hx|]. apply Rlt_le, Rinv_0_lt_compat, pow2_pos.
Qed.

Lemma round_pos_0 : round_pos 0 = Some 0%R.
Proof.
  unfold round_pos.
  replace (0 / pow2 (binade 2045 1023 0 - 52))%R with (IZR 0) by (unfold Rdiv; lra).
  rewrite rne_IZR. rewrite Rmult_0_l.
  destruct (Rle_dec (pow2 1024) 0) as [L|_]; [|reflexivity].
  pose proof (pow2_pos 1024). lra.
Qed.

(** A number with a 53-bit significand at an exponent of the format is its
    own rounding. *)
Lemma round_pos_exact (m e : Z) :
  (2 ^ 52 <= m < 2 ^ 53)%Z -> (-1074 <= e <= 971)%Z ->
  round_pos (IZR m * pow2 e) = Some (IZR m * pow2 e)%R.
Proof.
  intros Hm He. unfold round_pos.
  assert (Hk : binade 2045 1023 (IZR m * pow2 e) = (e + 52)%Z).
  { apply binade_found; [lia | lia |].
    pose proof (pow2_pos e) as P.
    replace (e + 52 + 1)%Z with (e + 53)%Z by lia.
    rewrite !pow2_add, (pow2_IZR 52), (pow2_IZR 53) by lia.
    destruct Hm as [M1 M2]. apply IZR_le in M1. apply IZR_lt in M2.
    split; nra. }
  rewrite Hk. replace (e + 52 - 52)%Z with e by lia.
  replace (IZR m * pow2 e / pow2 e)%R with (IZR m)
    by (pose proof (pow2_pos e); field; lra).
  rewrite rne_IZR.
  destruct (Rle_dec (pow2 1024) (IZR m * pow2 e)) as [L|_]; [|reflexivity].
  exfalso. pose proof (pow2_pos e) as P.
  assert (IZR m * pow2 e < pow2 (e + 53))%R.
  { rewrite pow2_add, (pow2_IZR 53) by lia.
    destruct Hm as [_ M2]. apply IZR_lt in M2. nra. }
  pose proof (pow2_le (e + 53) 1024 ltac:(lia)). lra.
Qed.

(** Less than half the least positive float rounds to zero. *)
Lemma round_pos_tiny (x : R) :
  (0 <= x < pow2 (-1075))%R -> round_pos x = Some 0%R.
Proof.
  intros Hx. unfold round_pos.
  assert (Hk : binade 2045 1023 x = (-1022)%Z).
  { rewrite binade_bottom; [reflexivity|].
    pose proof (pow2_lt (-1075) (1023 - Z.of_nat 2045 + 1) ltac:(lia)). lra. }
  rewrite Hk. replace (-1022 - 52)%Z with (-1074)%Z by lia.
  rewrite (rne_down 0).
  - rewrite Rmult_0_l.
    destruct (Rle_dec (pow2 1024) 0) as [L|_]; [|reflexivity].
    pose proof (pow2_pos 1024). lra.
  - pose proof (pow2_pos (-1074)) as P.
    assert (E : pow2 (-1074) = (2 * pow2 (-1075))%R).
    { replace (-1074)%Z with (-1075 + 1)%Z by lia. apply pow2_succ. }
    split.
    + apply Rmult_le_pos; [lra|]. apply Rlt_le, Rinv_0_lt_compat, P.
    + replace (IZR 0 + 1 / 2)%R with (pow2 (-1075) / pow2 (-1074))%R
        by (rewrite E; pose proof (pow2_pos (-1075)); field; lra).
      unfold Rdiv. apply Rmult_lt_compat_r; [apply Rinv_0_lt_compat, P | lra].
Qed.

(** Within a binade, a number less than half a step above a multiple of the
    step rounds down to it. *)
Lemma round_pos_down (k z : Z) (x : R) :
  (-1022 <= k <= 1023)%Z ->
  (pow2 k <= x < pow2 (k + 1))%R ->
  (IZR z <= x / pow2 (k - 52) < IZR z + 1 / 2)%R ->
  (IZR z * pow2 (k - 52) < pow2 1024)%R ->
  round_pos x = Some (IZR z * pow2 (k - 52))%R.
Proof.
  intros Hk Hx Hz Hfin. unfold round_pos.
  rewrite (binade_found 2045 1023 k x) by (lia || exact Hx).
  rewrite (rne_down z) by exact Hz.
  destruct (Rle_dec _ _) as [L|_]; [exfalso; lra | reflexivity].
Qed.

(** A magnitude up to [2^1023] rounds to a finite float. *)
Lemma round_pos_finite (x : R) :
  (0 <= x <= pow2 1023)%R -> exists r, round_pos x = Some r.
Proof.
  intros Hx. unfold round_pos.
  set (k := binade 2045 1023 x).
  assert (K1 : (k <= 1023)%Z) by apply binade_le.
  destruct (Rle_dec _ _) as [L|_]; [exfalso | eauto].
  pose proof (pow2_pos (k - 52)) as P.
  pose proof (rne_bounds (x / pow2 (k - 52))) as [_ B].
  assert (B' : (IZR (rne (x / pow2 (k - 52))) * pow2 (k - 52) <= x + pow2 (k - 52))%R).
  { apply Rmult_le_compat_r with (r := pow2 (k - 52)) in B; [|lra].
    replace ((x / pow2 (k - 52) + 1) * pow2 (k - 52))%R with (x + pow2 (k - 52))%R in B
      by (field; lra).
    exact B. }
  pose proof (pow2_le (k - 52) 971 ltac:(lia)) as Q.
  pose proof (pow2_lt 971 1023 ltac:(lia)) as Q2.
  assert (E : pow2 1024 = (2 * pow2 1023)%R).
  { replace 1024%Z with (1023 + 1)%Z by lia. apply pow2_succ. }
  lra.
Qed.

Lemma round64_0 : round64 0 = Some 0%R.
Proof.
  unfold round64. destruct (Rlt_dec 0 0); [lra | apply round_pos_0].
Qed.

Lemma round64_pos (x : R) : (0 <= x)%R -> round64 x = round_pos x.
Proof. intros H. unfold round64. destruct (Rlt_dec x 0); [lra | reflexivity]. Qed.

Lemma round64_neg (x : R) : (x < 0)%R -> round64 x = option_map Ropp (round_pos (- x)).
Proof. intros H. unfold round64. destruct (Rlt_dec x 0); [reflexivity | lra]. Qed.

Lemma round64_nonneg (x r : R) : (0 <= x)%R -> round64 x = Some r -> (0 <= r)%R.
Proof. intros H. rewrite round64_pos by exact H. apply round_pos_nonneg, H. Qed.

Lemma round64_finite (x : R) :
  (Rabs x <= pow2 1023)%R -> exists r, round64 x = Some r.
Proof.
  intros H. unfold round64. destruct (Rlt_dec x 0) as [N|N].
  - rewrite Rabs_left in H by exact N.
    destruct (round_pos_finite (- x)) as (r & ->); [lra|]. cbn. eauto.
  - rewrite Rabs_right in H by lra. apply round_pos_finite. lra.
Qed.


(** ** Floats that are their own rounding *)

Lemma round_pos_pow2 (k : Z) :
  (-1022 <= k <= 1023)%Z -> round_pos (pow2 k) = Some (pow2 k).
Proof.
  intros Hk.
  replace (pow2 k) with (IZR (2 ^ 52) * pow2 (k - 52))%R.
  - apply round_pos_exact; lia.
  - rewrite <- (pow2_IZR 52) by lia. rewrite <- pow2_add. f_equal. lia.
Qed.

(** An integer of at most 53 bits converts exactly. *)
Lemma round_pos_int (n : Z) :
  (0 <= n < 2 ^ 53)%Z -> round_pos (IZR n) = Some (IZR n).
Proof.
  intros Hn. destruct (Z.eq_dec n 0) as [->|Hz]; [apply round_pos_0|].
  assert (Hpos : (0 < n)%Z) by lia.
  pose proof (Z.log2_spec n Hpos) as [L1 L2].
  pose proof (Z.log2_nonneg n) as L0.
  set (j := Z.log2 n) in *.
  assert (Hj : (j < 53)%Z).
  { apply (Z.pow_lt_mono_r_iff 2); lia. }
  replace (IZR n) with (IZR (n * 2 ^ (52 - j)) * pow2 (j - 52))%R.
  - apply round_pos_exact; [|lia].
    replace (2 ^ 52)%Z with (2 ^ j * 2 ^ (52 - j))%Z
      by (rewrite <- Z.pow_add_r by lia; f_equal; lia).
    replace (2 ^ 53)%Z with (2 ^ Z.succ j * 2 ^ (52 - j))%Z
      by (rewrite <- Z.pow_add_r by lia; f_equal; lia).
    assert (0 < 2 ^ (52 - j))%Z by (apply Z.pow_pos_nonneg; lia).
    split; nia.
  - rewrite mult_IZR, <- (pow2_IZR (52 - j)) by lia.
    rewrite Rmult_assoc, <- pow2_add.
    replace (52 - j + (j - 52))%Z with 0%Z by lia. rewrite pow2_0. lra.
Qed.

Lemma round64_int (n : Z) :
  (Z.abs n < 2 ^ 53)%Z -> round64 (IZR n) = Some (IZR n).
Proof.
  intros Hn. unfold round64. destruct (Rlt_dec (IZR n) 0) as [N|N].
  - assert (n < 0)%Z by (apply lt_IZR; exact N).
    rewrite <- opp_IZR, round_pos_int by lia. cbn [option_map].
    rewrite opp_IZR. f_equal. lra.
  - assert (0 <= n)%Z by (apply le_IZR; lra).
    apply round_pos_int. lia.
Qed.

Lemma round64_pow2 (k : Z) :
  (-1022 <= k <= 1023)%Z -> round64 (pow2 k) = Some (pow2 k).
Proof.
  intros Hk. rewrite round64_pos by (apply Rlt_le, pow2_pos).
  apply round_pos_pow2, Hk.
Qed.

(** ** The operations of the distance *)

Lemma fsub_same (a : f64) (x : R) : a = Some x -> fsub a a = Some 0%R.
Proof.
  intros ->. cbn [fsub]. replace (x - x)%R with 0%R by lra. apply round64_0.
Qed.

Lemma fmul_0 : fmul (Some 0%R) (Some 0%R) = Some 0%R.
Proof. cbn [fmul]. rewrite Rmult_0_l. apply round64_0. Qed.

Lemma fadd_0 : fadd (Some 0%R) (Some 0%R) = Some 0%R.
Proof. cbn [fadd]. rewrite Rplus_0_l. apply round64_0. Qed.

Lemma fsqrt_0 : fsqrt (Some 0%R) = Some 0%R.
Proof. cbn [fsqrt]. rewrite sqrt_0. apply round64_0. Qed.

Lemma fsqrt_nonneg (a : f64) (r : R) : fsqrt a = Some r -> (0 <= r)%R.
Proof.
  destruct a as [x|]; cbn [fsqrt]; [|discriminate].
  apply round64_nonneg, sqrt_pos.
Qed.

(** The order of the loop on distances. *)
Lemma flt_true (a b : f64) :
  flt a b = true <->
  match a, b with
  | Some x, Some y => (x < y)%R
  | Some _, None => True
  | None, _ => False
  end.
Proof.
  destruct a as [x|], b as [y|]; cbn [flt];
    try (split; [intros _; exact I | reflexivity]);
    try (split; [discriminate | intros []]).
  destruct (Rlt_dec x y); split; intros H; auto; discriminate.
Qed.

Lemma flt_false (a b : f64) :
  flt a b = false <->
  match a, b with
  | Some x, Some y => (y <= x)%R
  | Some _, None => False
  | None, _ => True
  end.
Proof.
  destruct a as [x|], b as [y|]; cbn [flt];
    try (split; [intros _; exact I | reflexivity]);
    try (split; [discriminate | intros []]).
  destruct (Rlt_dec x y); split; intros H; auto; try discriminate; lra.
Qed.

End FloatFacts.

(** ** The dispatcher *)

Section DispatcherFacts.
Import Bedrock.

(** An identifier without a slash has no second segment. *)
Lemma split_no_slash (s : string) :
  contains "/" s = false -> split "/" s = [s].
Proof.
  induction s as [|c r IH]; [reflexivity|].
  cbn [contains starts_with split].
  rewrite (Ascii.eqb_sym c "/"), andb_true_r.
  destruct (Ascii.eqb "/" c); [discriminate|].
  intros H. rewrite (IH H). reflexivity.
Qed.

Lemma get_handler_no_slash (id : string) :
  contains "/" id = false ->
  get_handler_for_model id = Raise (IndexError "list index out of range").
Proof.
  intros H. unfold get_handler_for_model. rewrite (split_no_slash _ H). reflexivity.
Qed.

(** With a second segment, the four families are tried in the order Claude,
    Mistral, Llama, Nova, and the only failure is [ValueError]. *)
Lemma get_handler_with_segment (id segment : string) :
  nth_error (split "/" id) 1 = Some segment ->
  get_handler_for_model id =
    let p := lower segment in
    if contains "anthropic" p || contains "claude" (lower id)
    then Ok (new_handler Claude id)
    else if contains "mistral" p then Ok (new_handler Mistral id)
    else if contains "meta" p || contains "llama" (lower id)
    then Ok (new_handler Llama id)
    else if contains "amazon" p || contains "nova" (lower id)
    then Ok (new_handler Nova id)
    else Raise (ValueError ("Unsupported model type: " ++ id)).
Proof.
  intros H. unfold get_handler_for_model, index. rewrite H. reflexivity.
Qed.

End DispatcherFacts.

(** C3, at the model identifier that [agent.py] falls back to and that the
    docstring of [ClaudeHandler] gives as its example: the identifier names
    the Claude family, and resolution fails with [IndexError], neither
    returning the Claude handler nor raising the [ValueError] that stands for
    an unsupported model.  The same happens for every identifier without a
    slash, whatever family it names. *)
Theorem C3_plain_model_id_raises_IndexError :
  Bedrock.get_handler_for_model "anthropic.claude-3-sonnet-20240229-v1:0"
    = Raise (IndexError "list index out of range")
  /\ contains "claude" (lower "anthropic.claude-3-sonnet-20240229-v1:0") = true
  /\ Bedrock.get_handler_for_model "gpt-4"
     = Raise (IndexError "list index out of range").
Proof. repeat split; reflexivity. Qed.

(** ** The response extractor *)

Section ExtractorFacts.
Import Samples.

(** The decoder accepts the nested object and rejects the text cut at its
    first closing brace. *)
Lemma nested_raw_decodes : json_loads nested_raw = Ok nested_value.
Proof. reflexivity. Qed.

(** On the raw text, the search stops the brace block at the first closing
    brace. *)
Lemma nested_raw_match :
  search json_pattern nested_raw = Some [(2, q "{'a': {'b': 1}")].
Proof. reflexivity. Qed.

Lemma flat_raw_extracts :
  extract_json_from_llm_response good_reply "LLM"
    = Ok (JObj [("steering_angle", JInt 0); ("speed", JInt 2)]).
Proof. reflexivity. Qed.

End ExtractorFacts.

(** C4, at the value [{"a": {"b": 1}}]: its serialization is valid JSON, and
    wrapped in a fenced block, tagged or not, it is recovered; given raw, the
    extractor raises [ValueError], because the brace alternative of the
    pattern closes at the first closing brace.  A raw array of objects is not
    recovered either: the extractor returns its first object.  Text without
    JSON is rejected. *)
Theorem C4_raw_nested_object_is_rejected :
  json_loads Samples.nested_raw = Ok Samples.nested_value
  /\ extract_json_from_llm_response Samples.nested_tagged "LLM" = Ok Samples.nested_value
  /\ extract_json_from_llm_response Samples.nested_untagged "LLM" = Ok Samples.nested_value
  /\ extract_json_from_llm_response Samples.nested_raw "LLM"
     = Raise (ValueError "No valid JSON found in LLM response")
  /\ json_loads (q "[{'a': 1}]") = Ok (JArr [JObj [("a", JInt 1)]])
  /\ extract_json_from_llm_response (q "[{'a': 1}]") "LLM" = Ok (JObj [("a", JInt 1)])
  /\ extract_json_from_llm_response "not json" "LLM"
     = Raise (ValueError "No valid JSON found in LLM response").
Proof. repeat split; reflexivity. Qed.

(** ** Metadata validation *)

(** A dict that declares the LLM network and has no [llm_config] does not
    pass validation: every path through the checks ends in [ValueError]. *)
Lemma validate_llm_without_config (d : dict) :
  dict_get "neural_network" d = Some (JStr LLM) ->
  dict_get "llm_config" d = None ->
  exists msg, _validate_metadata (JObj d) = Raise (ValueError msg).
Proof.
  intros Hnn Hcfg.
  unfold _validate_metadata.
  assert (Ht : truth (JObj d) = true).
  { destruct d; [discriminate | reflexivity]. }
  rewrite Ht. cbn [negb py_in getitem bind].
  unfold dict_has.
  destruct (dict_get "action_space" d); cbn [negb raise_if bind]; [|eauto].
  destruct (dict_get "sensor" d) as [s|]; cbn [negb raise_if bind]; [|eauto].
  destruct (is_list s); cbn [negb raise_if bind]; [|eauto].
  rewrite Hnn, Hcfg. cbn. eauto.
Qed.



(** ** The orchestrator *)

Section AgentFacts.
Import Samples Agent.

Variable json_dumps : json -> string.
Variable mistral_process :
  Bedrock.handler -> json -> string -> Bedrock.round_trip -> Bedrock.stepped json.
Variable float_of_str : string -> option R.

Lemma claude_agent_init :
  init files no_environ "model_metadata.json" = Ok claude_agent.
Proof. reflexivity. Qed.

(** A frame whose image cannot be read takes the outer handler: the plain
    default, the frame counted, nothing else changed. *)
Lemma process_image_unreadable (a : agent) (fs : file_system) (image_path : string)
                               (rt : Bedrock.round_trip) :
  fs image_path = None ->
  Agent.process_image json_dumps mistral_process float_of_str a fs image_path rt
    = (safe_default, with_image_count a (image_count a + 1)).
Proof.
  intros H. unfold Agent.process_image, prepare_frame, _image_to_base64.
  cbn [metadata with_image_count]. rewrite H. reflexivity.
Qed.

(** Once the frame is prepared, an exception of the service call or of the
    check of the action gives the flagged fallback with a message. *)
Lemma process_image_inner_failure (a : agent) (fs : file_system)
    (image_path b64 : string) (prompt md : json) (rt : Bedrock.round_trip) (e : exn) :
  let a1 := with_image_count a (image_count a + 1) in
  prepare_frame a1 fs image_path = Ok (b64, prompt, md) ->
  (action <- fst (Bedrock.process json_dumps mistral_process
                    (bedrock_service a1) prompt b64 None rt) ;;
   fill_missing action) = Raise e ->
  exists msg,
    fst (Agent.process_image json_dumps mistral_process float_of_str a fs image_path rt)
      = JObj [("steering_angle", JFloat 0); ("speed", JFloat 1);
              ("fallback", JBool true); ("error", JStr msg)]
    /\ msg <> "".
Proof.
  intros a1 Hprep Hfail. unfold Agent.process_image. fold a1. rewrite Hprep.
  cbn [with_metadata bedrock_service metadata].
  destruct (Bedrock.process json_dumps mistral_process (bedrock_service a1)
              prompt b64 None rt) as [r s] eqn:Hp.
  cbn [fst] in Hfail. rewrite Hfail. cbn [fst].
  exists ("Failed to process: " ++ exn_str e)%string. split; [reflexivity|].
  discriminate.
Qed.

(** A reply without JSON, end to end. *)
Lemma process_image_reply_without_json :
  fst (Agent.process_image json_dumps mistral_process float_of_str claude_agent files "frame_1.jpg" (Ok (claude_body "not json")))
    = JObj [("steering_angle", JFloat 0); ("speed", JFloat 1);
            ("fallback", JBool true);
            ("error", JStr "Failed to process: No valid JSON found in Claude response")].
Proof. reflexivity. Qed.

End AgentFacts.

(** C1, at a frame whose image file does not exist, for the agent built from
    the sample metadata: [open] raises in the outer [try] block, and the
    outer handler returns the plain default, with no [fallback] flag and no
    [error] string.  The inner handler, which a reply without JSON reaches,
    does set both. *)
Theorem C1_unreadable_image_returns_unflagged_default
    (json_dumps : json -> string)
    (mistral_process :
       Bedrock.handler -> json -> string -> Bedrock.round_trip -> Bedrock.stepped json)
    (float_of_str : string -> option R) (rt : Bedrock.round_trip) :
  Agent.init Samples.files Samples.no_environ "model_metadata.json"
    = Ok Samples.claude_agent
  /\ Samples.files "missing.jpg" = None
  /\ (let r := fst (Agent.process_image json_dumps mistral_process float_of_str
                      Samples.claude_agent Samples.files "missing.jpg" rt) in
      r = JObj [("steering_angle", JFloat 0); ("speed", JFloat 1)]
      /\ py_in "fallback" r = Ok false
      /\ py_in "error" r = Ok false)
  /\ (let r := fst (Agent.process_image json_dumps mistral_process float_of_str
                      Samples.claude_agent Samples.files "frame_1.jpg"
                      (Ok (Samples.claude_body "not json"))) in
      getitem r "fallback" = Ok (JBool true)
      /\ getitem r "error"
         = Ok (JStr "Failed to process: No valid JSON found in Claude response")).
Proof.
  split; [reflexivity|]. split; [reflexivity|]. split.
  - rewrite process_image_unreadable by reflexivity. repeat split; reflexivity.
  - rewrite process_image_reply_without_json. split; reflexivity.
Qed.

(** ** The conversation context *)

Section ContextFacts.
Import Bedrock Runs Samples.

Variable json_dumps : json -> string.
Variable mistral_process :
  handler -> json -> string -> round_trip -> stepped json.

Lemma keep_last_length {A} (k : nat) (l : list A) :
  length (keep_last k l) = Nat.min k (length l).
Proof. unfold keep_last. rewrite length_skipn. lia. Qed.

Lemma keep_last_all {A} (k : nat) (l : list A) :
  (length l <= k)%nat -> keep_last k l = l.
Proof.
  intros H. unfold keep_last.
  replace (length l - k)%nat with 0%nat by lia. reflexivity.
Qed.

(** Cutting before appending changes nothing once the whole is cut again:
    the entries dropped first are the oldest. *)
Lemma keep_last_app {A} (k : nat) (l m : list A) :
  keep_last k (keep_last k l ++ m) = keep_last k (l ++ m).
Proof.
  unfold keep_last. rewrite !skipn_app, !length_app, !length_skipn.
  rewrite skipn_skipn. f_equal.
  - destruct (Nat.le_gt_cases (length l) (length l - k + (length m + (length l - (length l - k)) - k)))
      as [H1|H1].
    + rewrite !skipn_all2 by lia. reflexivity.
    + f_equal. lia.
  - f_equal. lia.
Qed.

(** What [limit_pairs] computes for a positive integer bound. *)
Lemma limit_pairs_int (n : Z) (ctx : list json) :
  (0 < n)%Z ->
  limit_pairs (JInt n) ctx = Ok (keep_last (2 * Z.to_nat n) ctx).
Proof.
  intros Hn. unfold limit_pairs, keep_last. cbn [int_value].
  destruct (n * 2 <? Z.of_nat (length ctx))%Z eqn:E.
  - apply Z.ltb_lt in E. unfold slice_last.
    destruct (n * 2)%Z as [|p|p] eqn:Ep; try lia.
    do 2 f_equal. lia.
  - apply Z.ltb_ge in E.
    replace (length ctx - 2 * Z.to_nat n)%nat with 0%nat by lia. reflexivity.
Qed.

Lemma limit_last_int (n : Z) (ctx : list json) :
  (0 < n)%Z ->
  limit_last (JInt n) ctx = Ok (keep_last (Z.to_nat n) ctx).
Proof.
  intros Hn. unfold limit_last, keep_last, slice_last. cbn [int_value].
  destruct n as [|p|p]; try lia. rewrite Z2Nat.inj_pos. reflexivity.
Qed.

Lemma positive_int (n : Z) : positive (JInt n) = Ok (0 <? n)%Z.
Proof. reflexivity. Qed.

(** A call of [process] changes nothing of a handler but its context. *)
Lemma handler_process_keeps_settings (h : handler) (prompt : json) (image : string)
                                     (rt : round_trip) :
  kind h <> Mistral ->
  let h' := snd (handler_process json_dumps mistral_process h prompt image rt) in
  kind h' = kind h /\ max_context_messages h' = max_context_messages h.
Proof.
  intros Hk. unfold handler_process.
  destruct (kind h) eqn:K; try congruence.
  - unfold ClaudeHandler.process, ClaudeHandler.extract_response_text.
    destruct (positive (max_context_messages h)) as [[|]|]; cbn [snd];
      destruct rt as [body|]; cbn [snd]; auto;
      destruct (content <- get body "content" (JArr []) ;;
                blocks <- iter content ;;
                ClaudeHandler.join_text_blocks blocks ""); cbn [snd]; auto;
      cbn [append_message set_context max_context_messages conversation_context];
      destruct (positive (max_context_messages h)) as [[|]|]; cbn [snd]; auto;
      cbn [append_message set_context max_context_messages conversation_context];
      destruct (limit_pairs _ _); cbn [snd]; auto.
  - unfold LlamaHandler.process, LlamaHandler.extract_response_text.
    destruct (positive (max_context_messages h)) as [[|]|]; cbn [snd];
      destruct rt as [body|]; cbn [snd]; auto;
      destruct (get body "generation" (JStr "")); cbn [snd]; auto;
      cbn [append_message set_context max_context_messages conversation_context];
      destruct (positive (max_context_messages h)) as [[|]|]; cbn [snd]; auto;
      cbn [append_message set_context max_context_messages conversation_context];
      try (destruct (limit_pairs _ _); cbn [snd]; auto);
      destruct (extract_driving_action _ _); cbn [snd]; auto.
  - unfold NovaHandler.process, NovaHandler.extract_response_text.
    destruct (positive (max_context_messages h)) as [[|]|]; cbn [snd];
      destruct rt as [body|]; cbn [snd]; auto;
      cbn [append_message set_context max_context_messages conversation_context];
      destruct (positive (max_context_messages h)) as [[|]|]; cbn [snd]; auto;
      destruct (NovaHandler.reply_text body) as [[t|]|]; cbn [snd]; auto;
      cbn [append_message set_context max_context_messages conversation_context];
      try (destruct (limit_last _ _); cbn [snd]; auto);
      try (destruct (NovaHandler.reply_text body) as [[t'|]|]; cbn [snd]; auto);
      try (destruct (extract_driving_action _ _); cbn [snd]; auto).
Qed.

(** A call that adds its exchange: the context gains the two messages and
    keeps its latest entries up to the bound of the handler. *)
Lemma handler_process_context (h : handler) (n : Z) (c : call) (e : list json) :
  kind h <> Mistral ->
  max_context_messages h = JInt n -> (0 < n)%Z ->
  exchange json_dumps (kind h) c = Some e ->
  conversation_context
    (snd (handler_process json_dumps mistral_process h (fst (fst c)) (snd (fst c)) (snd c)))
    = keep_last (context_bound (kind h) n) (conversation_context h ++ e).
Proof.
  intros Hk Hmax Hn He.
  assert (Hp : (0 <? n)%Z = true) by (apply Z.ltb_lt; exact Hn).
  destruct c as [[prompt image] rt]. cbn [fst snd] in *.
  unfold handler_process, exchange in *. cbn [fst snd] in He.
  destruct rt as [body|]; [|discriminate He].
  destruct (kind h) eqn:K; try congruence; cbn [context_bound].
  - destruct (content <- get body "content" (JArr []) ;;
              blocks <- iter content ;;
              ClaudeHandler.join_text_blocks blocks "") as [text|] eqn:Htext;
      [|discriminate He].
    injection He as <-.
    unfold ClaudeHandler.process. rewrite Hmax, positive_int, Hp.
    unfold ClaudeHandler.extract_response_text. rewrite Htext.
    cbn [append_message set_context max_context_messages conversation_context].
    rewrite Hmax, positive_int, Hp, limit_pairs_int by exact Hn.
    cbn [snd conversation_context set_context]. rewrite <- app_assoc. reflexivity.
  - destruct (get body "generation" (JStr "")) as [reply|] eqn:Htext;
      [|discriminate He].
    injection He as <-.
    unfold LlamaHandler.process. rewrite Hmax, positive_int, Hp.
    unfold LlamaHandler.extract_response_text. rewrite Htext.
    cbn [append_message set_context max_context_messages conversation_context].
    rewrite Hmax, positive_int, Hp, limit_pairs_int by exact Hn.
    destruct (extract_driving_action reply "Llama");
      cbn [snd conversation_context set_context]; rewrite <- app_assoc; reflexivity.
  - destruct (NovaHandler.reply_text body) as [found|] eqn:Htext;
      [|discriminate He].
    injection He as <-.
    unfold NovaHandler.process. rewrite Hmax, positive_int, Hp.
    unfold NovaHandler.extract_response_text.
    cbn [append_message set_context max_context_messages conversation_context].
    rewrite Hmax, positive_int, Hp, Htext.
    cbn [append_message set_context max_context_messages conversation_context].
    rewrite limit_last_int by exact Hn.
    destruct found as [t|];
      [destruct (extract_driving_action t "Nova")|];
      cbn [snd conversation_context set_context]; rewrite <- app_assoc; reflexivity.
Qed.

(** With a bound of zero no handler records anything. *)
Lemma process_without_memory (h : handler) (prompt : json)
                             (image : string) (rt : round_trip) :
  kind h <> Mistral -> max_context_messages h = JInt 0 ->
  conversation_context (snd (handler_process json_dumps mistral_process h prompt image rt))
    = conversation_context h.
Proof.
  intros Hk Hmax. unfold handler_process.
  destruct (kind h); try congruence.
  - unfold ClaudeHandler.process. rewrite Hmax, positive_int. cbn [Z.ltb Z.compare].
    destruct rt as [body|e]; [|reflexivity].
    unfold ClaudeHandler.extract_response_text. rewrite Hmax, positive_int.
    destruct (content <- get body "content" (JArr []) ;;
              blocks <- iter content ;;
              ClaudeHandler.join_text_blocks blocks ""); reflexivity.
  - unfold LlamaHandler.process. rewrite Hmax, positive_int. cbn [Z.ltb Z.compare].
    destruct rt as [body|e]; [|reflexivity].
    unfold LlamaHandler.extract_response_text. rewrite Hmax, positive_int.
    destruct (get body "generation" (JStr "")); reflexivity.
  - unfold NovaHandler.process. rewrite Hmax, positive_int. cbn [Z.ltb Z.compare].
    destruct rt as [body|e]; [|reflexivity].
    unfold NovaHandler.extract_response_text. rewrite Hmax, positive_int.
    cbn [Z.ltb Z.compare].
    destruct (NovaHandler.reply_text body) as [[t|]|]; reflexivity.
Qed.

Lemma run_without_memory (calls : list call) (h : handler) :
  kind h <> Mistral -> max_context_messages h = JInt 0 ->
  conversation_context (run json_dumps mistral_process h calls)
    = conversation_context h.
Proof.
  revert h. induction calls as [|c rest IH]; intros h Hk Hmax; [reflexivity|].
  unfold run in *. cbn [fold_left].
  destruct (handler_process_keeps_settings h (fst (fst c)) (snd (fst c)) (snd c) Hk)
    as [K M].
  rewrite IH; [apply process_without_memory; assumption | congruence | congruence].
Qed.

Lemma history_length (k : family) (calls : list call) (hist : list json) :
  history json_dumps k calls = Some hist -> length hist = (2 * length calls)%nat.
Proof.
  revert hist. induction calls as [|c rest IH]; intros hist H; cbn [history] in H.
  - injection H as <-. reflexivity.
  - destruct (exchange json_dumps k c) as [e|] eqn:He; [|discriminate H].
    destruct (history json_dumps k rest) as [h'|]; [|discriminate H].
    injection H as <-. rewrite length_app, (IH h' eq_refl). cbn [length].
    assert (length e = 2%nat); [|lia].
    unfold exchange in He. destruct (snd c); [|discriminate He].
    destruct k; try discriminate He.
    + destruct (content <- get a "content" (JArr []) ;;
                blocks <- iter content ;;
                ClaudeHandler.join_text_blocks blocks ""); [|discriminate He].
      injection He as <-. reflexivity.
    + destruct (get a "generation" (JStr "")); [|discriminate He].
      injection He as <-. reflexivity.
    + destruct (NovaHandler.reply_text a); [|discriminate He].
      injection He as <-. reflexivity.
Qed.

(** After calls that all add their exchange, the context is the latest part
    of what it held and what was exchanged. *)
Lemma run_context (n : Z) (calls : list call) :
  (0 < n)%Z ->
  forall (h : handler) (hist : list json),
  kind h <> Mistral ->
  max_context_messages h = JInt n ->
  (length (conversation_context h) <= context_bound (kind h) n)%nat ->
  history json_dumps (kind h) calls = Some hist ->
  conversation_context (run json_dumps mistral_process h calls)
    = keep_last (context_bound (kind h) n) (conversation_context h ++ hist).
Proof.
  intros Hn. induction calls as [|c rest IH]; intros h hist Hk Hmax Hlen Hh;
    cbn [history] in Hh.
  - injection Hh as <-. rewrite app_nil_r. cbn [run fold_left].
    symmetry. apply keep_last_all. exact Hlen.
  - destruct (exchange json_dumps (kind h) c) as [e|] eqn:He; [|discriminate Hh].
    destruct (history json_dumps (kind h) rest) as [h'|] eqn:Hr; [|discriminate Hh].
    injection Hh as <-.
    destruct (handler_process_keeps_settings h (fst (fst c)) (snd (fst c)) (snd c) Hk)
      as [K M].
    pose proof (handler_process_context h n c e Hk Hmax Hn He) as Hc.
    unfold run in *. cbn [fold_left].
    rewrite (IH _ h').
    + rewrite K, Hc, keep_last_app, app_assoc. reflexivity.
    + congruence.
    + congruence.
    + rewrite K, Hc, keep_last_length. lia.
    + rewrite K. exact Hr.
Qed.

(** A call of the Claude handler whose request fails leaves the user message
    in the context, one entry above the bound. *)
Lemma claude_failed_call_keeps_user_message :
  length (conversation_context
            (run dumps_stub mistral_stub (fresh Claude 1)
               [(JStr "Next image.", "", Ok (claude_body good_reply));
                (JStr "Next image.", "", Raise (ExternalError "timeout"))]))
    = 3%nat.
Proof. reflexivity. Qed.

End ContextFacts.

(** What the three handlers keep, for every [context_window = n]: with
    [n = 0] the context stays empty whatever the calls; and after calls of
    [process] that each add their exchange, the context is the latest part of
    the history, oldest entries dropped first, of at most [2n] entries for
    Claude and Llama and at most [n] entries for Nova, and of exactly that
    many once the history is that long. *)
Lemma context_keeps_latest_entries
    (json_dumps : json -> string)
    (mistral_process :
       Bedrock.handler -> json -> string -> Bedrock.round_trip -> Bedrock.stepped json)
    (k : Bedrock.family) (n : Z) (calls : list Runs.call) :
  k <> Bedrock.Mistral ->
  (0 <= n)%Z ->
  let ctx := Bedrock.conversation_context
               (Runs.run json_dumps mistral_process (Runs.fresh k n) calls) in
  (n = 0%Z -> ctx = [])
  /\ (forall hist,
        Runs.history json_dumps k calls = Some hist ->
        ctx = Runs.keep_last (Runs.context_bound k n) hist
        /\ length ctx = Nat.min (Runs.context_bound k n) (2 * length calls)).
Proof.
  intros Hk Hn ctx. split.
  - intros ->. unfold ctx. rewrite run_without_memory; auto.
  - intros hist Hh.
    assert (Hctx : ctx = Runs.keep_last (Runs.context_bound k n) hist).
    { destruct (Z.eq_dec n 0) as [->|Hnz].
      - unfold ctx. rewrite run_without_memory; auto.
        unfold Runs.keep_last. destruct k; cbn [Runs.context_bound Z.to_nat Nat.mul];
          rewrite Nat.sub_0_r, skipn_all; reflexivity.
      - unfold ctx.
        rewrite (run_context json_dumps mistral_process n calls ltac:(lia)
                   (Runs.fresh k n) hist); auto.
        cbn. lia. }
    split; [exact Hctx|].
    rewrite Hctx, keep_last_length, (history_length json_dumps k calls hist Hh).
    reflexivity.
Qed.

(** C2, at the Nova handler with [context_window = 1]: after four calls of
    [process] that all succeed, its context holds one entry, the last
    assistant message, where the bound of two entries per remembered turn
    asks for two; the Claude and the Llama handler hold two after the same
    run.  [extract_response_text] of Nova cuts the context to its last
    [max_context_messages] entries, the two other handlers to twice that
    many. *)
Theorem C2_nova_context_holds_half_the_bound
    (json_dumps : json -> string)
    (mistral_process :
       Bedrock.handler -> json -> string -> Bedrock.round_trip -> Bedrock.stepped json) :
  let run := Runs.run json_dumps mistral_process in
  let calls body := repeat (JStr "Next image.", "", Ok (body Samples.good_reply)) 4 in
  Bedrock.conversation_context (run (Runs.fresh Bedrock.Nova 1) (calls Samples.nova_body))
    = [Bedrock.message "assistant" (JArr [JObj [("text", JStr Samples.good_reply)]])]
  /\ length (Bedrock.conversation_context
               (run (Runs.fresh Bedrock.Nova 1) (calls Samples.nova_body))) <> 2%nat
  /\ length (Bedrock.conversation_context
               (run (Runs.fresh Bedrock.Claude 1) (calls Samples.claude_body))) = 2%nat
  /\ length (Bedrock.conversation_context
               (run (Runs.fresh Bedrock.Llama 1) (calls Samples.llama_body))) = 2%nat.
Proof. repeat split; try reflexivity. discriminate. Qed.

(** ** Normalisation failures in the orchestrator *)

(** C10: when the reply carries both fields and the normalisation of the
    parsed action raises, [_normalize_action] returns the action it was
    given and [process_image] returns that same action: nothing clamps it or
    maps it to a declared action, and no [fallback] flag is added. *)
Theorem C10_failed_normalization_returns_action
    (json_dumps : json -> string)
    (mistral_process :
       Bedrock.handler -> json -> string -> Bedrock.round_trip -> Bedrock.stepped json)
    (float_of_str : string -> option R)
    (a : Agent.agent) (fs : file_system) (image_path b64 : string)
    (prompt md action : json) (rt : Bedrock.round_trip) (s : Bedrock.service) (e : exn) :
  let a1 := Agent.with_image_count a (Agent.image_count a + 1) in
  Agent.prepare_frame a1 fs image_path = Ok (b64, prompt, md) ->
  Bedrock.process json_dumps mistral_process (Agent.bedrock_service a1)
                  prompt b64 None rt = (Ok action, s) ->
  py_in "steering_angle" action = Ok true ->
  py_in "speed" action = Ok true ->
  Agent.normalize_attempt float_of_str md action = Raise e ->
  Agent._normalize_action float_of_str md action = (action, md)
  /\ fst (Agent.process_image json_dumps mistral_process float_of_str a fs image_path rt)
     = action.
Proof.
  intros a1 Hprep Hproc Hsteer Hspeed Hnorm.
  assert (Hn : Agent._normalize_action float_of_str md action = (action, md)).
  { unfold Agent._normalize_action. rewrite Hnorm. reflexivity. }
  split; [exact Hn|].
  unfold Agent.process_image. fold a1. rewrite Hprep.
  cbn [Agent.with_metadata Agent.bedrock_service Agent.metadata].
  rewrite Hproc. cbn [bind Agent.with_service Agent.metadata].
  unfold Agent.fill_missing. rewrite Hsteer. cbn [bind]. rewrite Hspeed.
  cbn [bind andb Agent.metadata Agent.with_metadata]. rewrite Hn. reflexivity.
Qed.

(** The agent built from the sample metadata, on a reply whose steering
    angle is [null]: [float(None)] raises, and the frame returns the reply as
    parsed, speed 99 included, which is none of the three declared
    actions. *)
Lemma C10_failed_normalization_returns_action_witness :
  let r := fst (Agent.process_image Samples.dumps_stub Samples.mistral_stub
                  Samples.float_stub Samples.claude_agent Samples.files
                  "frame_1.jpg" (Ok (Samples.claude_body Samples.null_steering_reply))) in
  r = JObj [("steering_angle", JNull); ("speed", JInt 99)]
  /\ py_in "fallback" r = Ok false
  /\ ~ In r Samples.discrete_actions.
Proof.
  cbv zeta.
  rewrite (proj2 (C10_failed_normalization_returns_action
             Samples.dumps_stub Samples.mistral_stub Samples.float_stub
             Samples.claude_agent Samples.files "frame_1.jpg" "SkZJRg=="
             (JStr "Next image.") Samples.discrete_metadata
             (JObj [("steering_angle", JNull); ("speed", JInt 99)])
             (Ok (Samples.claude_body Samples.null_steering_reply))
             (snd (Bedrock.process Samples.dumps_stub Samples.mistral_stub
                     (Agent.bedrock_service Samples.claude_agent)
                     (JStr "Next image.") "SkZJRg==" None
                     (Ok (Samples.claude_body Samples.null_steering_reply))))
             (TypeError "float() argument must be a string or a real number")
             eq_refl eq_refl eq_refl eq_refl eq_refl)).
  split; [reflexivity|]. split; [reflexivity|].
  intros [H|[H|[H|[]]]]; discriminate H.
Defined.

(** ** The action space: what validation guarantees *)

Section ValidationFacts.
Import ActionSpace.

Lemma is_number_value (a : json) :
  is_number a = true -> exists x, num_value a = Some x.
Proof. destruct a; simpl; intros H; try discriminate; eauto. Qed.

Lemma validate_discrete_actions_inv (actions : list json) :
  validate_discrete_actions actions = Ok tt -> Forall declared_entry actions.
Proof.
  induction actions as [|e rest IH]; intros H; [constructor|].
  cbn [validate_discrete_actions] in H.
  destruct e as [| | | | |? |d]; try discriminate H.
  cbn [get_none get bind] in H.
  destruct (dict_get "steering_angle" d) as [a|] eqn:Ha; [|discriminate H].
  destruct (is_number a) eqn:Na; [|discriminate H].
  destruct (dict_get "speed" d) as [b|] eqn:Hb; [|discriminate H].
  destruct (is_number b) eqn:Nb; [|discriminate H].
  cbn [negb] in H. constructor; [|exact (IH H)].
  exists d, a, b. auto.
Qed.

(** The checks that come before the action space either raise or return. *)
Lemma validate_metadata_space (md : json) :
  _validate_metadata md = Ok tt ->
  truth md = true
  /\ exists t space,
       get_action_space_type md = Ok t
       /\ getitem md "action_space" = Ok space
       /\ match t with
          | DISCRETE => exists actions,
                          space = JArr actions
                          /\ validate_discrete_actions actions = Ok tt
          | CONTINUOUS => validate_continuous_space space = Ok tt
          end.
Proof.
  unfold _validate_metadata. destruct (truth md); [|discriminate].
  cbn [negb]. intros H. split; [reflexivity|].
  repeat (bind_inv H).
  match goal with
  | Ht : get_action_space_type md = Ok ?t |- _ => destruct t
  end; bind_inv H;
  match goal with
  | Hs : getitem md "action_space" = Ok ?sp |- _ =>
      eexists _, sp; split; [eassumption|]; split; [exact Hs|]
  end.
  - match goal with
    | Hs : getitem md "action_space" = Ok ?sp |- _ =>
        destruct sp; try discriminate H
    end.
    eauto.
  - exact H.
Qed.

Lemma validate_metadata_discrete (md : json) (actions : list json) :
  _validate_metadata md = Ok tt ->
  get_action_space_type md = Ok DISCRETE ->
  declared_actions md actions ->
  truth md = true /\ Forall declared_entry actions.
Proof.
  intros Hv Ht Ha. destruct (validate_metadata_space md Hv) as (Htruth & t & space & Ht' & Hs & Hk).
  split; [exact Htruth|].
  rewrite Ht in Ht'. injection Ht' as <-.
  unfold declared_actions in Ha. rewrite Ha in Hs. injection Hs as <-.
  destruct Hk as (l & El & Hl). injection El as <-.
  apply validate_discrete_actions_inv. exact Hl.
Qed.

Lemma check_range_order_inv (space : json) (axis msg : string) :
  check_range_order space axis msg = Ok tt ->
  exists low high,
    range_bound space axis "low" = Ok low
    /\ range_bound space axis "high" = Ok high
    /\ (low < high)%R.
Proof.
  unfold check_range_order. intros H.
  bind_inv H. bind_inv H.
  destruct (Rlt_dec x x0); [|discriminate H]. eauto.
Qed.

Lemma validate_metadata_continuous (md : json) :
  _validate_metadata md = Ok tt ->
  get_action_space_type md = Ok CONTINUOUS ->
  truth md = true
  /\ exists l1 h1 l2 h2,
       declared_range md "steering_angle" l1 h1 /\ (l1 < h1)%R
       /\ declared_range md "speed" l2 h2 /\ (l2 < h2)%R.
Proof.
  intros Hv Ht. destruct (validate_metadata_space md Hv) as (Htruth & t & space & Ht' & Hs & Hk).
  split; [exact Htruth|].
  rewrite Ht in Ht'. injection Ht' as <-.
  unfold validate_continuous_space in Hk.
  repeat (lazymatch type of Hk with
          | check_range_order _ _ _ = _ => fail
          | _ => bind_inv Hk
          end).
  repeat match goal with u : unit |- _ => destruct u end.
  apply check_range_order_inv in Hk.
  destruct Hk as (l1 & h1 & A1 & B1 & C1).
  match goal with
  | Hc : check_range_order _ "speed" _ = Ok _ |- _ =>
      apply check_range_order_inv in Hc;
      destruct Hc as (l2 & h2 & A2 & B2 & C2)
  end.
  exists l1, h1, l2, h2. unfold declared_range. repeat split; eauto.
Qed.

End ValidationFacts.

(** ** Continuous spaces *)

Section ContinuousFacts.
Import ActionSpace.

Lemma int_value_num (a : json) (m : Z) :
  int_value a = Some m -> num_value a = Some (IZR m).
Proof.
  destruct a as [|b|n| | | |]; simpl; intros H; try discriminate;
    injection H as <-; [destruct b|]; reflexivity.
Qed.

(** [lt_num] decides the order of the values. *)
Lemma lt_num_value (a b : json) (x y : R) :
  num_value a = Some x -> num_value b = Some y ->
  lt_num a b = Ok (if Rlt_dec x y then true else false).
Proof.
  intros Ha Hb. unfold lt_num.
  destruct (int_value a) as [m|] eqn:Ia; [destruct (int_value b) as [n|] eqn:Ib|].
  - rewrite (int_value_num _ _ Ia) in Ha. rewrite (int_value_num _ _ Ib) in Hb.
    injection Ha as <-. injection Hb as <-. f_equal.
    destruct (Z.ltb_spec m n) as [L|L], (Rlt_dec (IZR m) (IZR n)) as [L'|L'];
      try reflexivity.
    + exfalso. apply L'. apply IZR_lt. exact L.
    + exfalso. apply lt_IZR in L'. lia.
  - rewrite Ha, Hb. reflexivity.
  - rewrite Ha, Hb. reflexivity.
Qed.

Lemma range_bound_item (space : json) (axis bound : string) (x : R) :
  range_bound space axis bound = Ok x ->
  exists b, range_item space axis bound = Ok b /\ num_value b = Some x.
Proof.
  unfold range_bound, range_item. intros H.
  destruct (getitem space axis) as [range|]; [|discriminate H]. cbn [bind] in *.
  destruct (getitem range bound) as [b|]; [|discriminate H]. cbn [bind] in *.
  exists b. destruct (num_value b); [|discriminate H]. injection H as <-. auto.
Qed.

(** The clamp returns one of the two bounds or the input, and its value lies
    between the bounds. *)
Lemma clamp_within (space : json) (axis : string) (low high x : R) :
  range_bound space axis "low" = Ok low ->
  range_bound space axis "high" = Ok high ->
  (low < high)%R ->
  exists r y, clamp space axis x = Ok r /\ num_value r = Some y
              /\ (low <= y <= high)%R.
Proof.
  intros Hl Hh Hlt.
  destruct (range_bound_item _ _ _ _ Hl) as (lj & Il & Nl).
  destruct (range_bound_item _ _ _ _ Hh) as (hj & Ih & Nh).
  unfold clamp. rewrite Il, Ih. cbn [bind].
  unfold py_min. rewrite (lt_num_value (JFloat x) hj x high) by (reflexivity || exact Nh).
  cbn [bind].
  destruct (Rlt_dec x high) as [Lx|Lx].
  - unfold py_max. rewrite (lt_num_value lj (JFloat x) low x) by (exact Nl || reflexivity).
    cbn [bind]. destruct (Rlt_dec low x) as [L|L].
    + exists (JFloat x), x. repeat split; try reflexivity; lra.
    + exists lj, low. repeat split; auto; lra.
  - unfold py_max. rewrite (lt_num_value lj hj low high) by assumption.
    cbn [bind]. destruct (Rlt_dec low high) as [L|L]; [|contradiction].
    exists hj, high. repeat split; auto; lra.
Qed.

(** The warning never raises on a validated range. *)
Lemma warn_if_exceeds_ok (space : json) (axis : string) (low high x : R) :
  range_bound space axis "low" = Ok low ->
  range_bound space axis "high" = Ok high ->
  warn_if_exceeds space axis x = Ok tt.
Proof.
  intros Hl Hh.
  destruct (range_bound_item _ _ _ _ Hl) as (lj & Il & Nl).
  destruct (range_bound_item _ _ _ _ Hh) as (hj & Ih & Nh).
  unfold warn_if_exceeds. rewrite Il. cbn [bind].
  rewrite (lt_num_value (JFloat x) lj x low) by (reflexivity || exact Nl).
  cbn [bind]. destruct (Rlt_dec x low); cbn [bind].
  - rewrite Ih. reflexivity.
  - rewrite Ih. cbn [bind].
    rewrite (lt_num_value hj (JFloat x) high x) by (exact Nh || reflexivity).
    cbn [bind]. destruct (Rlt_dec high x); reflexivity.
Qed.

End ContinuousFacts.

(** C5: for a metadata object that passes validation with a continuous
    action space, and for all reals [s] and [v], [normalize_action] returns a
    new pair whose steering angle lies between the declared steering bounds
    and whose speed lies between the declared speed bounds. *)
Theorem C5_continuous_normalize_within_range (md : json) (s v : R) :
  _validate_metadata md = Ok tt ->
  get_action_space_type md = Ok CONTINUOUS ->
  exists l1 h1 l2 h2 a b x y,
    ActionSpace.declared_range md "steering_angle" l1 h1 /\ (l1 < h1)%R
    /\ ActionSpace.declared_range md "speed" l2 h2 /\ (l2 < h2)%R
    /\ normalize_action md s v
       = Ok (NewDict (JObj [("steering_angle", a); ("speed", b)]))
    /\ num_value a = Some x /\ (l1 <= x <= h1)%R
    /\ num_value b = Some y /\ (l2 <= y <= h2)%R.
Proof.
  intros Hv Ht.
  destruct (validate_metadata_continuous md Hv Ht)
    as (Htruth & l1 & h1 & l2 & h2 & R1 & O1 & R2 & O2).
  exists l1, h1, l2, h2.
  pose proof R1 as (space & Hs & A1 & B1).
  pose proof R2 as (space' & Hs' & A2 & B2).
  rewrite Hs in Hs'. injection Hs' as <-.
  destruct (clamp_within space "steering_angle" l1 h1 s A1 B1 O1) as (a & x & Ca & Na & Ia).
  destruct (clamp_within space "speed" l2 h2 v A2 B2 O2) as (b & y & Cb & Nb & Ib).
  pose proof (warn_if_exceeds_ok space "steering_angle" l1 h1 s A1 B1) as E1.
  pose proof (warn_if_exceeds_ok space "speed" l2 h2 v A2 B2) as E2.
  exists a, b, x, y.
  repeat (split; [assumption|]).
  split; [|auto].
  unfold normalize_action. rewrite Htruth, Ht. cbn [negb bind is_continuous].
  rewrite Hs. cbn [bind]. rewrite E1. cbn [bind]. rewrite E2. cbn [bind].
  rewrite Ca. cbn [bind]. rewrite Cb. reflexivity.
Qed.

Lemma C5_continuous_normalize_within_range_witness :
  exists l1 h1 l2 h2 a b x y,
    ActionSpace.declared_range Samples.continuous_metadata "steering_angle" l1 h1
    /\ (l1 < h1)%R
    /\ ActionSpace.declared_range Samples.continuous_metadata "speed" l2 h2
    /\ (l2 < h2)%R
    /\ normalize_action Samples.continuous_metadata 100 (-5)
       = Ok (NewDict (JObj [("steering_angle", a); ("speed", b)]))
    /\ num_value a = Some x /\ (l1 <= x <= h1)%R
    /\ num_value b = Some y /\ (l2 <= y <= h2)%R.
Proof.
  apply (C5_continuous_normalize_within_range Samples.continuous_metadata 100 (-5)).
  - unfold Samples.continuous_metadata. cbn.
    destruct (Rlt_dec 1 4) as [_|N]; [|exfalso; apply N; lra]. cbn.
    destruct (Rlt_dec (-30) 30) as [_|N]; [|exfalso; apply N; lra].
    reflexivity.
  - reflexivity.
Defined.

(** ** Discrete spaces *)

Section DiscreteFacts.
Import ActionSpace Float64.

Variables s v : R.

Lemma declared_entry_axes (e : json) :
  declared_entry e ->
  exists a b,
    getitem e "steering_angle" = Ok a /\ num_value a = Some (steering_of e)
    /\ getitem e "speed" = Ok b /\ num_value b = Some (speed_of e).
Proof.
  intros (d & a & b & -> & Ha & Na & Hb & Nb).
  destruct (is_number_value a Na) as (x & Hx).
  destruct (is_number_value b Nb) as (y & Hy).
  exists a, b. unfold steering_of, speed_of, axis_value. cbn [getitem].
  rewrite Ha, Hb, Hx, Hy. auto.
Qed.

Lemma declared_entry_true (e : json) : declared_entry e -> truth e = true.
Proof.
  intros (d & a & b & -> & Ha & _). destruct d; [discriminate Ha | reflexivity].
Qed.

(** The conversion of a declared number whose integer fits. *)
Lemma to_float_axis (e : json) (axis : string) (a : json) :
  getitem e axis = Ok a ->
  num_value a = Some (axis_value e axis) ->
  int_fits e axis ->
  to_float a = Ok (axis_float e axis).
Proof.
  intros Hg Hn Hfit. unfold axis_float. unfold int_fits in Hfit.
  destruct e as [| | | | | |d]; cbn [getitem] in Hg; try discriminate Hg.
  destruct (dict_get axis d) as [a'|]; [|discriminate Hg].
  injection Hg as ->.
  unfold to_float.
  destruct a as [|b|n|x| | |]; cbn [num_value int_value] in *; try discriminate Hn;
    apply some_inj in Hn; rewrite <- Hn.
  - destruct b.
    + destruct (round64 1) as [r|]; [reflexivity | congruence].
    + destruct (round64 0) as [r|]; [reflexivity | congruence].
  - destruct (round64 (IZR n)) as [r|]; [reflexivity | congruence].
  - reflexivity.
Qed.

(** One turn of the loop on a validated entry whose integers fit. *)
Lemma closest_loop_step (e : json) (rest : list json) (i : nat)
                        (best : nat * json) (m : f64) :
  declared_entry e -> ints_fit e ->
  closest_loop s v (e :: rest) i best m
    = if flt (computed_distance s v e) m
      then closest_loop s v rest (S i) (i, e) (computed_distance s v e)
      else closest_loop s v rest (S i) best m.
Proof.
  intros He [F1 F2].
  destruct (declared_entry_axes e He) as (a & b & Ha & Na & Hb & Nb).
  cbn [closest_loop]. rewrite Ha. cbn [bind]. unfold sub_float.
  rewrite (to_float_axis e "steering_angle" a Ha Na F1). cbn [bind].
  rewrite Hb. cbn [bind].
  rewrite (to_float_axis e "speed" b Hb Nb F2). cbn [bind].
  reflexivity.
Qed.

(** The loop returns: either it keeps the entry it started with, when no entry
    of the list is below the starting distance, or it has moved to the first
    entry at the least computed distance of the list. *)
Lemma closest_loop_spec (l : list json) :
  Forall declared_entry l -> Forall ints_fit l ->
  forall (i : nat) (best : nat * json) (m : f64),
  exists r,
    closest_loop s v l i best m = Ok r
    /\ ((r = best /\ forall e, In e l -> flt (computed_distance s v e) m = false)
        \/ exists j e, r = ((i + j)%nat, e) /\ first_minimum s v l j e
                       /\ flt (computed_distance s v e) m = true).
Proof.
  induction 1 as [|e rest He Hrest IH]; intros Hfit i best m.
  - exists best. split; [reflexivity|]. left. split; [reflexivity|]. intros e [].
  - inversion Hfit as [|? ? Fe Frest]; subst.
    rewrite (closest_loop_step e rest i best m He Fe).
    destruct (flt (computed_distance s v e) m) eqn:Hb.
    + destruct (IH Frest (S i) (i, e) (computed_distance s v e))
        as (r & Hr & [[-> Hall]|(j & e2 & -> & (Hn & Hmin & Hfirst) & Hlt)]).
      * exists (i, e). split; [exact Hr|]. right. exists 0%nat, e.
        split; [f_equal; lia|]. split; [|exact Hb].
        split; [reflexivity|]. split.
        -- intros e' [<-|Hin].
           ++ apply flt_true in Hb. unfold fle.
              destruct (computed_distance s v e); [lra | contradiction].
           ++ specialize (Hall e' Hin). apply flt_false in Hall.
              apply flt_true in Hb. unfold fle.
              destruct (computed_distance s v e), (computed_distance s v e');
                try tauto.
        -- intros k e' Hk. lia.
      * exists ((S i + j)%nat, e2). split; [exact Hr|]. right. exists (S j), e2.
        split; [f_equal; lia|]. split.
        -- split; [exact Hn|]. split.
           ++ intros e' [<-|Hin]; [|apply Hmin; exact Hin].
              apply flt_true in Hlt. unfold fle.
              destruct (computed_distance s v e2), (computed_distance s v e);
                try tauto; lra.
           ++ intros [|k] e' Hk Hk'; cbn [nth_error] in Hk'.
              ** apply some_inj in Hk'. subst e'. exact Hlt.
              ** apply (Hfirst k e'); [lia | exact Hk'].
        -- apply flt_true in Hlt. apply flt_true in Hb. apply flt_true.
           destruct (computed_distance s v e2), (computed_distance s v e), m;
             try tauto; lra.
    + destruct (IH Frest (S i) best m)
        as (r & Hr & [[-> Hall]|(j & e2 & -> & (Hn & Hmin & Hfirst) & Hlt)]).
      * exists best. split; [exact Hr|]. left. split; [reflexivity|].
        intros e' [<-|Hin]; [exact Hb | apply Hall; exact Hin].
      * exists ((S i + j)%nat, e2). split; [exact Hr|]. right. exists (S j), e2.
        assert (Hlt2 : flt (computed_distance s v e2) (computed_distance s v e) = true).
        { apply flt_true in Hlt. apply flt_false in Hb. apply flt_true.
          destruct (computed_distance s v e2), (computed_distance s v e), m;
            try tauto; lra. }
        split; [f_equal; lia|]. split; [|exact Hlt].
        split; [exact Hn|]. split.
        -- intros e' [<-|Hin]; [|apply Hmin; exact Hin].
           apply flt_true in Hlt2. unfold fle.
           destruct (computed_distance s v e2), (computed_distance s v e);
             try tauto; lra.
        -- intros [|k] e' Hk Hk'; cbn [nth_error] in Hk'.
           ++ apply some_inj in Hk'. subst e'. exact Hlt2.
           ++ apply (Hfirst k e'); [lia | exact Hk'].
Qed.

Lemma exact_match_ok (l : list json) :
  Forall declared_entry l -> exists b, exact_match s v l = Ok b.
Proof.
  induction 1 as [|e rest He Hrest IH]; [simpl; eauto|].
  destruct (declared_entry_axes e He) as (a & b & Ha & Na & Hb & Nb).
  cbn [exact_match]. rewrite Ha. cbn [bind].
  destruct (eq_float a s); [rewrite Hb; cbn [bind]; destruct (eq_float b v)|];
    cbn [bind]; eauto.
Qed.

(** On a validated, non-empty action list whose integers fit, the search
    returns the first entry at the least computed distance, with its
    position. *)
Lemma find_closest_spec (md : json) (actions : list json) :
  truth md = true ->
  get_action_space_type md = Ok DISCRETE ->
  declared_actions md actions ->
  Forall declared_entry actions ->
  Forall ints_fit actions ->
  actions <> [] ->
  exists j e,
    find_closest_discrete_action md s v = Ok (Some (j, e))
    /\ first_minimum s v actions j e.
Proof.
  intros Htruth Ht Ha Hall Hfit Hne.
  unfold find_closest_discrete_action. rewrite Htruth, Ht.
  cbn [negb bind is_discrete]. unfold declared_actions in Ha. rewrite Ha.
  cbn [bind iter].
  destruct actions as [|e0 rest]; [congruence|].
  cbn [getitem0 index nth_error bind].
  destruct (closest_loop_spec (e0 :: rest) Hall Hfit 0 (0%nat, e0) None)
    as (r & Hr & [[-> Hnone]|(j & e & -> & Hmin & _)]).
  - rewrite Hr. cbn [bind]. exists 0%nat, e0. split; [reflexivity|].
    split; [reflexivity|]. split.
    + intros e' Hin. specialize (Hnone e' Hin). apply flt_false in Hnone.
      unfold fle. destruct (computed_distance s v e'); [contradiction|].
      destruct (computed_distance s v e0); exact I.
    + intros k e' Hk. lia.
  - rewrite Hr. cbn [bind]. exists j, e. split; [reflexivity | exact Hmin].
Qed.

Lemma normalize_discrete_spec (md : json) (actions : list json) :
  _validate_metadata md = Ok tt ->
  get_action_space_type md = Ok DISCRETE ->
  declared_actions md actions ->
  Forall ints_fit actions ->
  actions <> [] ->
  exists j e,
    normalize_action md s v = Ok (Member j e)
    /\ first_minimum s v actions j e.
Proof.
  intros Hv Ht Ha Hfit Hne.
  destruct (validate_metadata_discrete md actions Hv Ht Ha) as (Htruth & Hall).
  destruct (find_closest_spec md actions Htruth Ht Ha Hall Hfit Hne)
    as (j & e & Hf & Hmin).
  destruct (exact_match_ok actions Hall) as (b & Hb).
  exists j, e. split; [|exact Hmin].
  unfold normalize_action. rewrite Htruth, Ht. cbn [negb bind is_continuous].
  pose proof Ha as Ha'. unfold declared_actions in Ha'. rewrite Ha'.
  cbn [bind iter]. rewrite Hb. cbn [bind]. rewrite Hf. cbn [bind].
  assert (He : declared_entry e).
  { destruct Hmin as (Hn & _). apply nth_error_In in Hn.
    rewrite Forall_forall in Hall. apply Hall. exact Hn. }
  rewrite (declared_entry_true e He). reflexivity.
Qed.

(** The computed distance is never negative, and it is zero at an entry that
    carries the requested pair. *)
Lemma computed_distance_nonneg (e : json) (r : R) :
  computed_distance s v e = Some r -> (0 <= r)%R.
Proof. unfold computed_distance. apply fsqrt_nonneg. Qed.

Lemma computed_distance_match (e : json) :
  steering_of e = s -> speed_of e = v ->
  round64 s <> None -> round64 v <> None ->
  computed_distance s v e = Some 0%R.
Proof.
  intros Es Ev Hs Hv. unfold computed_distance, axis_float.
  fold (steering_of e). fold (speed_of e). rewrite Es, Ev.
  destruct (round64 s) as [a|] eqn:A; [|congruence].
  destruct (round64 v) as [b|] eqn:B; [|congruence].
  cbv zeta. rewrite (fsub_same (Some a) a eq_refl), (fsub_same (Some b) b eq_refl).
  rewrite fmul_0, fadd_0. apply fsqrt_0.
Qed.

(** The real distance is zero exactly at the entry's own pair. *)
Lemma distance_zero (e : json) :
  distance s v e = 0%R <-> steering_of e = s /\ speed_of e = v.
Proof.
  unfold distance. split.
  - intros H.
    pose proof (Rle_0_sqr (steering_of e - s)) as P1.
    pose proof (Rle_0_sqr (speed_of e - v)) as P2. unfold Rsqr in P1, P2.
    apply sqrt_eq_0 in H; [|lra].
    destruct (Rplus_sqr_eq_0 (steering_of e - s) (speed_of e - v)) as [A B];
      [unfold Rsqr; exact H|].
    split; lra.
  - intros [-> ->]. replace ((s - s) * (s - s) + (v - v) * (v - v))%R with 0%R by ring.
    apply sqrt_0.
Qed.

Lemma distance_nonneg (e : json) : (0 <= distance s v e)%R.
Proof. apply sqrt_pos. Qed.

End DiscreteFacts.

(** *** Comparing computed distances *)

Section DistanceOrder.
Import ActionSpace Float64.

Lemma fle_antisym (a b : f64) : fle a b -> fle b a -> a = b.
Proof.
  destruct a as [x|], b as [y|]; simpl; intros H1 H2;
    try contradiction; [|reflexivity].
  f_equal. lra.
Qed.

Lemma flt_not_fle (a b : f64) : flt a b = true -> fle b a -> False.
Proof.
  intros H L. apply flt_true in H.
  destruct a as [x|], b as [y|]; simpl in *; try contradiction. lra.
Qed.

(** A position holds the first minimum when its entry is at the least
    computed distance and no earlier entry is at the same one. *)
Lemma first_minimum_unique (s v : R) (l : list json) (j j' : nat) (e e' : json) :
  first_minimum s v l j' e' ->
  nth_error l j = Some e ->
  (forall e'', In e'' l -> fle (computed_distance s v e) (computed_distance s v e'')) ->
  (forall k e'', (k < j)%nat -> nth_error l k = Some e'' ->
     computed_distance s v e'' <> computed_distance s v e) ->
  j' = j /\ e' = e.
Proof.
  intros (Hnth' & Hmin & Hfirst) Hnth Hleast Hearliest.
  assert (Hin : In e l) by (eapply nth_error_In; exact Hnth).
  assert (Hin' : In e' l) by (eapply nth_error_In; exact Hnth').
  destruct (Nat.lt_trichotomy j' j) as [Hlt|[Heq|Hgt]].
  - exfalso. apply (Hearliest j' e' Hlt Hnth').
    apply fle_antisym; [apply Hmin; exact Hin | apply Hleast; exact Hin'].
  - subst j'. rewrite Hnth in Hnth'. injection Hnth' as <-. auto.
  - exfalso. apply (flt_not_fle _ _ (Hfirst j e Hgt Hnth)). apply Hleast. exact Hin'.
Qed.

(** The first minimum is the first entry at computed distance zero, when
    there is one. *)
Lemma first_minimum_zero (s v : R) (l : list json) (j k : nat) (e e' : json) :
  first_minimum s v l j e ->
  nth_error l k = Some e' ->
  computed_distance s v e' = Some 0%R ->
  computed_distance s v e = Some 0%R
  /\ (j <= k)%nat
  /\ (forall i e'', (i < j)%nat -> nth_error l i = Some e'' ->
        computed_distance s v e'' <> Some 0%R).
Proof.
  intros (Hnth & Hmin & Hfirst) Hk Hz.
  assert (He : computed_distance s v e = Some 0%R).
  { pose proof (Hmin e' (nth_error_In _ _ Hk)) as L. rewrite Hz in L.
    destruct (computed_distance s v e) as [x|] eqn:E; simpl in L; [|contradiction].
    pose proof (computed_distance_nonneg s v e x E). f_equal. lra. }
  split; [exact He|]. split.
  - destruct (Nat.le_gt_cases j k) as [L|G]; [exact L|]. exfalso.
    pose proof (Hfirst k e' G Hk) as F. rewrite He, Hz in F.
    apply flt_true in F. lra.
  - intros i e'' Hi Hn Hz'. pose proof (Hfirst i e'' Hi Hn) as F.
    rewrite He, Hz' in F. apply flt_true in F. lra.
Qed.

(** Rounding a real that is a small integer or a power of two in range. *)
Lemma round64_int_val (x : R) (n : Z) :
  x = IZR n -> (Z.abs n < 2 ^ 53)%Z -> round64 x = Some (IZR n).
Proof. intros ->. apply round64_int. Qed.

Lemma round64_pow2_val (x : R) (k : Z) :
  x = pow2 k -> (-1022 <= k <= 1023)%Z -> round64 x = Some (pow2 k).
Proof. intros ->. apply round64_pow2. Qed.

(** A positive real below half the least subnormal rounds to zero. *)
Lemma round64_tiny (x : R) :
  (0 <= x < pow2 (-1075))%R -> round64 x = Some 0%R.
Proof.
  intros H. rewrite round64_pos by lra. apply round_pos_tiny. exact H.
Qed.

(** One plus a positive real below [2^-53] rounds to one. *)
Lemma round64_one_plus (x p : R) :
  x = (1 + p)%R -> (0 <= p < pow2 (-53))%R -> round64 x = Some 1%R.
Proof.
  intros -> [P0 P1].
  assert (L1 : (pow2 (-53) < pow2 0)%R) by (apply pow2_lt; lia).
  rewrite pow2_0 in L1.
  rewrite round64_pos by lra.
  rewrite (round_pos_down 0 (2 ^ 52) (1 + p)).
  - f_equal. change (0 - 52)%Z with (-52)%Z. rewrite <- pow2_IZR by lia.
    rewrite <- pow2_add. apply pow2_0.
  - lia.
  - rewrite pow2_0. change (0 + 1)%Z with (Z.succ 0).
    replace (pow2 (Z.succ 0)) with 2%R; [lra|].
    change (Z.succ 0) with (0 + 1)%Z. rewrite pow2_succ, pow2_0. lra.
  - change (0 - 52)%Z with (-52)%Z.
    rewrite <- pow2_IZR by lia.
    assert (E : ((1 + p) / pow2 (-52) = pow2 52 + p * pow2 52)%R).
    { unfold Rdiv. replace (/ pow2 (-52))%R with (pow2 52).
      - ring.
      - apply Rmult_eq_reg_l with (pow2 (-52)); [|apply Rgt_not_eq, pow2_pos].
        rewrite Rinv_r by apply Rgt_not_eq, pow2_pos.
        rewrite <- pow2_add. apply pow2_0. }
    rewrite E.
    assert (B : (p * pow2 52 < pow2 (-53) * pow2 52)%R).
    { apply Rmult_lt_compat_r; [apply pow2_pos | exact P1]. }
    rewrite <- pow2_add in B. change (-53 + 52)%Z with (-1)%Z in B.
    assert (H12 : pow2 (-1) = (1 / 2)%R).
    { apply Rmult_eq_reg_l with 2%R; [|lra].
      rewrite <- pow2_succ. change (-1 + 1)%Z with 0%Z. rewrite pow2_0. lra. }
    rewrite H12 in B.
    assert (0 <= p * pow2 52)%R
      by (apply Rmult_le_pos; [exact P0 | apply Rlt_le, pow2_pos]).
    lra.
  - change (0 - 52)%Z with (-52)%Z. rewrite <- pow2_IZR by lia.
    rewrite <- pow2_add. apply pow2_lt. lia.
Qed.

End DistanceOrder.

(** Rewrites the rounding of [x], which is the small integer [n]. *)
Ltac round_int x n :=
  rewrite (round64_int_val x n) by (first [reflexivity | lra]);
  cbn [Float64.fsub Float64.fmul Float64.fadd Float64.fsqrt].

(** Rewrites the rounding of [x], which is the power of two [pow2 k]. *)
Ltac round_pow2 x k :=
  rewrite (round64_pow2_val x k)
    by (first [reflexivity | lra | lia | (rewrite <- pow2_add; reflexivity)]);
  cbn [Float64.fsub Float64.fmul Float64.fadd Float64.fsqrt].

Ltac unfold_distance :=
  unfold ActionSpace.computed_distance, ActionSpace.axis_float,
    ActionSpace.axis_value;
  cbn [dict_get String.eqb Ascii.eqb Bool.eqb num_value];
  cbv zeta.

(** *** Computed distances of the sample spaces *)

Section SampleDistances.
Import ActionSpace Float64.

Lemma ints_fit_small (a b : Z) :
  (Z.abs a < 2 ^ 53)%Z -> (Z.abs b < 2 ^ 53)%Z ->
  ints_fit (JObj [("steering_angle", JInt a); ("speed", JInt b)]).
Proof.
  intros Ha Hb. split; unfold int_fits;
    cbn [dict_get String.eqb Ascii.eqb Bool.eqb int_value];
    rewrite round64_int by assumption; discriminate.
Qed.

Lemma ints_fit_float_int (x : R) (b : Z) :
  (Z.abs b < 2 ^ 53)%Z ->
  ints_fit (JObj [("steering_angle", JFloat x); ("speed", JInt b)]).
Proof.
  intros Hb. split; unfold int_fits;
    cbn [dict_get String.eqb Ascii.eqb Bool.eqb int_value];
    [exact I | rewrite round64_int by assumption; discriminate].
Qed.

Lemma ints_fit_int_float (a : Z) (y : R) :
  (Z.abs a < 2 ^ 53)%Z ->
  ints_fit (JObj [("steering_angle", JInt a); ("speed", JFloat y)]).
Proof.
  intros Ha. split; unfold int_fits;
    cbn [dict_get String.eqb Ascii.eqb Bool.eqb int_value];
    [rewrite round64_int by assumption; discriminate | exact I].
Qed.

Lemma discrete_actions_fit : Forall ints_fit Samples.discrete_actions.
Proof.
  repeat (first [apply Forall_nil | apply Forall_cons]);
    apply ints_fit_small; reflexivity.
Qed.

Lemma two_sided_actions_fit : Forall ints_fit Samples.two_sided_actions.
Proof.
  repeat (first [apply Forall_nil | apply Forall_cons]);
    apply ints_fit_small; reflexivity.
Qed.

Lemma underflow_actions_fit : Forall ints_fit Samples.underflow_actions.
Proof.
  repeat (first [apply Forall_nil | apply Forall_cons]);
    first [apply ints_fit_small | apply ints_fit_float_int]; reflexivity.
Qed.

Lemma rounding_actions_fit : Forall ints_fit Samples.rounding_actions.
Proof.
  repeat (first [apply Forall_nil | apply Forall_cons]);
    first [apply ints_fit_small | apply ints_fit_int_float]; reflexivity.
Qed.

(** Both actions of the two-sided space are at computed distance one from
    the pair [(0, 1)]. *)
Lemma two_sided_left_distance :
  computed_distance 0 1 (JObj [("steering_angle", JInt (-1)); ("speed", JInt 1)])
  = Some 1%R.
Proof.
  unfold_distance.
  round_int (-1)%R (-1)%Z. round_int 0%R 0%Z. round_int 1%R 1%Z.
  round_int (-1 - 0)%R (-1)%Z. round_int (1 - 1)%R 0%Z.
  round_int (-1 * -1)%R 1%Z. round_int (0 * 0)%R 0%Z.
  round_int (1 + 0)%R 1%Z. rewrite sqrt_1. round_int 1%R 1%Z. reflexivity.
Qed.

Lemma two_sided_right_distance :
  computed_distance 0 1 (JObj [("steering_angle", JInt 1); ("speed", JInt 1)])
  = Some 1%R.
Proof.
  unfold_distance.
  round_int 0%R 0%Z. round_int 1%R 1%Z.
  round_int (1 - 0)%R 1%Z. round_int (1 - 1)%R 0%Z.
  round_int (1 * 1)%R 1%Z. round_int (0 * 0)%R 0%Z.
  round_int (1 + 0)%R 1%Z. rewrite sqrt_1. round_int 1%R 1%Z. reflexivity.
Qed.

(** The first action of the underflow space is at computed distance zero
    from the origin: the square of its steering angle is below every
    float. *)
Lemma underflow_first_distance :
  computed_distance 0 0
    (JObj [("steering_angle", JFloat (pow2 (-600))); ("speed", JInt 0)])
  = Some 0%R.
Proof.
  unfold_distance.
  round_int 0%R 0%Z. round_pow2 (pow2 (-600)) (-600)%Z.
  round_pow2 (pow2 (-600) - 0)%R (-600)%Z. round_int (0 - 0)%R 0%Z.
  rewrite (round64_tiny (pow2 (-600) * pow2 (-600))).
  - cbn [fadd]. round_int (0 * 0)%R 0%Z. round_int (0 + 0)%R 0%Z.
    rewrite sqrt_0. round_int 0%R 0%Z. reflexivity.
  - rewrite <- pow2_add. split; [apply Rlt_le, pow2_pos | apply pow2_lt; lia].
Qed.

(** The three actions of the rounding space are at computed distance one
    from the origin. *)
Lemma rounding_first_distance :
  computed_distance 0 0
    (JObj [("steering_angle", JInt 1); ("speed", JFloat (pow2 (-30)))])
  = Some 1%R.
Proof.
  unfold_distance.
  round_int 0%R 0%Z. round_int 1%R 1%Z. round_pow2 (pow2 (-30)) (-30)%Z.
  round_int (1 - 0)%R 1%Z. round_pow2 (pow2 (-30) - 0)%R (-30)%Z.
  round_int (1 * 1)%R 1%Z.
  round_pow2 (pow2 (-30) * pow2 (-30))%R (-60)%Z.
  rewrite (round64_one_plus (1 + pow2 (-60)) (pow2 (-60))).
  - cbn [fsqrt]. rewrite sqrt_1. round_int 1%R 1%Z. reflexivity.
  - reflexivity.
  - split; [apply Rlt_le, pow2_pos | apply pow2_lt; lia].
Qed.

Lemma rounding_second_distance :
  computed_distance 0 0 (JObj [("steering_angle", JInt 1); ("speed", JInt 0)])
  = Some 1%R.
Proof.
  unfold_distance.
  round_int 0%R 0%Z. round_int 1%R 1%Z.
  round_int (1 - 0)%R 1%Z. round_int (0 - 0)%R 0%Z.
  round_int (1 * 1)%R 1%Z. round_int (0 * 0)%R 0%Z.
  round_int (1 + 0)%R 1%Z. rewrite sqrt_1. round_int 1%R 1%Z. reflexivity.
Qed.

Lemma rounding_third_distance :
  computed_distance 0 0 (JObj [("steering_angle", JInt (-1)); ("speed", JInt 0)])
  = Some 1%R.
Proof.
  unfold_distance.
  round_int 0%R 0%Z. round_int (-1)%R (-1)%Z.
  round_int (-1 - 0)%R (-1)%Z. round_int (0 - 0)%R 0%Z.
  round_int (-1 * -1)%R 1%Z. round_int (0 * 0)%R 0%Z.
  round_int (1 + 0)%R 1%Z. rewrite sqrt_1. round_int 1%R 1%Z. reflexivity.
Qed.

End SampleDistances.

(** C6, as amended: for a metadata object that passes validation with a
    discrete action space of at least one action, whose integer values
    convert to floats, and for all reals [s] and [v], [normalize_action]
    returns an entry of the declared list, the one at the position it
    reports. When some declared action has exactly the pair [(s, v)], with
    [s] and [v] in the range of the floats, the entry returned is the first
    declared action whose distance from [(s, v)], computed in binary64
    arithmetic, is zero; it stands no later than the exact action, and it is
    the exact action itself when no action declared before that one has
    computed distance zero. *)
Theorem C6_discrete_normalize_returns_member
    (md : json) (actions : list json) (s v : R) :
  _validate_metadata md = Ok tt ->
  get_action_space_type md = Ok DISCRETE ->
  ActionSpace.declared_actions md actions ->
  actions <> [] ->
  Forall ActionSpace.ints_fit actions ->
  exists j e,
    normalize_action md s v = Ok (Member j e)
    /\ nth_error actions j = Some e
    /\ In e actions
    /\ (forall k e', nth_error actions k = Some e' ->
          ActionSpace.steering_of e' = s -> ActionSpace.speed_of e' = v ->
          Float64.round64 s <> None -> Float64.round64 v <> None ->
          ActionSpace.computed_distance s v e = Some 0%R
          /\ (j <= k)%nat
          /\ (forall i e'', (i < j)%nat -> nth_error actions i = Some e'' ->
                ActionSpace.computed_distance s v e'' <> Some 0%R)
          /\ ((forall i e'', (i < k)%nat -> nth_error actions i = Some e'' ->
                 ActionSpace.computed_distance s v e'' <> Some 0%R) ->
              j = k /\ e = e')).
Proof.
  intros Hv Ht Ha Hne Hfit.
  destruct (normalize_discrete_spec s v md actions Hv Ht Ha Hfit Hne)
    as (j & e & Hn & Hmin).
  pose proof Hmin as (Hnth & _).
  exists j, e. split; [exact Hn|]. split; [exact Hnth|].
  split; [eapply nth_error_In; exact Hnth|].
  intros k e' Hk Hs Hsp Rs Rv.
  pose proof (computed_distance_match s v e' Hs Hsp Rs Rv) as Hz.
  destruct (first_minimum_zero s v actions j k e e' Hmin Hk Hz)
    as (He & Hjk & Hbefore).
  split; [exact He|]. split; [exact Hjk|]. split; [exact Hbefore|].
  intros Hnone.
  destruct (Nat.eq_dec j k) as [->|Hneq].
  - split; [reflexivity|]. rewrite Hnth in Hk. injection Hk as <-. reflexivity.
  - exfalso. apply (Hnone j e); [lia | exact Hnth | exact He].
Qed.

Lemma C6_discrete_normalize_returns_member_witness :
  exists j e,
    normalize_action Samples.discrete_metadata 0 2 = Ok (Member j e)
    /\ nth_error Samples.discrete_actions j = Some e
    /\ In e Samples.discrete_actions
    /\ (forall k e', nth_error Samples.discrete_actions k = Some e' ->
          ActionSpace.steering_of e' = 0%R -> ActionSpace.speed_of e' = 2%R ->
          Float64.round64 0 <> None -> Float64.round64 2 <> None ->
          ActionSpace.computed_distance 0 2 e = Some 0%R
          /\ (j <= k)%nat
          /\ (forall i e'', (i < j)%nat ->
                nth_error Samples.discrete_actions i = Some e'' ->
                ActionSpace.computed_distance 0 2 e'' <> Some 0%R)
          /\ ((forall i e'', (i < k)%nat ->
                 nth_error Samples.discrete_actions i = Some e'' ->
                 ActionSpace.computed_distance 0 2 e'' <> Some 0%R) ->
              j = k /\ e = e')).
Proof.
  apply (C6_discrete_normalize_returns_member
           Samples.discrete_metadata Samples.discrete_actions 0 2);
    [reflexivity | reflexivity | reflexivity | discriminate
    | exact discrete_actions_fit].
Defined.

(** C6 as stated fails twice. On an empty action list, which validation
    accepts, there is no entry to return, and [normalize_action] raises
    [IndexError]. And on the space whose first action is [(2^-600, 0)] and
    whose second is [(0, 0)], the pair [(0, 0)] equals the second action
    exactly, yet the first is returned: the square of [2^-600] is below every
    float, so that the first action is at computed distance zero already. *)
Lemma C6_exact_member_counterexample :
  (_validate_metadata Samples.empty_space_metadata = Ok tt
   /\ get_action_space_type Samples.empty_space_metadata = Ok DISCRETE
   /\ ActionSpace.declared_actions Samples.empty_space_metadata []
   /\ normalize_action Samples.empty_space_metadata 0 1
      = Raise (IndexError "list index out of range"))
  /\ (_validate_metadata Samples.underflow_metadata = Ok tt
      /\ get_action_space_type Samples.underflow_metadata = Ok DISCRETE
      /\ ActionSpace.declared_actions Samples.underflow_metadata
           Samples.underflow_actions
      /\ nth_error Samples.underflow_actions 1
         = Some (JObj [("steering_angle", JInt 0); ("speed", JInt 0)])
      /\ ActionSpace.steering_of
           (JObj [("steering_angle", JInt 0); ("speed", JInt 0)]) = 0%R
      /\ ActionSpace.speed_of
           (JObj [("steering_angle", JInt 0); ("speed", JInt 0)]) = 0%R
      /\ normalize_action Samples.underflow_metadata 0 0
         = Ok (Member 0
                 (JObj [("steering_angle", JFloat (Float64.pow2 (-600)));
                        ("speed", JInt 0)]))
      /\ ActionSpace.steering_of
           (JObj [("steering_angle", JFloat (Float64.pow2 (-600)));
                  ("speed", JInt 0)]) <> 0%R)
  /\ ~ (forall md s v,
          _validate_metadata md = Ok tt ->
          get_action_space_type md = Ok DISCRETE ->
          exists n, normalize_action md s v = Ok n).
Proof.
  assert (Hn : normalize_action Samples.empty_space_metadata 0 1
               = Raise (IndexError "list index out of range")) by reflexivity.
  split; [repeat split; reflexivity|]. split.
  - split; [reflexivity|]. split; [reflexivity|]. split; [reflexivity|].
    split; [reflexivity|]. split; [reflexivity|]. split; [reflexivity|]. split.
    + destruct (normalize_discrete_spec 0 0 Samples.underflow_metadata
                  Samples.underflow_actions eq_refl eq_refl eq_refl
                  underflow_actions_fit ltac:(discriminate))
        as (j & e & Hr & Hmin).
      destruct (first_minimum_zero 0 0 Samples.underflow_actions j 0 e _ Hmin
                  eq_refl underflow_first_distance) as (_ & Hj & _).
      destruct Hmin as (Hnth & _).
      assert (j = 0%nat) by lia. subst j.
      cbn [Samples.underflow_actions nth_error] in Hnth.
      injection Hnth as <-. exact Hr.
    + unfold ActionSpace.steering_of, ActionSpace.axis_value.
      cbn [dict_get String.eqb Ascii.eqb Bool.eqb num_value].
      apply Rgt_not_eq, pow2_pos.
  - intros H.
    destruct (H Samples.empty_space_metadata 0%R 1%R eq_refl eq_refl) as (n & Hn').
    rewrite Hn in Hn'. discriminate Hn'.
Qed.

(** C7, as amended: among the declared actions at the least distance from
    the pair [(s, v)], the distance being the one the loop computes in
    binary64 arithmetic, [normalize_action] returns the one declared first:
    if entry [e] at position [j] is at the least computed distance and no
    earlier entry is at the same computed distance, the result is that entry
    at that position. The integer values of the actions are to convert to
    floats. *)
Theorem C7_ties_resolved_by_declaration_order
    (md : json) (actions : list json) (s v : R) (j : nat) (e : json) :
  _validate_metadata md = Ok tt ->
  get_action_space_type md = Ok DISCRETE ->
  ActionSpace.declared_actions md actions ->
  Forall ActionSpace.ints_fit actions ->
  nth_error actions j = Some e ->
  (forall e', In e' actions ->
     ActionSpace.fle (ActionSpace.computed_distance s v e)
                     (ActionSpace.computed_distance s v e')) ->
  (forall k e', (k < j)%nat -> nth_error actions k = Some e' ->
     ActionSpace.computed_distance s v e' <> ActionSpace.computed_distance s v e) ->
  normalize_action md s v = Ok (Member j e).
Proof.
  intros Hv Ht Ha Hfit Hnth Hleast Hearliest.
  assert (Hne : actions <> []).
  { intros ->. destruct j; discriminate Hnth. }
  destruct (normalize_discrete_spec s v md actions Hv Ht Ha Hfit Hne)
    as (j' & e' & Hn & Hmin).
  destruct (first_minimum_unique s v actions j j' e e' Hmin Hnth Hleast Hearliest)
    as (-> & ->).
  exact Hn.
Qed.

(** Two actions on either side of the input at the same speed: both are at
    computed distance one, and the first declared is returned. *)
Lemma C7_ties_resolved_by_declaration_order_witness :
  normalize_action Samples.two_sided_metadata 0 1
    = Ok (Member 0 (JObj [("steering_angle", JInt (-1)); ("speed", JInt 1)]))
  /\ ActionSpace.computed_distance 0 1
       (JObj [("steering_angle", JInt (-1)); ("speed", JInt 1)])
     = ActionSpace.computed_distance 0 1
         (JObj [("steering_angle", JInt 1); ("speed", JInt 1)]).
Proof.
  split; [|rewrite two_sided_left_distance, two_sided_right_distance; reflexivity].
  apply (C7_ties_resolved_by_declaration_order
           Samples.two_sided_metadata Samples.two_sided_actions 0 1 0).
  - reflexivity.
  - reflexivity.
  - reflexivity.
  - exact two_sided_actions_fit.
  - reflexivity.
  - intros e' [<-|[<-|[]]];
      rewrite ?two_sided_left_distance, ?two_sided_right_distance;
      apply Rle_refl.
  - intros k e' Hk. lia.
Defined.

(** C7 as stated fails where the rounding of the loop hides a difference of
    distances. Of the three actions [(1, 2^-30)], [(1, 0)] and [(-1, 0)] the
    second and the third are at Euclidean distance one from the origin, the
    least of the list, and the first is strictly farther; the first is
    returned, since [1 + 2^-60] rounds to one. *)
Lemma C7_rounded_distance_counterexample :
  _validate_metadata Samples.rounding_metadata = Ok tt
  /\ get_action_space_type Samples.rounding_metadata = Ok DISCRETE
  /\ ActionSpace.declared_actions Samples.rounding_metadata Samples.rounding_actions
  /\ ActionSpace.distance 0 0 (JObj [("steering_angle", JInt 1); ("speed", JInt 0)])
     = ActionSpace.distance 0 0 (JObj [("steering_angle", JInt (-1)); ("speed", JInt 0)])
  /\ (forall e', In e' Samples.rounding_actions ->
        (ActionSpace.distance 0 0 (JObj [("steering_angle", JInt 1); ("speed", JInt 0)])
         <= ActionSpace.distance 0 0 e')%R)
  /\ (ActionSpace.distance 0 0 (JObj [("steering_angle", JInt 1); ("speed", JInt 0)])
      < ActionSpace.distance 0 0
          (JObj [("steering_angle", JInt 1); ("speed", JFloat (Float64.pow2 (-30)))]))%R
  /\ normalize_action Samples.rounding_metadata 0 0
     = Ok (Member 0
             (JObj [("steering_angle", JInt 1);
                    ("speed", JFloat (Float64.pow2 (-30)))])).
Proof.
  assert (D1 : ActionSpace.distance 0 0
                 (JObj [("steering_angle", JInt 1); ("speed", JInt 0)]) = 1%R).
  { unfold ActionSpace.distance, ActionSpace.steering_of, ActionSpace.speed_of,
      ActionSpace.axis_value.
    cbn [dict_get String.eqb Ascii.eqb Bool.eqb num_value].
    replace ((1 - 0) * (1 - 0) + (0 - 0) * (0 - 0))%R with 1%R by lra.
    apply sqrt_1. }
  assert (D2 : ActionSpace.distance 0 0
                 (JObj [("steering_angle", JInt (-1)); ("speed", JInt 0)]) = 1%R).
  { unfold ActionSpace.distance, ActionSpace.steering_of, ActionSpace.speed_of,
      ActionSpace.axis_value.
    cbn [dict_get String.eqb Ascii.eqb Bool.eqb num_value].
    replace ((-1 - 0) * (-1 - 0) + (0 - 0) * (0 - 0))%R with 1%R by lra.
    apply sqrt_1. }
  assert (D0 : (1 < ActionSpace.distance 0 0
                      (JObj [("steering_angle", JInt 1);
                             ("speed", JFloat (Float64.pow2 (-30)))]))%R).
  { unfold ActionSpace.distance, ActionSpace.steering_of, ActionSpace.speed_of,
      ActionSpace.axis_value.
    cbn [dict_get String.eqb Ascii.eqb Bool.eqb num_value].
    rewrite <- sqrt_1 at 1. apply sqrt_lt_1_alt.
    pose proof (pow2_pos (-30)) as P.
    assert (0 < Float64.pow2 (-30) * Float64.pow2 (-30))%R
      by (apply Rmult_lt_0_compat; exact P).
    lra. }
  split; [reflexivity|]. split; [reflexivity|]. split; [reflexivity|].
  split; [rewrite D1, D2; reflexivity|]. split.
  - intros e' [<-|[<-|[<-|[]]]]; rewrite D1; [lra | lra | rewrite D2; lra].
  - split; [rewrite D1; exact D0|].
    destruct (normalize_discrete_spec 0 0 Samples.rounding_metadata
                Samples.rounding_actions eq_refl eq_refl eq_refl
                rounding_actions_fit ltac:(discriminate))
      as (j & e & Hr & Hmin).
    destruct (first_minimum_unique 0 0 Samples.rounding_actions 0 j _ e Hmin eq_refl)
      as (-> & ->); [| |exact Hr].
    + intros e' [<-|[<-|[<-|[]]]];
        rewrite rounding_first_distance,
          ?rounding_second_distance, ?rounding_third_distance;
        apply Rle_refl.
    + intros k e' Hk. lia.
Qed.
(* ================================================================== *)
(** * Further properties *)
(* ================================================================== *)

(** ** The response extractor: which text is decoded *)

Section ExtractorSelection.
Import ExtractorNotions.

Lemma starts_with_strip_prefix (p s : string) :
  starts_with p s = false -> strip_prefix p s = None.
Proof.
  revert s. induction p as [|a p IH]; intros s; cbn [starts_with strip_prefix].
  - discriminate.
  - destruct s as [|b s]; [reflexivity|].
    destruct (Ascii.eqb a b); cbn [andb]; [apply IH | reflexivity].
Qed.

Lemma contains_cons (p : string) (c : ascii) (s : string) :
  contains p (String c s) = false ->
  starts_with p (String c s) = false /\ contains p s = false.
Proof.
  cbn [contains]. destruct (starts_with p (String c s)); [discriminate | auto].
Qed.

Lemma contains_here (p s : string) :
  contains p s = false -> starts_with p s = false.
Proof.
  destruct s; cbn [contains]; destruct (starts_with p _); auto; discriminate.
Qed.

Lemma match_here_none (s : string) :
  starts_with fence s = false -> starts_with "{" s = false ->
  match_here json_pattern s = None.
Proof.
  intros Hf Hb. unfold match_here, json_pattern. cbn [mtch].
  rewrite (starts_with_strip_prefix _ _ Hf), (starts_with_strip_prefix _ _ Hb).
  reflexivity.
Qed.

Lemma search_none (s : string) :
  contains fence s = false -> contains "{" s = false ->
  search json_pattern s = None.
Proof.
  induction s as [|c s IH]; intros Hf Hb.
  - reflexivity.
  - destruct (contains_cons _ _ _ Hf) as [F1 F2].
    destruct (contains_cons _ _ _ Hb) as [B1 B2].
    cbn [search]. rewrite (match_here_none _ F1 B1). apply IH; assumption.
Qed.

Lemma lazy_any_until (lit : string) (c0 : ascii) (body post : string) (caps : captures)
      (K : string -> captures -> option captures) (x : captures) :
  lit = String c0 EmptyString ->
  contains lit body = false ->
  K post caps = Some x ->
  mtch (RStarLazy CAny) (body ++ lit ++ post) caps
       (fun s' caps' => mtch (RLit lit) s' caps' K) = Some x.
Proof.
  intros -> Hb HK. induction body as [|c b IH].
  - cbn [mtch append strip_prefix]. rewrite Ascii.eqb_refl. cbn [strip_prefix]. rewrite HK. reflexivity.
  - destruct (contains_cons _ _ _ Hb) as [B1 B2].
    cbn [starts_with] in B1. rewrite andb_true_r in B1.
    cbn [mtch append strip_prefix class_mem]. rewrite B1.
    apply IH. exact B2.
Qed.

Lemma length_append (a b : string) :
  String.length (a ++ b) = (String.length a + String.length b)%nat.
Proof. induction a; cbn; congruence. Qed.

Lemma substring_prefix (a b : string) :
  String.substring 0 (String.length a) (a ++ b) = a.
Proof.
  induction a as [|c a IH]; cbn.
  - destruct b; reflexivity.
  - rewrite IH. reflexivity.
Qed.

Lemma consumed_app (a b : string) : consumed (a ++ b) b = a.
Proof.
  unfold consumed. rewrite length_append.
  replace (String.length a + String.length b - String.length b)%nat
    with (String.length a) by lia.
  apply substring_prefix.
Qed.

Lemma append_assoc (a b c : string) : ((a ++ b) ++ c = a ++ (b ++ c))%string.
Proof. induction a; cbn; congruence. Qed.

(** A fence cannot start in a text without one and run over a brace. *)
Lemma starts_with_fence_before_brace (pre rest : string) :
  starts_with fence pre = false ->
  starts_with fence (pre ++ String "{" rest) = false.
Proof.
  unfold fence.
  destruct pre as [|a [|b [|c pre]]]; cbn [append starts_with]; intros H;
    repeat match goal with
    | |- context [Ascii.eqb "`" ?x] =>
        lazymatch x with
        | "{"%char => change (Ascii.eqb "`" x) with false
        | _ => destruct (Ascii.eqb "`" x) eqn:?
        end
    end; cbn [andb] in *; try reflexivity; try discriminate; auto.
Qed.

Lemma mtch_seq r1 r2 s caps k :
  mtch (RSeq r1 r2) s caps k = mtch r1 s caps (fun s' caps' => mtch r2 s' caps' k).
Proof. reflexivity. Qed.

Lemma mtch_alt r1 r2 s caps k :
  mtch (RAlt r1 r2) s caps k
    = match mtch r1 s caps k with Some c => Some c | None => mtch r2 s caps k end.
Proof. reflexivity. Qed.

Lemma mtch_lit l s caps k :
  mtch (RLit l) s caps k
    = match strip_prefix l s with Some s' => k s' caps | None => None end.
Proof. reflexivity. Qed.

Lemma mtch_group n r s caps k :
  mtch (RGroup n r) s caps k
    = mtch r s caps (fun s' caps' => k s' ((n, consumed s s') :: caps')).
Proof. reflexivity. Qed.

Lemma mtch_opt r s caps k :
  mtch (ROpt r) s caps k
    = match mtch r s caps k with Some c => Some c | None => k s caps end.
Proof. reflexivity. Qed.

Lemma brace_match_here (body post : string) :
  contains "}" body = false ->
  match_here json_pattern ("{" ++ body ++ "}" ++ post)%string
    = Some [(2%nat, ("{" ++ body ++ "}")%string)].
Proof.
  intros Hb. unfold match_here, json_pattern.
  rewrite mtch_alt, mtch_seq, mtch_lit.
  change (strip_prefix fence ("{" ++ body ++ "}" ++ post)%string) with (@None string).
  rewrite mtch_group, mtch_seq, mtch_lit.
  change (strip_prefix "{" ("{" ++ body ++ "}" ++ post)%string)
    with (Some (body ++ "}" ++ post)%string).
  cbv beta iota. rewrite mtch_seq.
  erewrite (lazy_any_until "}" "}" body post); [reflexivity | reflexivity | exact Hb |].
  do 3 f_equal.
  replace ("{" ++ body ++ "}" ++ post)%string
    with (("{" ++ body ++ "}") ++ post)%string.
  - apply consumed_app.
  - cbn [append]. f_equal. rewrite append_assoc. reflexivity.
Qed.

Lemma brace_search (pre body post : string) :
  contains fence pre = false ->
  contains "{" pre = false ->
  contains "}" body = false ->
  search json_pattern (pre ++ "{" ++ body ++ "}" ++ post)%string
    = Some [(2%nat, ("{" ++ body ++ "}")%string)].
Proof.
  intros Hf Hp Hb. induction pre as [|c pre IH].
  - cbn [append]. 
    pose proof (brace_match_here body post Hb) as H. cbn [append] in H.
    destruct body; cbn [search]; cbn [append] in *; rewrite H; reflexivity.
  - destruct (contains_cons _ _ _ Hf) as [F1 F2].
    destruct (contains_cons _ _ _ Hp) as [P1 P2].
    change ((String c pre ++ "{" ++ body ++ "}" ++ post)%string)
      with (String c (pre ++ "{" ++ body ++ "}" ++ post)%string).
    cbn [search]. rewrite match_here_none.
    + apply IH; assumption.
    + apply (starts_with_fence_before_brace (String c pre)). exact F1.
    + cbn [starts_with] in *. destruct (Ascii.eqb "{" c); [discriminate | reflexivity].
Qed.

Lemma lstrip_decomp (t : string) :
  exists ws, all_space ws = true /\ t = (ws ++ lstrip t)%string.
Proof.
  induction t as [|c t (ws & Hws & Ht)].
  - exists ""%string. auto.
  - cbn [lstrip]. destruct (is_space c) eqn:E.
    + exists (String c ws). cbn [all_space append]. rewrite E, Hws. split; [reflexivity|].
      f_equal. exact Ht.
    + exists ""%string. auto.
Qed.

Lemma lstrip_head (t : string) (c : ascii) (r : string) :
  lstrip t = String c r -> is_space c = false.
Proof.
  induction t as [|a t IH]; cbn [lstrip]; [discriminate|].
  destruct (is_space a) eqn:E; [exact IH|].
  intros H. injection H as <- _. exact E.
Qed.

Lemma rstrip_decomp (t : string) :
  exists ws, all_space ws = true /\ t = (rstrip t ++ ws)%string.
Proof.
  induction t as [|c t (ws & Hws & Ht)].
  - exists ""%string. auto.
  - cbn [rstrip]. destruct (rstrip t) as [|a r] eqn:E.
    + destruct (is_space c) eqn:Ec.
      * exists (String c ws). cbn [all_space append]. rewrite Ec, Hws.
        split; [reflexivity|]. f_equal. exact Ht.
      * exists ws. split; [exact Hws|]. cbn [append]. f_equal. exact Ht.
    + exists ws. split; [exact Hws|]. cbn [append]. f_equal. exact Ht.
Qed.

Lemma rstrip_idem (t : string) : rstrip (rstrip t) = rstrip t.
Proof.
  induction t as [|c t IH]; [reflexivity|].
  cbn [rstrip]. destruct (rstrip t) as [|a r] eqn:E.
  - destruct (is_space c) eqn:Ec; [reflexivity|]. cbn [rstrip]. rewrite Ec. reflexivity.
  - cbn [rstrip] in *. rewrite IH. reflexivity.
Qed.

Lemma rstrip_head (t : string) (c : ascii) (r : string) :
  t = String c r -> is_space c = false -> exists r', rstrip t = String c r'.
Proof.
  intros -> E. cbn [rstrip]. destruct (rstrip r); [rewrite E|]; eauto.
Qed.

Lemma contains_char_app (c : ascii) (a b : string) :
  contains (String c EmptyString) (a ++ b) = false ->
  contains (String c EmptyString) a = false /\ contains (String c EmptyString) b = false.
Proof.
  induction a as [|x a IH]; cbn [append].
  - intros H. split; [reflexivity | exact H].
  - cbn [contains starts_with]. rewrite !andb_true_r.
    destruct (Ascii.eqb c x); [discriminate|]. exact IH.
Qed.

Lemma contains_char_app_intro (c : ascii) (a b : string) :
  contains (String c EmptyString) a = false ->
  contains (String c EmptyString) b = false ->
  contains (String c EmptyString) (a ++ b) = false.
Proof.
  induction a as [|x a IH]; cbn [append]; [auto|].
  cbn [contains starts_with]. rewrite !andb_true_r.
  destruct (Ascii.eqb c x); [discriminate|]. exact IH.
Qed.

Lemma mtch_star_nil c caps k : mtch (RStar c) "" caps k = k ""%string caps.
Proof. reflexivity. Qed.

Lemma mtch_star_cons c a s caps k :
  mtch (RStar c) (String a s) caps k
    = if class_mem c a
      then match mtch (RStar c) s caps k with
           | Some x => Some x
           | None => k (String a s) caps
           end
      else k (String a s) caps.
Proof. reflexivity. Qed.

Lemma mtch_lazy_nil c caps k :
  mtch (RStarLazy c) "" caps k = k ""%string caps.
Proof. cbn [mtch]. destruct (k ""%string caps); reflexivity. Qed.

Lemma mtch_lazy_cons c a s caps k :
  mtch (RStarLazy c) (String a s) caps k
    = match k (String a s) caps with
      | Some x => Some x
      | None => if class_mem c a then mtch (RStarLazy c) s caps k else None
      end.
Proof. reflexivity. Qed.

Lemma greedy_space_skip (ws rest : string) (caps : captures)
      (k : string -> captures -> option captures) (x : captures) :
  all_space ws = true ->
  (forall a r, rest = String a r -> is_space a = false) ->
  k rest caps = Some x ->
  mtch (RStar CSpace) (ws ++ rest) caps k = Some x.
Proof.
  intros Hws Hrest Hk. induction ws as [|c ws IH]; cbn [append].
  - destruct rest as [|a r]; [rewrite mtch_star_nil; exact Hk|].
    rewrite mtch_star_cons. cbn [class_mem]. rewrite (Hrest a r eq_refl). exact Hk.
  - cbn [all_space] in Hws. apply andb_true_iff in Hws as [Hc Hw].
    rewrite mtch_star_cons. cbn [class_mem]. rewrite Hc, (IH Hw). reflexivity.
Qed.

Lemma fence_not_at (a : ascii) (s : string) :
  Ascii.eqb "`" a = false -> strip_prefix fence (String a s) = None.
Proof. intros H. unfold fence. cbn [strip_prefix]. rewrite H. reflexivity. Qed.

Lemma closing_fails (body rest : string) (caps : captures)
      (K : string -> captures -> option captures) :
  body <> ""%string -> rstrip body = body -> contains "`" body = false ->
  mtch (RStar CSpace) (body ++ rest) caps
       (fun s' caps' => mtch (RLit fence) s' caps' K) = None.
Proof.
  induction body as [|c b IH]; intros Hne Hr Hb; [congruence|].
  destruct (contains_cons _ _ _ Hb) as [B1 B2].
  cbn [starts_with] in B1. rewrite andb_true_r in B1.
  cbn [append]. rewrite mtch_star_cons, mtch_lit, (fence_not_at c _ B1).
  cbn [class_mem]. destruct (is_space c) eqn:Ec; [|reflexivity].
  cbn [rstrip] in Hr. destruct (rstrip b) as [|a r] eqn:Eb.
  - rewrite Ec in Hr. discriminate Hr.
  - injection Hr as Hr. rewrite IH; [reflexivity | | exact Hr | exact B2].
    intros ->. discriminate Hr.
Qed.

Lemma lazy_until_closing (body ws post : string) (caps : captures)
      (g : string -> captures -> captures)
      (K : string -> captures -> option captures) (x : captures) :
  rstrip body = body -> contains "`" body = false -> all_space ws = true ->
  K post (g (ws ++ fence ++ post)%string caps) = Some x ->
  mtch (RStarLazy CAny) (body ++ ws ++ fence ++ post) caps
       (fun s' caps' =>
          mtch (RSeq (RStar CSpace) (RLit fence)) s' (g s' caps') K) = Some x.
Proof.
  intros Hr Hb Hws HK. induction body as [|c b IH].
  - cbn [append].
    assert (Hclose : mtch (RSeq (RStar CSpace) (RLit fence)) (ws ++ fence ++ post)
                          (g (ws ++ fence ++ post)%string caps) K = Some x).
    { rewrite mtch_seq. apply greedy_space_skip; [exact Hws | |].
      - unfold fence. cbn [append]. intros a r H. injection H as <- _. reflexivity.
      - rewrite mtch_lit. unfold fence. cbn [append strip_prefix Ascii.eqb Bool.eqb].
        exact HK. }
    destruct (ws ++ fence ++ post)%string as [|a r] eqn:E.
    + rewrite mtch_lazy_nil. exact Hclose.
    + rewrite mtch_lazy_cons, Hclose. reflexivity.
  - cbn [append]. rewrite mtch_lazy_cons.
    change (String c (b ++ ws ++ fence ++ post))%string
      with ((String c b) ++ (ws ++ fence ++ post))%string.
    rewrite mtch_seq, closing_fails; [| discriminate | exact Hr | exact Hb].
    cbn [class_mem].
    destruct (contains_cons _ _ _ Hb) as [_ B2].
    apply IH; [|exact B2].
    cbn [rstrip] in Hr. destruct (rstrip b) as [|a r] eqn:Eb.
    + destruct (is_space c); [discriminate Hr|]. injection Hr as <-. reflexivity.
    + injection Hr as Hr. exact Hr.
Qed.

Lemma strip_prefix_app (p s : string) : strip_prefix p (p ++ s) = Some s.
Proof.
  induction p as [|a p IH]; cbn [append strip_prefix]; [destruct s; reflexivity|].
  rewrite Ascii.eqb_refl. exact IH.
Qed.

Lemma no_tag_in_untagged (text post : string) :
  starts_with "json" text = false -> contains "`" text = false ->
  strip_prefix "json" (text ++ fence ++ post) = None.
Proof.
  intros Hj Hb. apply starts_with_strip_prefix. revert Hj Hb. unfold fence.
  destruct text as [|a [|b [|c [|d t]]]]; cbn [append starts_with contains];
    intros Hj Hb;
    repeat match goal with
    | |- context [Ascii.eqb ?x ?y] =>
        first [ is_var y; destruct (Ascii.eqb x y)
              | let v := eval vm_compute in (Ascii.eqb x y) in
                change (Ascii.eqb x y) with v ]
    end; cbn [andb] in *; try reflexivity; try discriminate; auto.
Qed.

(** The parts of a text around its stripped content. *)
Lemma strip_decomp (text : string) :
  strip text <> ""%string ->
  exists ws1 ws2 c r,
    all_space ws1 = true /\ all_space ws2 = true
    /\ text = (ws1 ++ strip text ++ ws2)%string
    /\ strip text = String c r /\ is_space c = false
    /\ rstrip (strip text) = strip text.
Proof.
  intros Hne. unfold strip in *.
  destruct (lstrip_decomp text) as (ws1 & H1 & E1).
  destruct (rstrip_decomp (lstrip text)) as (ws2 & H2 & E2).
  destruct (lstrip text) as [|c r] eqn:El; [exfalso; apply Hne; reflexivity|].
  pose proof (lstrip_head text c r El) as Hc.
  destruct (rstrip_head (String c r) c r eq_refl Hc) as (r' & Er).
  exists ws1, ws2, c, r'. repeat split; auto.
  - rewrite E1 at 1. f_equal. exact E2.
  - apply rstrip_idem.
Qed.

Lemma fenced_match_here (tag text post : string) :
  tag = "json"%string \/ (tag = ""%string /\ starts_with "json" text = false) ->
  contains "`" text = false ->
  strip text <> ""%string ->
  match_here json_pattern (fence ++ tag ++ text ++ fence ++ post)%string
    = Some [(1%nat, strip text)].
Proof.
  intros Htag Hb Hne.
  destruct (strip_decomp text Hne) as (ws1 & ws2 & c & r & H1 & H2 & Et & Es & Hc & Hr).
  assert (Hbody : contains "`" (strip text) = false).
  { rewrite Et in Hb. apply contains_char_app in Hb as [_ Hb].
    apply contains_char_app in Hb as [Hb _]. exact Hb. }
  set (body := strip text) in *.
  set (rest := (body ++ ws2 ++ fence ++ post)%string).
  assert (Hcont :
    mtch (RSeq (RStar CSpace)
            (RSeq (RGroup 1 (RStarLazy CAny)) (RSeq (RStar CSpace) (RLit fence))))
         (text ++ fence ++ post) [] (fun _ caps => Some caps)
    = Some [(1%nat, body)]).
  { rewrite mtch_seq.
    replace (text ++ fence ++ post)%string with (ws1 ++ rest)%string
      by (unfold rest; rewrite Et at 1; rewrite !append_assoc; reflexivity).
    apply greedy_space_skip; [exact H1 | |].
    - unfold rest. rewrite Es. cbn [append]. intros a r0 H. injection H as <- _. exact Hc.
    - rewrite mtch_seq, mtch_group.
      unfold rest.
      apply (lazy_until_closing body ws2 post []
               (fun s' caps' => (1%nat, consumed (body ++ ws2 ++ fence ++ post) s') :: caps'));
        [exact Hr | exact Hbody | exact H2 |].
      rewrite consumed_app. reflexivity. }
  unfold match_here, json_pattern.
  rewrite mtch_alt, mtch_seq, mtch_lit, strip_prefix_app.
  rewrite mtch_seq, mtch_opt, mtch_lit.
  destruct Htag as [->|[-> Hj]].
  - rewrite strip_prefix_app, Hcont. reflexivity.
  - cbn [append]. rewrite (no_tag_in_untagged text post Hj Hb), Hcont. reflexivity.
Qed.

Lemma fenced_search (pre tag text post : string) :
  contains "`" pre = false ->
  contains "{" pre = false ->
  tag = "json"%string \/ (tag = ""%string /\ starts_with "json" text = false) ->
  contains "`" text = false ->
  strip text <> ""%string ->
  search json_pattern (pre ++ fence ++ tag ++ text ++ fence ++ post)%string
    = Some [(1%nat, strip text)].
Proof.
  intros Hp Hq Htag Hb Hne. induction pre as [|c pre IH].
  - cbn [append].
    pose proof (fenced_match_here tag text post Htag Hb Hne) as H.
    unfold fence in *. cbn [append] in *. cbn [search]. rewrite H. reflexivity.
  - destruct (contains_cons _ _ _ Hp) as [P1 P2].
    destruct (contains_cons _ _ _ Hq) as [Q1 Q2].
    cbn [append search]. rewrite match_here_none.
    + apply IH; assumption.
    + cbn [starts_with] in P1. rewrite andb_true_r in P1.
      unfold fence. cbn [starts_with]. rewrite P1. reflexivity.
    + cbn [starts_with] in *. destruct (Ascii.eqb "{" c); [discriminate | reflexivity].
Qed.

Lemma no_tag_in_space (ws post : string) :
  all_space ws = true -> strip_prefix "json" (ws ++ fence ++ post) = None.
Proof.
  intros Hws. destruct ws as [|c r]; [reflexivity|].
  cbn [all_space] in Hws. apply andb_prop in Hws as [Hc _].
  cbn [append strip_prefix].
  destruct (Ascii.eqb_spec "j" c) as [<-|_]; [discriminate Hc | reflexivity].
Qed.

(** A fence that closes after whitespace only: group 1 is the empty text. *)
Lemma empty_fence_match_here (tag ws post : string) :
  tag = "json"%string \/ tag = ""%string ->
  all_space ws = true ->
  match_here json_pattern (fence ++ tag ++ ws ++ fence ++ post)%string
    = Some [(1%nat, ""%string)].
Proof.
  intros Htag Hws.
  assert (Hcont :
    mtch (RSeq (RStar CSpace)
            (RSeq (RGroup 1 (RStarLazy CAny)) (RSeq (RStar CSpace) (RLit fence))))
         (ws ++ fence ++ post) [] (fun _ caps => Some caps)
    = Some [(1%nat, ""%string)]).
  { rewrite mtch_seq. apply greedy_space_skip; [exact Hws | |].
    - unfold fence. cbn [append]. intros a r H. injection H as <- _. reflexivity.
    - rewrite mtch_seq, mtch_group.
      apply (lazy_until_closing "" "" post []
               (fun s' caps' => (1%nat, consumed (fence ++ post) s') :: caps'));
        [reflexivity | reflexivity | reflexivity |].
      pose proof (consumed_app "" (fence ++ post)) as C.
      change ("" ++ fence ++ post)%string with (fence ++ post)%string in C.
      cbv beta. change ("" ++ fence ++ post)%string with (fence ++ post)%string.
      rewrite C. reflexivity. }
  unfold match_here, json_pattern.
  rewrite mtch_alt, mtch_seq, mtch_lit, strip_prefix_app.
  rewrite mtch_seq, mtch_opt, mtch_lit.
  destruct Htag as [->| ->].
  - rewrite strip_prefix_app, Hcont. reflexivity.
  - cbn [append]. rewrite (no_tag_in_space ws post Hws), Hcont. reflexivity.
Qed.

Lemma empty_fence_search (pre tag ws post : string) :
  contains "`" pre = false ->
  contains "{" pre = false ->
  tag = "json"%string \/ tag = ""%string ->
  all_space ws = true ->
  search json_pattern (pre ++ fence ++ tag ++ ws ++ fence ++ post)%string
    = Some [(1%nat, ""%string)].
Proof.
  intros Hp Hq Htag Hws. induction pre as [|c pre IH].
  - cbn [append].
    pose proof (empty_fence_match_here tag ws post Htag Hws) as H.
    unfold fence in *. cbn [append] in *. cbn [search]. rewrite H. reflexivity.
  - destruct (contains_cons _ _ _ Hp) as [P1 P2].
    destruct (contains_cons _ _ _ Hq) as [Q1 Q2].
    cbn [append search]. rewrite match_here_none.
    + apply IH; assumption.
    + cbn [starts_with] in P1. rewrite andb_true_r in P1.
      unfold fence. cbn [starts_with]. rewrite P1. reflexivity.
    + cbn [starts_with] in *. destruct (Ascii.eqb "{" c); [discriminate | reflexivity].
Qed.

Lemma json_loads_raises (s : string) (e : exn) :
  json_loads s = Raise e -> exists m, e = JSONDecodeError m.
Proof.
  unfold json_loads. destruct (lex s) as [ts|]; [destruct (parse_from _ ts)|];
    intros H; try discriminate H; injection H as <-; eauto.
Qed.

Lemma extract_selected (content name g : string) :
  search json_pattern content = Some [(1%nat, g)] \/ search json_pattern content = Some [(2%nat, g)] ->
  g <> ""%string ->
  extract_json_from_llm_response content name = loads_or_ValueError (strip g) name.
Proof.
  intros Hs Hg. unfold extract_json_from_llm_response, extract_attempt, loads_or_ValueError.
  assert (Hsel : exists m, search json_pattern content = Some m
                           /\ group1_or_group2 m = Some g).
  { destruct g as [|c r]; [congruence|].
    destruct Hs as [H|H]; eexists; (split; [exact H | reflexivity]). }
  destruct Hsel as (m & -> & ->).
  destruct (json_loads (strip g)) as [v|e] eqn:E; [reflexivity|].
  destruct (json_loads_raises _ _ E) as (msg & ->). reflexivity.
Qed.

Lemma strip_braced (body : string) :
  strip ("{" ++ body ++ "}") = ("{" ++ body ++ "}")%string.
Proof.
  unfold strip. cbn [append lstrip]. change (is_space "{") with false. cbv iota.
  assert (H : forall x, rstrip (x ++ "}") = (x ++ "}")%string).
  { induction x as [|c x IH]; [reflexivity|].
    cbn [append rstrip]. rewrite IH. destruct x; reflexivity. }
  exact (H (String "{" body)).
Qed.

End ExtractorSelection.

(** A fenced block with nothing but whitespace between its fences, with the
    [json] tag or without one, after prose that has no backquote and no
    opening brace: group 1 of the match is empty and there is no group 2, the
    [strip] of [None] fails, and the extractor raises its [ValueError], whose
    message names the model; the text after the block is not looked at,
    whatever JSON it holds. *)
Theorem extract_empty_fence_raises (pre tag ws post model_name : string) :
  contains "`" pre = false ->
  contains "{" pre = false ->
  tag = "json"%string \/ tag = ""%string ->
  ExtractorNotions.all_space ws = true ->
  extract_json_from_llm_response
    (pre ++ fence ++ tag ++ ws ++ fence ++ post)%string model_name
  = Raise (ValueError ("No valid JSON found in " ++ model_name ++ " response")).
Proof.
  intros Hp Hq Htag Hws.
  unfold extract_json_from_llm_response, extract_attempt.
  rewrite (empty_fence_search pre tag ws post Hp Hq Htag Hws).
  reflexivity.
Qed.

Lemma extract_empty_fence_raises_witness :
  extract_json_from_llm_response
    ("Here you go:" ++ nl ++ fence ++ "json" ++ nl ++ fence ++ nl
       ++ Samples.nested_raw)%string "Nova"
  = Raise (ValueError "No valid JSON found in Nova response")
  /\ json_loads Samples.nested_raw = Ok Samples.nested_value.
Proof.
  split; [|reflexivity].
  apply (extract_empty_fence_raises ("Here you go:" ++ nl) "json" nl
           (nl ++ Samples.nested_raw) "Nova");
    try reflexivity. left. reflexivity.
Defined.








(* ------------------------------------------------------------------ *)
(** ** The action space: clamping, nearest entry and the validity queries *)

Section ActionSpaceQueries.
Import ActionSpace ModelMetadataQueries.

Lemma clamp_bounds (low high x : R) :
  (low < high)%R -> (low <= Rmax low (Rmin high x) <= high)%R.
Proof.
  intros H. unfold Rmax, Rmin. repeat destruct (Rle_dec _ _); lra.
Qed.

Lemma clamp_inside (low high x : R) :
  (low <= x <= high)%R -> Rmax low (Rmin high x) = x.
Proof.
  intros H. unfold Rmax, Rmin. repeat destruct (Rle_dec _ _); lra.
Qed.

(** The value of the clamp is [max(low, min(high, x))]. *)
Lemma clamp_value (space : json) (axis : string) (low high x : R) :
  range_bound space axis "low" = Ok low ->
  range_bound space axis "high" = Ok high ->
  (low < high)%R ->
  exists r, clamp space axis x = Ok r
            /\ num_value r = Some (Rmax low (Rmin high x)).
Proof.
  intros Hl Hh Hlt.
  destruct (range_bound_item _ _ _ _ Hl) as (lj & Il & Nl).
  destruct (range_bound_item _ _ _ _ Hh) as (hj & Ih & Nh).
  unfold clamp. rewrite Il, Ih. cbn [bind].
  unfold py_min. rewrite (lt_num_value (JFloat x) hj x high) by (reflexivity || exact Nh).
  cbn [bind].
  destruct (Rlt_dec x high) as [Lx|Lx].
  - unfold py_max. rewrite (lt_num_value lj (JFloat x) low x) by (exact Nl || reflexivity).
    cbn [bind]. destruct (Rlt_dec low x) as [L|L].
    + exists (JFloat x). split; [reflexivity|]. cbn [num_value]. f_equal.
      unfold Rmax, Rmin. repeat destruct (Rle_dec _ _); lra.
    + exists lj. split; [reflexivity|]. rewrite Nl. f_equal.
      unfold Rmax, Rmin. repeat destruct (Rle_dec _ _); lra.
  - unfold py_max. rewrite (lt_num_value lj hj low high) by assumption.
    cbn [bind]. destruct (Rlt_dec low high) as [L|L]; [|contradiction].
    exists hj. split; [reflexivity|]. rewrite Nh. f_equal.
    unfold Rmax, Rmin. repeat destruct (Rle_dec _ _); lra.
Qed.

Lemma declared_range_unique (md : json) (axis : string) (l h l' h' : R) :
  declared_range md axis l h -> declared_range md axis l' h' -> l = l' /\ h = h'.
Proof.
  intros (sp & Hs & A & B) (sp' & Hs' & A' & B').
  rewrite Hs in Hs'. injection Hs' as <-. rewrite A in A'. rewrite B in B'.
  injection A' as <-. injection B' as <-. auto.
Qed.

Lemma normalize_continuous_spec (md : json) (s v : R) :
  _validate_metadata md = Ok tt ->
  get_action_space_type md = Ok CONTINUOUS ->
  exists l1 h1 l2 h2 a b,
    declared_range md "steering_angle" l1 h1 /\ (l1 < h1)%R
    /\ declared_range md "speed" l2 h2 /\ (l2 < h2)%R
    /\ normalize_action md s v
       = Ok (NewDict (JObj [("steering_angle", a); ("speed", b)]))
    /\ num_value a = Some (Rmax l1 (Rmin h1 s))
    /\ num_value b = Some (Rmax l2 (Rmin h2 v)).
Proof.
  intros Hv Ht.
  destruct (validate_metadata_continuous md Hv Ht)
    as (Htruth & l1 & h1 & l2 & h2 & R1 & O1 & R2 & O2).
  exists l1, h1, l2, h2.
  pose proof R1 as (space & Hs & A1 & B1).
  pose proof R2 as (space' & Hs' & A2 & B2).
  rewrite Hs in Hs'. injection Hs' as <-.
  destruct (clamp_value space "steering_angle" l1 h1 s A1 B1 O1) as (a & Ca & Na).
  destruct (clamp_value space "speed" l2 h2 v A2 B2 O2) as (b & Cb & Nb).
  pose proof (warn_if_exceeds_ok space "steering_angle" l1 h1 s A1 B1) as E1.
  pose proof (warn_if_exceeds_ok space "speed" l2 h2 v A2 B2) as E2.
  exists a, b. repeat (split; [assumption|]).
  split; [|auto].
  unfold normalize_action. rewrite Htruth, Ht. cbn [negb bind is_continuous].
  rewrite Hs. cbn [bind]. rewrite E1. cbn [bind]. rewrite E2. cbn [bind].
  rewrite Ca. cbn [bind]. rewrite Cb. reflexivity.
Qed.

(** [low <= x <= high] as the two comparisons decide it. *)
Lemma within_range_value (space : json) (axis : string) (low high x : R) :
  range_bound space axis "low" = Ok low ->
  range_bound space axis "high" = Ok high ->
  exists range b,
    getitem space axis = Ok range
    /\ within_range range x = Ok b
    /\ (b = true <-> (low <= x <= high)%R).
Proof.
  unfold range_bound. intros Hl Hh.
  destruct (getitem space axis) as [range|] eqn:Hr; [|discriminate Hl].
  cbn [bind] in Hl, Hh.
  destruct (getitem range "low") as [lj|] eqn:Il; [|discriminate Hl].
  destruct (getitem range "high") as [hj|] eqn:Ih; [|discriminate Hh].
  cbn [bind] in Hl, Hh.
  destruct (num_value lj) as [l|] eqn:Nl; [|discriminate Hl].
  destruct (num_value hj) as [h|] eqn:Nh; [|discriminate Hh].
  injection Hl as ->. injection Hh as ->.
  exists range. unfold within_range, ge_num, le_num. rewrite Il. cbn [bind].
  rewrite (lt_num_value (JFloat x) lj x low) by (reflexivity || exact Nl).
  cbn [bind]. destruct (Rlt_dec x low) as [L|L]; cbn [negb].
  - exists false. split; [reflexivity|]. split; [reflexivity|].
    split; [discriminate | lra].
  - rewrite Ih. cbn [bind].
    rewrite (lt_num_value hj (JFloat x) high x) by (exact Nh || reflexivity).
    cbn [bind]. destruct (Rlt_dec high x) as [G|G]; cbn [negb].
    + exists false. split; [reflexivity|]. split; [reflexivity|].
      split; [discriminate | lra].
    + exists true. split; [reflexivity|]. split; [reflexivity|].
      split; [lra | reflexivity].
Qed.

Lemma declared_entry_axis (e : json) (axis : string) :
  declared_entry e ->
  axis = "steering_angle" \/ axis = "speed" ->
  exists a, getitem e axis = Ok a /\ num_value a = Some (axis_value e axis).
Proof.
  intros He [-> | ->];
    destruct (declared_entry_axes e He) as (a & b & Ha & Na & Hb & Nb); eauto.
Qed.

Lemma eq_float_value (a : json) (y x : R) :
  num_value a = Some y -> (eq_float a x = true <-> y = x).
Proof.
  intros Ha. unfold eq_float. rewrite Ha.
  destruct (Req_dec_T y x); split; intros H; congruence.
Qed.

(** [any(action[axis] == x for action in actions)] on validated entries. *)
Lemma any_axis_equals_spec (axis : string) (x : R) (l : list json) :
  axis = "steering_angle" \/ axis = "speed" ->
  Forall declared_entry l ->
  exists b, any_axis_equals axis x l = Ok b
            /\ (b = true <-> exists e, In e l /\ axis_value e axis = x).
Proof.
  intros Hax. induction 1 as [|e rest He Hrest IH].
  - exists false. split; [reflexivity|]. split; [discriminate|].
    intros (e & [] & _).
  - destruct (declared_entry_axis e axis He Hax) as (a & Ha & Na).
    cbn [any_axis_equals]. rewrite Ha. cbn [bind].
    destruct (eq_float a x) eqn:E.
    + exists true. split; [reflexivity|]. split; [|reflexivity].
      intros _. exists e. split; [left; reflexivity|].
      apply (eq_float_value a _ x Na). exact E.
    + destruct IH as (b & Hb & Hiff). exists b. split; [exact Hb|].
      rewrite Hiff. split.
      * intros (e' & Hin & Hx). exists e'. split; [right; exact Hin | exact Hx].
      * intros (e' & [<-|Hin] & Hx); [|eauto].
        apply (eq_float_value a _ x Na) in Hx. congruence.
Qed.

Lemma normalize_empty_raises (md : json) (s v : R) :
  truth md = true ->
  get_action_space_type md = Ok DISCRETE ->
  declared_actions md [] ->
  normalize_action md s v = Raise (IndexError "list index out of range").
Proof.
  intros Htruth Ht Ha. unfold declared_actions in Ha.
  unfold normalize_action, find_closest_discrete_action.
  rewrite Htruth, Ht. cbn [negb bind is_continuous is_discrete].
  rewrite Ha. reflexivity.
Qed.

End ActionSpaceQueries.

(** On each axis of a validated continuous space the value that
    [normalize_action] returns is [max(low, min(high, input))] of the declared
    bounds: an input inside the range comes back with its value, and
    normalising the returned pair again returns the same values. *)
Theorem normalize_continuous_clamps (md : json) (s v : R) :
  _validate_metadata md = Ok tt ->
  get_action_space_type md = Ok CONTINUOUS ->
  exists l1 h1 l2 h2 a b a' b',
    ActionSpace.declared_range md "steering_angle" l1 h1
    /\ ActionSpace.declared_range md "speed" l2 h2
    /\ normalize_action md s v
       = Ok (NewDict (JObj [("steering_angle", a); ("speed", b)]))
    /\ num_value a = Some (Rmax l1 (Rmin h1 s))
    /\ num_value b = Some (Rmax l2 (Rmin h2 v))
    /\ ((l1 <= s <= h1)%R -> num_value a = Some s)
    /\ ((l2 <= v <= h2)%R -> num_value b = Some v)
    /\ normalize_action md (Rmax l1 (Rmin h1 s)) (Rmax l2 (Rmin h2 v))
       = Ok (NewDict (JObj [("steering_angle", a'); ("speed", b')]))
    /\ num_value a' = num_value a
    /\ num_value b' = num_value b.
Proof.
  intros Hv Ht.
  destruct (normalize_continuous_spec md s v Hv Ht)
    as (l1 & h1 & l2 & h2 & a & b & R1 & O1 & R2 & O2 & Hn & Na & Nb).
  destruct (normalize_continuous_spec md (Rmax l1 (Rmin h1 s)) (Rmax l2 (Rmin h2 v)) Hv Ht)
    as (l1' & h1' & l2' & h2' & a' & b' & R1' & _ & R2' & _ & Hn' & Na' & Nb').
  destruct (declared_range_unique _ _ _ _ _ _ R1 R1') as [<- <-].
  destruct (declared_range_unique _ _ _ _ _ _ R2 R2') as [<- <-].
  exists l1, h1, l2, h2, a, b, a', b'.
  repeat (split; [assumption|]).
  split; [intros H; rewrite Na; f_equal; apply clamp_inside; exact H|].
  split; [intros H; rewrite Nb; f_equal; apply clamp_inside; exact H|].
  split; [exact Hn'|].
  rewrite Na, Nb, Na', Nb'.
  split; f_equal; apply clamp_inside; apply clamp_bounds; assumption.
Qed.

Lemma normalize_continuous_clamps_witness :
  exists l1 h1 l2 h2 a b a' b',
    ActionSpace.declared_range Samples.continuous_metadata "steering_angle" l1 h1
    /\ ActionSpace.declared_range Samples.continuous_metadata "speed" l2 h2
    /\ normalize_action Samples.continuous_metadata 100 2
       = Ok (NewDict (JObj [("steering_angle", a); ("speed", b)]))
    /\ num_value a = Some (Rmax l1 (Rmin h1 100))
    /\ num_value b = Some (Rmax l2 (Rmin h2 2))
    /\ ((l1 <= 100 <= h1)%R -> num_value a = Some 100%R)
    /\ ((l2 <= 2 <= h2)%R -> num_value b = Some 2%R)
    /\ normalize_action Samples.continuous_metadata
         (Rmax l1 (Rmin h1 100)) (Rmax l2 (Rmin h2 2))
       = Ok (NewDict (JObj [("steering_angle", a'); ("speed", b')]))
    /\ num_value a' = num_value a
    /\ num_value b' = num_value b.
Proof.
  apply (normalize_continuous_clamps Samples.continuous_metadata 100 2).
  - unfold Samples.continuous_metadata. cbn.
    destruct (Rlt_dec 1 4) as [_|N]; [|exfalso; apply N; lra]. cbn.
    destruct (Rlt_dec (-30) 30) as [_|N]; [|exfalso; apply N; lra].
    reflexivity.
  - reflexivity.
Defined.

(** On a validated discrete space with at least one action, whose integer
    values convert to floats, the entry that [normalize_action] returns is a
    nearest one in the distance the loop computes, every operation rounded to
    binary64: no declared action has a smaller computed distance from the
    requested pair, and every action declared before it has a strictly
    greater one. *)
Theorem normalize_discrete_returns_nearest
    (md : json) (actions : list json) (s v : R) :
  _validate_metadata md = Ok tt ->
  get_action_space_type md = Ok DISCRETE ->
  ActionSpace.declared_actions md actions ->
  actions <> [] ->
  Forall ActionSpace.ints_fit actions ->
  exists j e,
    normalize_action md s v = Ok (Member j e)
    /\ nth_error actions j = Some e
    /\ (forall e', In e' actions ->
          ActionSpace.fle (ActionSpace.computed_distance s v e)
                          (ActionSpace.computed_distance s v e'))
    /\ (forall k e', (k < j)%nat -> nth_error actions k = Some e' ->
          Float64.flt (ActionSpace.computed_distance s v e)
                      (ActionSpace.computed_distance s v e') = true).
Proof.
  intros Hv Ht Ha Hne Hfit.
  destruct (normalize_discrete_spec s v md actions Hv Ht Ha Hfit Hne)
    as (j & e & Hn & Hnth & Hmin & Hfirst).
  exists j, e. auto.
Qed.

Lemma normalize_discrete_returns_nearest_witness :
  exists j e,
    normalize_action Samples.discrete_metadata 10 (3 / 2) = Ok (Member j e)
    /\ nth_error Samples.discrete_actions j = Some e
    /\ (forall e', In e' Samples.discrete_actions ->
          ActionSpace.fle (ActionSpace.computed_distance 10 (3 / 2) e)
                          (ActionSpace.computed_distance 10 (3 / 2) e'))
    /\ (forall k e', (k < j)%nat -> nth_error Samples.discrete_actions k = Some e' ->
          Float64.flt (ActionSpace.computed_distance 10 (3 / 2) e)
                      (ActionSpace.computed_distance 10 (3 / 2) e') = true).
Proof.
  apply (normalize_discrete_returns_nearest
           Samples.discrete_metadata Samples.discrete_actions 10 (3 / 2));
    [reflexivity | reflexivity | reflexivity | discriminate
    | exact discrete_actions_fit].
Defined.

(** The loop returns the entry it started with or an entry of the list, and
    it returns only when every entry gives both axes. *)
Lemma closest_loop_returns_entry (s v : R) (l : list json) :
  forall (i : nat) (best r : nat * json) (m : Float64.f64),
  closest_loop s v l i best m = Ok r ->
  (r = best \/ In (snd r) l)
  /\ Forall (fun e => exists a b, getitem e "steering_angle" = Ok a
                                  /\ getitem e "speed" = Ok b) l.
Proof.
  induction l as [|e rest IH]; intros i best r m H; cbn [closest_loop] in H.
  - injection H as <-. split; [left; reflexivity | constructor].
  - destruct (getitem e "steering_angle") as [a|] eqn:Ha; [|discriminate H].
    cbn [bind] in H.
    destruct (sub_float a s) as [ds|]; [|discriminate H]. cbn [bind] in H.
    destruct (getitem e "speed") as [b|] eqn:Hb; [|discriminate H].
    cbn [bind] in H.
    destruct (sub_float b v) as [dv|]; [|discriminate H]. cbn [bind] in H.
    destruct (Float64.flt _ m).
    + destruct (IH _ _ _ _ H) as [[->|Hin] Hall].
      * split; [right; left; reflexivity | constructor; eauto].
      * split; [right; right; exact Hin | constructor; eauto].
    + destruct (IH _ _ _ _ H) as [[->|Hin] Hall].
      * split; [left; reflexivity | constructor; eauto].
      * split; [right; right; exact Hin | constructor; eauto].
Qed.

(** On a discrete space, what [normalize_action] returns is an entry of the
    declared list. *)
Lemma normalize_discrete_member (md : json) (actions : list json) (s v : R)
                                (n : normalized) :
  get_action_space_type md = Ok DISCRETE ->
  ActionSpace.declared_actions md actions ->
  normalize_action md s v = Ok n ->
  exists j e, n = Member j e /\ In e actions.
Proof.
  intros Ht Ha. unfold ActionSpace.declared_actions in Ha.
  unfold normalize_action. destruct (negb (truth md)) eqn:Htruth;
    [intros H; discriminate H|].
  rewrite Ht. cbn [bind is_continuous]. rewrite Ha. cbn [bind iter].
  intros H. bind_inv H.
  unfold find_closest_discrete_action in H.
  rewrite Htruth, Ht in H. cbn [bind is_discrete negb] in H.
  rewrite Ha in H. cbn [bind iter] in H.
  destruct (getitem0 (JArr actions)) as [first|] eqn:Hfirst; [|discriminate H].
  cbn [bind] in H.
  destruct (closest_loop s v actions 0 (0%nat, first) None) as [[j e]|] eqn:Hloop;
    [|discriminate H].
  cbn [bind] in H.
  destruct (negb (truth e)); [discriminate H|]. injection H as <-.
  exists j, e. split; [reflexivity|].
  destruct (closest_loop_returns_entry s v actions _ _ _ _ Hloop) as [[E|Hin] _];
    [|exact Hin].
  injection E as _ ->.
  unfold getitem0, index in Hfirst.
  destruct actions as [|e0 l']; [discriminate Hfirst|].
  cbn [nth_error] in Hfirst. injection Hfirst as <-. left. reflexivity.
Qed.

(** The first action of the two-sided space is returned for its own pair. *)
Lemma two_sided_exact :
  normalize_action Samples.two_sided_metadata (-1) 1
  = Ok (Member 0 (JObj [("steering_angle", JInt (-1)); ("speed", JInt 1)])).
Proof.
  destruct (normalize_discrete_spec (-1) 1 Samples.two_sided_metadata
              Samples.two_sided_actions eq_refl eq_refl eq_refl
              two_sided_actions_fit ltac:(discriminate))
    as (j & e & Hr & Hmin).
  assert (Hz : ActionSpace.computed_distance (-1) 1
                 (JObj [("steering_angle", JInt (-1)); ("speed", JInt 1)])
               = Some 0%R).
  { apply computed_distance_match; try reflexivity.
    - rewrite (round64_int_val (-1) (-1)) by reflexivity. discriminate.
    - rewrite (round64_int_val 1 1) by reflexivity. discriminate. }
  destruct (first_minimum_zero (-1) 1 Samples.two_sided_actions j 0 e _ Hmin
              eq_refl Hz) as (_ & Hj & _).
  destruct Hmin as (Hnth & _).
  assert (j = 0%nat) by lia. subst j.
  cbn [Samples.two_sided_actions nth_error] in Hnth.
  injection Hnth as <-. exact Hr.
Qed.



(** On validated metadata with a continuous space the two validity queries
    never raise, and each answers [True] exactly for the values between the
    declared bounds of its axis, bounds included. *)
Theorem valid_in_continuous_space_iff_in_range (md : json) (x : R) :
  _validate_metadata md = Ok tt ->
  get_action_space_type md = Ok CONTINUOUS ->
  exists l1 h1 l2 h2 b1 b2,
    ActionSpace.declared_range md "steering_angle" l1 h1
    /\ ActionSpace.declared_range md "speed" l2 h2
    /\ ModelMetadataQueries.is_valid_steering_angle md x = Ok b1
    /\ (b1 = true <-> (l1 <= x <= h1)%R)
    /\ ModelMetadataQueries.is_valid_speed md x = Ok b2
    /\ (b2 = true <-> (l2 <= x <= h2)%R).
Proof.
  intros Hv Ht.
  destruct (validate_metadata_continuous md Hv Ht)
    as (Htruth & l1 & h1 & l2 & h2 & R1 & _ & R2 & _).
  pose proof R1 as (space & Hs & A1 & B1).
  pose proof R2 as (space' & Hs' & A2 & B2).
  rewrite Hs in Hs'. injection Hs' as <-.
  destruct (within_range_value space "steering_angle" l1 h1 x A1 B1)
    as (r1 & b1 & Hr1 & Hw1 & I1).
  destruct (within_range_value space "speed" l2 h2 x A2 B2)
    as (r2 & b2 & Hr2 & Hw2 & I2).
  exists l1, h1, l2, h2, b1, b2.
  unfold ModelMetadataQueries.is_valid_steering_angle,
    ModelMetadataQueries.is_valid_speed.
  rewrite Htruth, Ht. cbn [negb bind is_continuous].
  rewrite Hs. cbn [bind]. rewrite Hr1, Hr2. cbn [bind].
  repeat (split; [assumption|]). exact I2.
Qed.

Lemma valid_in_continuous_space_iff_in_range_witness :
  exists l1 h1 l2 h2 b1 b2,
    ActionSpace.declared_range Samples.continuous_metadata "steering_angle" l1 h1
    /\ ActionSpace.declared_range Samples.continuous_metadata "speed" l2 h2
    /\ ModelMetadataQueries.is_valid_steering_angle Samples.continuous_metadata 30 = Ok b1
    /\ (b1 = true <-> (l1 <= 30 <= h1)%R)
    /\ ModelMetadataQueries.is_valid_speed Samples.continuous_metadata 30 = Ok b2
    /\ (b2 = true <-> (l2 <= 30 <= h2)%R).
Proof.
  apply (valid_in_continuous_space_iff_in_range Samples.continuous_metadata 30).
  - unfold Samples.continuous_metadata. cbn.
    destruct (Rlt_dec 1 4) as [_|N]; [|exfalso; apply N; lra]. cbn.
    destruct (Rlt_dec (-30) 30) as [_|N]; [|exfalso; apply N; lra].
    reflexivity.
  - reflexivity.
Defined.

(** On validated metadata with a discrete space the two validity queries
    never raise, and each answers [True] exactly for the values that some
    declared action carries on its axis; on an empty action list both answer
    [False]. *)
Theorem valid_in_discrete_space_iff_declared
    (md : json) (actions : list json) (x : R) :
  _validate_metadata md = Ok tt ->
  get_action_space_type md = Ok DISCRETE ->
  ActionSpace.declared_actions md actions ->
  exists b1 b2,
    ModelMetadataQueries.is_valid_steering_angle md x = Ok b1
    /\ (b1 = true <-> exists e, In e actions /\ ActionSpace.steering_of e = x)
    /\ ModelMetadataQueries.is_valid_speed md x = Ok b2
    /\ (b2 = true <-> exists e, In e actions /\ ActionSpace.speed_of e = x)
    /\ (actions = [] -> b1 = false /\ b2 = false).
Proof.
  intros Hv Ht Ha.
  destruct (validate_metadata_discrete md actions Hv Ht Ha) as (Htruth & Hall).
  destruct (any_axis_equals_spec "steering_angle" x actions (or_introl eq_refl) Hall)
    as (b1 & Hb1 & I1).
  destruct (any_axis_equals_spec "speed" x actions (or_intror eq_refl) Hall)
    as (b2 & Hb2 & I2).
  exists b1, b2.
  unfold ModelMetadataQueries.is_valid_steering_angle,
    ModelMetadataQueries.is_valid_speed.
  rewrite Htruth, Ht. cbn [negb bind is_continuous].
  unfold ActionSpace.declared_actions in Ha. rewrite Ha. cbn [bind iter].
  split; [exact Hb1|]. split; [exact I1|]. split; [exact Hb2|].
  split; [exact I2|].
  intros ->. cbn [ModelMetadataQueries.any_axis_equals] in Hb1, Hb2.
  injection Hb1 as <-. injection Hb2 as <-. auto.
Qed.

Lemma valid_in_discrete_space_iff_declared_witness :
  exists b1 b2,
    ModelMetadataQueries.is_valid_steering_angle Samples.discrete_metadata 30 = Ok b1
    /\ (b1 = true <-> exists e, In e Samples.discrete_actions
                                /\ ActionSpace.steering_of e = 30%R)
    /\ ModelMetadataQueries.is_valid_speed Samples.discrete_metadata 30 = Ok b2
    /\ (b2 = true <-> exists e, In e Samples.discrete_actions
                                /\ ActionSpace.speed_of e = 30%R)
    /\ (Samples.discrete_actions = [] -> b1 = false /\ b2 = false).
Proof.
  apply (valid_in_discrete_space_iff_declared
           Samples.discrete_metadata Samples.discrete_actions 30);
    reflexivity.
Defined.

(** On validated metadata exactly one of [get_discrete_actions] and
    [get_continuous_action_space] returns the action space, the one that
    matches the type of the space, and the other returns [None]; the space
    returned is what [get_action_space] returns, a list in the discrete case
    and never [None]. *)
Theorem one_space_getter_answers (md : json) :
  _validate_metadata md = Ok tt ->
  exists t space,
    get_action_space_type md = Ok t
    /\ ModelMetadataQueries.get_action_space md = Ok space
    /\ space <> JNull
    /\ match t with
       | DISCRETE =>
           is_list space = true
           /\ ModelMetadataQueries.get_discrete_actions md = Ok space
           /\ ModelMetadataQueries.get_continuous_action_space md = Ok JNull
       | CONTINUOUS =>
           is_list space = false
           /\ ModelMetadataQueries.get_continuous_action_space md = Ok space
           /\ ModelMetadataQueries.get_discrete_actions md = Ok JNull
       end.
Proof.
  intros Hv.
  destruct (validate_metadata_space md Hv) as (Htruth & t & space & Ht & Hs & Hk).
  exists t, space.
  unfold ModelMetadataQueries.get_action_space,
    ModelMetadataQueries.get_discrete_actions,
    ModelMetadataQueries.get_continuous_action_space.
  rewrite Htruth, Ht. cbn [negb bind].
  split; [reflexivity|]. split; [exact Hs|].
  destruct t; cbn [is_discrete is_continuous negb].
  - destruct Hk as (actions & -> & _).
    split; [discriminate|]. split; [reflexivity|]. split; [exact Hs | reflexivity].
  - assert (Hd : exists d, space = JObj d).
    { destruct (validate_metadata_continuous md Hv Ht)
        as (_ & l1 & h1 & _ & _ & (sp & Hs' & A1 & _) & _).
      rewrite Hs in Hs'. injection Hs' as <-.
      unfold range_bound in A1.
      destruct space; try discriminate A1. eauto. }
    destruct Hd as (d & ->).
    split; [discriminate|]. split; [reflexivity|]. split; [exact Hs | reflexivity].
Qed.

Lemma one_space_getter_answers_witness :
  exists t space,
    get_action_space_type Samples.two_sided_metadata = Ok t
    /\ ModelMetadataQueries.get_action_space Samples.two_sided_metadata = Ok space
    /\ space <> JNull
    /\ match t with
       | DISCRETE =>
           is_list space = true
           /\ ModelMetadataQueries.get_discrete_actions Samples.two_sided_metadata
              = Ok space
           /\ ModelMetadataQueries.get_continuous_action_space Samples.two_sided_metadata
              = Ok JNull
       | CONTINUOUS =>
           is_list space = false
           /\ ModelMetadataQueries.get_continuous_action_space Samples.two_sided_metadata
              = Ok space
           /\ ModelMetadataQueries.get_discrete_actions Samples.two_sided_metadata
              = Ok JNull
       end.
Proof.
  apply (one_space_getter_answers Samples.two_sided_metadata). reflexivity.
Defined.

(* ------------------------------------------------------------------ *)
(** ** The handlers: what a call of [process] changes *)

(** Case analysis on the innermost scrutinee of the goal. *)
Ltac destruct_scrutinee :=
  match goal with
  | |- context [match ?x with _ => _ end] =>
      lazymatch x with
      | context [match _ with _ => _ end] => fail
      | _ => destruct x eqn:?
      end
  end.

Section HandlerCalls.
Import Bedrock Runs.

Variable json_dumps : json -> string.
Variable mistral_process :
  handler -> json -> string -> round_trip -> stepped json.

(** A call of [process] of one of the three handlers touches the
    conversation context and nothing else. *)
Lemma handler_process_sets_context (h : handler) (prompt : json) (image : string)
                                   (rt : round_trip) :
  kind h <> Mistral ->
  exists ctx,
    snd (handler_process json_dumps mistral_process h prompt image rt)
      = set_context h ctx.
Proof.
  intros Hk. unfold handler_process.
  destruct h as [k id sp mx ctx asp ast]. cbn [kind] in *.
  destruct k; try congruence;
    unfold ClaudeHandler.process, ClaudeHandler.extract_response_text,
      LlamaHandler.process, LlamaHandler.extract_response_text,
      NovaHandler.process, NovaHandler.extract_response_text, append_message;
    cbn [set_context max_context_messages conversation_context kind Bedrock.model_id
         system_prompt action_space action_space_type];
    repeat (destruct_scrutinee;
            cbn [set_context max_context_messages conversation_context kind
                 Bedrock.model_id system_prompt action_space action_space_type snd fst]);
    cbn [snd]; eexists; unfold set_context; cbn; reflexivity.
Qed.

End HandlerCalls.

Section HandlerRuns.
Import Bedrock Runs HandlerNotions.

Variable json_dumps : json -> string.
Variable mistral_process :
  handler -> json -> string -> round_trip -> stepped json.

Lemma run_keeps_settings (calls : list call) (h : handler) :
  kind h <> Mistral ->
  kind (run json_dumps mistral_process h calls) = kind h
  /\ max_context_messages (run json_dumps mistral_process h calls)
     = max_context_messages h.
Proof.
  revert h. induction calls as [|c rest IH]; intros h Hk; [split; reflexivity|].
  unfold run in *. cbn [fold_left].
  destruct (handler_process_keeps_settings json_dumps mistral_process
              h (fst (fst c)) (snd (fst c)) (snd c) Hk) as [K M].
  destruct (IH (snd (handler_process json_dumps mistral_process h
                       (fst (fst c)) (snd (fst c)) (snd c)))) as [K' M'];
    [congruence|].
  split; congruence.
Qed.

(** A call whose request raises: the exception comes out, and the user
    message stays appended, with no cut. *)
Lemma failed_request_step (h : handler) (n : Z) (prompt : json) (image : string)
                          (e : exn) :
  kind h <> Mistral ->
  max_context_messages h = JInt n -> (0 < n)%Z ->
  handler_process json_dumps mistral_process h prompt image (Raise e)
    = (Raise e,
       set_context h (conversation_context h ++ [user_message (kind h) prompt image])).
Proof.
  intros Hk Hmax Hn.
  assert (Hp : (0 <? n)%Z = true) by (apply Z.ltb_lt; exact Hn).
  unfold handler_process.
  destruct (kind h) eqn:K; try congruence;
    unfold ClaudeHandler.process, LlamaHandler.process, NovaHandler.process;
    rewrite Hmax, positive_int, Hp; reflexivity.
Qed.

End HandlerRuns.

(** A call of [process] of the Claude, Llama or Nova handler changes the
    conversation context of the handler and nothing else: the model
    identifier, the system prompt, the bound on the context and the action
    space are those of before, whether the call returns or raises. *)
Theorem process_changes_only_context
    (json_dumps : json -> string)
    (mistral_process :
       Bedrock.handler -> json -> string -> Bedrock.round_trip -> Bedrock.stepped json)
    (h : Bedrock.handler) (prompt : json) (image : string) (rt : Bedrock.round_trip) :
  Bedrock.kind h <> Bedrock.Mistral ->
  exists ctx,
    snd (Bedrock.handler_process json_dumps mistral_process h prompt image rt)
      = Bedrock.set_context h ctx.
Proof. apply handler_process_sets_context. Qed.

Lemma process_changes_only_context_witness :
  exists ctx,
    snd (Bedrock.handler_process Samples.dumps_stub Samples.mistral_stub
           (Runs.fresh Bedrock.Nova 2) (JStr "Next image.") "SkZJRg=="
           (Ok (Samples.nova_body Samples.good_reply)))
      = Bedrock.set_context (Runs.fresh Bedrock.Nova 2) ctx.
Proof.
  apply (process_changes_only_context Samples.dumps_stub Samples.mistral_stub
           (Runs.fresh Bedrock.Nova 2) (JStr "Next image.") "SkZJRg=="
           (Ok (Samples.nova_body Samples.good_reply))).
  discriminate.
Defined.

(** When the request of a call raises, with a positive bound on the context:
    the exception leaves [process], and the user message appended before the
    request stays in the context, which is not cut.  After calls that filled
    the context to its bound, it then holds one entry more than the bound;
    the next call that adds its exchange cuts it back to the bound. *)
Theorem failed_request_leaves_user_message
    (json_dumps : json -> string)
    (mistral_process :
       Bedrock.handler -> json -> string -> Bedrock.round_trip -> Bedrock.stepped json)
    (k : Bedrock.family) (n : Z) (calls : list Runs.call) (hist : list json)
    (prompt : json) (image : string) (e : exn) :
  k <> Bedrock.Mistral ->
  (0 < n)%Z ->
  Runs.history json_dumps k calls = Some hist ->
  (Runs.context_bound k n <= 2 * length calls)%nat ->
  let h := Runs.run json_dumps mistral_process (Runs.fresh k n) calls in
  let failed := Bedrock.handler_process json_dumps mistral_process h prompt image (Raise e) in
  fst failed = Raise e
  /\ Bedrock.conversation_context (snd failed)
     = Bedrock.conversation_context h ++ [HandlerNotions.user_message k prompt image]
  /\ length (Bedrock.conversation_context (snd failed)) = S (Runs.context_bound k n)
  /\ (forall c ex,
        Runs.exchange json_dumps k c = Some ex ->
        length (Bedrock.conversation_context
                  (snd (Bedrock.handler_process json_dumps mistral_process (snd failed)
                          (fst (fst c)) (snd (fst c)) (snd c))))
        = Runs.context_bound k n).
Proof.
  intros Hk Hn Hh Hfull h failed.
  assert (Hfresh : Bedrock.kind (Runs.fresh k n) <> Bedrock.Mistral) by exact Hk.
  destruct (run_keeps_settings json_dumps mistral_process calls (Runs.fresh k n) Hfresh)
    as [K M].
  fold h in K, M. cbn [Runs.fresh Bedrock.kind Bedrock.max_context_messages
                       Bedrock.set_max_context_messages Bedrock.new_handler] in K, M.
  assert (Hk' : Bedrock.kind h <> Bedrock.Mistral) by (rewrite K; exact Hk).
  pose proof (failed_request_step json_dumps mistral_process h n prompt image e Hk' M Hn)
    as Hf.
  fold failed in Hf. rewrite K in Hf.
  assert (Hlen : length (Bedrock.conversation_context h) = Runs.context_bound k n).
  { unfold h.
    rewrite (run_context json_dumps mistral_process n calls Hn (Runs.fresh k n) hist);
      [|exact Hk | reflexivity | cbn; lia | exact Hh].
    cbn [Runs.fresh Bedrock.kind Bedrock.conversation_context
         Bedrock.set_max_context_messages Bedrock.new_handler app].
    rewrite keep_last_length, (history_length json_dumps k calls hist Hh). lia. }
  rewrite Hf. cbn [fst snd Bedrock.set_context Bedrock.conversation_context].
  split; [reflexivity|]. split; [reflexivity|]. split.
  - rewrite length_app, Hlen. cbn [length]. lia.
  - intros c ex Hex.
    pose proof (handler_process_context json_dumps mistral_process
                  (Bedrock.set_context h
                     (Bedrock.conversation_context h
                      ++ [HandlerNotions.user_message k prompt image]))
                  n c ex) as Hc.
    cbn [Bedrock.set_context Bedrock.kind Bedrock.max_context_messages
         Bedrock.conversation_context] in Hc.
    rewrite K in Hc. specialize (Hc Hk M Hn Hex).
    unfold Bedrock.set_context in *. rewrite Hc.
    rewrite keep_last_length, !length_app, Hlen. cbn [length]. lia.
Qed.

Lemma failed_request_leaves_user_message_witness :
  let calls := [(JStr "Next image.", "", Ok (Samples.claude_body Samples.good_reply))] in
  let h := Runs.run Samples.dumps_stub Samples.mistral_stub
             (Runs.fresh Bedrock.Claude 1) calls in
  let failed := Bedrock.handler_process Samples.dumps_stub Samples.mistral_stub h
                  (JStr "Next image.") "" (Raise (ExternalError "timeout")) in
  fst failed = Raise (ExternalError "timeout")
  /\ Bedrock.conversation_context (snd failed)
     = Bedrock.conversation_context h
       ++ [HandlerNotions.user_message Bedrock.Claude (JStr "Next image.") ""]
  /\ length (Bedrock.conversation_context (snd failed))
     = S (Runs.context_bound Bedrock.Claude 1)
  /\ (forall c ex,
        Runs.exchange Samples.dumps_stub Bedrock.Claude c = Some ex ->
        length (Bedrock.conversation_context
                  (snd (Bedrock.handler_process Samples.dumps_stub Samples.mistral_stub
                          (snd failed) (fst (fst c)) (snd (fst c)) (snd c))))
        = Runs.context_bound Bedrock.Claude 1).
Proof.
  apply (failed_request_leaves_user_message Samples.dumps_stub Samples.mistral_stub
           Bedrock.Claude 1
           [(JStr "Next image.", "", Ok (Samples.claude_body Samples.good_reply))]
           [Bedrock.message "user"
              (JArr [JObj [("type", JStr "text"); ("text", JStr "Next image.")]]);
            Bedrock.message "assistant"
              (JArr [JObj [("type", JStr "text"); ("text", JStr Samples.good_reply)]])]
           (JStr "Next image.") "" (ExternalError "timeout")).
  - discriminate.
  - lia.
  - reflexivity.
  - cbn. lia.
Defined.

Lemma context_keeps_latest_entries_witness :
  let calls := repeat (JStr "Next image.", "",
                       Ok (Samples.llama_body Samples.good_reply)) 3 in
  let ctx := Bedrock.conversation_context
               (Runs.run Samples.dumps_stub Samples.mistral_stub
                  (Runs.fresh Bedrock.Llama 2) calls) in
  (2%Z = 0%Z -> ctx = [])
  /\ (forall hist,
        Runs.history Samples.dumps_stub Bedrock.Llama calls = Some hist ->
        ctx = Runs.keep_last (Runs.context_bound Bedrock.Llama 2) hist
        /\ length ctx = Nat.min (Runs.context_bound Bedrock.Llama 2) (2 * length calls)).
Proof.
  apply (context_keeps_latest_entries Samples.dumps_stub Samples.mistral_stub
           Bedrock.Llama 2
           (repeat (JStr "Next image.", "",
                    Ok (Samples.llama_body Samples.good_reply)) 3)).
  - discriminate.
  - lia.
Defined.

(* ------------------------------------------------------------------ *)
(** ** The dispatcher: slashes and letter case *)

Section DispatcherCase.
Import Bedrock.

Lemma ascii_lower_slash (c : ascii) :
  Ascii.eqb (ascii_lower c) "/" = Ascii.eqb c "/".
Proof.
  destruct c as [[] [] [] [] [] [] [] []]; reflexivity.
Qed.

Lemma ascii_lower_idem (c : ascii) : ascii_lower (ascii_lower c) = ascii_lower c.
Proof.
  destruct c as [[] [] [] [] [] [] [] []]; reflexivity.
Qed.

Lemma lower_idem (s : string) : lower (lower s) = lower s.
Proof.
  induction s as [|c r IH]; [reflexivity|].
  cbn [lower]. rewrite ascii_lower_idem, IH. reflexivity.
Qed.

Lemma split_nonempty (sep : ascii) (s : string) : split sep s <> [].
Proof.
  destruct s as [|c r]; cbn [split]; [discriminate|].
  destruct (Ascii.eqb c sep); [discriminate|].
  destruct (split sep r); discriminate.
Qed.

(** Lower-casing commutes with cutting at slashes. *)
Lemma split_lower (s : string) :
  split "/" (lower s) = map lower (split "/" s).
Proof.
  induction s as [|c r IH]; [reflexivity|].
  cbn [lower split]. rewrite ascii_lower_slash, IH.
  destruct (Ascii.eqb c "/"); [reflexivity|].
  pose proof (split_nonempty "/" r) as Hne.
  destruct (split "/" r) as [|w ws]; [congruence|]. reflexivity.
Qed.

Lemma second_segment_lower (s : string) :
  nth_error (split "/" (lower s)) 1 = option_map lower (nth_error (split "/" s) 1).
Proof.
  rewrite split_lower. apply nth_error_map.
Qed.

(** An identifier with a slash has a second segment. *)
Lemma split_with_slash (s : string) :
  contains "/" s = true -> exists seg, nth_error (split "/" s) 1 = Some seg.
Proof.
  induction s as [|c r IH]; [discriminate|].
  cbn [contains starts_with split].
  rewrite (Ascii.eqb_sym "/" c), andb_true_r.
  destruct (Ascii.eqb c "/") eqn:E.
  - intros _. pose proof (split_nonempty "/" r) as Hne.
    destruct (split "/" r) as [|w ws]; [congruence|]. exists w. reflexivity.
  - intros H. destruct (IH H) as (seg & Hseg).
    destruct (split "/" r) as [|w ws]; [discriminate Hseg|].
    exists seg. exact Hseg.
Qed.

End DispatcherCase.

(** Resolution of a model identifier raises [IndexError] exactly when the
    identifier has no slash.  With a slash it returns a handler in its initial
    state for that identifier, or raises the [ValueError] that names the
    identifier as unsupported; and an identifier that contains "claude" in
    any letter case resolves to the Claude handler whatever else it names. *)
Theorem resolution_with_and_without_slash (id : string) :
  (contains "/" id = false <->
   Bedrock.get_handler_for_model id = Raise (IndexError "list index out of range"))
  /\ (contains "/" id = true ->
      (exists k, Bedrock.get_handler_for_model id = Ok (Bedrock.new_handler k id))
      \/ Bedrock.get_handler_for_model id
         = Raise (ValueError ("Unsupported model type: " ++ id)))
  /\ (contains "/" id = true -> contains "claude" (lower id) = true ->
      Bedrock.get_handler_for_model id = Ok (Bedrock.new_handler Bedrock.Claude id)).
Proof.
  assert (Hwith : contains "/" id = true ->
                  exists seg, Bedrock.get_handler_for_model id =
                    let p := lower seg in
                    if contains "anthropic" p || contains "claude" (lower id)
                    then Ok (Bedrock.new_handler Bedrock.Claude id)
                    else if contains "mistral" p
                    then Ok (Bedrock.new_handler Bedrock.Mistral id)
                    else if contains "meta" p || contains "llama" (lower id)
                    then Ok (Bedrock.new_handler Bedrock.Llama id)
                    else if contains "amazon" p || contains "nova" (lower id)
                    then Ok (Bedrock.new_handler Bedrock.Nova id)
                    else Raise (ValueError ("Unsupported model type: " ++ id))).
  { intros H. destruct (split_with_slash id H) as (seg & Hseg).
    exists seg. apply get_handler_with_segment. exact Hseg. }
  split; [|split].
  - split; [apply get_handler_no_slash|].
    intros Hr. destruct (contains "/" id) eqn:E; [|reflexivity].
    destruct (Hwith eq_refl) as (seg & Hg). rewrite Hg in Hr. cbv zeta in Hr.
    repeat match type of Hr with
           | (if ?b then _ else _) = _ => destruct b
           end; discriminate Hr.
  - intros H. destruct (Hwith H) as (seg & Hg). rewrite Hg. cbv zeta.
    repeat match goal with
           | |- context [if ?b then _ else _] => destruct b
           end; eauto.
  - intros H Hc. destruct (Hwith H) as (seg & Hg). rewrite Hg. cbv zeta.
    rewrite Hc, orb_true_r. reflexivity.
Qed.

(** Resolution ignores letter case: two identifiers that differ only in the
    case of their letters resolve to handlers of the same family, or both
    fail, with the same kind of exception. *)
Theorem resolution_ignores_case (id id' : string) :
  lower id = lower id' ->
  match Bedrock.get_handler_for_model id, Bedrock.get_handler_for_model id' with
  | Ok h, Ok h' => Bedrock.kind h = Bedrock.kind h'
  | Raise (IndexError _), Raise (IndexError _) => True
  | Raise (ValueError _), Raise (ValueError _) => True
  | _, _ => False
  end.
Proof.
  intros Hl.
  pose proof (second_segment_lower id) as S1.
  pose proof (second_segment_lower id') as S2.
  rewrite Hl in S1. rewrite S1 in S2.
  unfold Bedrock.get_handler_for_model, index. rewrite Hl.
  destruct (nth_error (split "/" id) 1) as [seg|],
           (nth_error (split "/" id') 1) as [seg'|];
    cbn [option_map] in S2; try discriminate S2; cbn [bind]; [|exact I].
  injection S2 as ->.
  repeat match goal with
         | |- context [if ?b then _ else _] => destruct b
         end; cbn [Bedrock.kind Bedrock.new_handler]; auto.
Qed.

Lemma resolution_ignores_case_witness :
  match Bedrock.get_handler_for_model "profile/EU.Meta.LLAMA3-2-90b",
        Bedrock.get_handler_for_model "PROFILE/eu.meta.llama3-2-90B" with
  | Ok h, Ok h' => Bedrock.kind h = Bedrock.kind h'
  | Raise (IndexError _), Raise (IndexError _) => True
  | Raise (ValueError _), Raise (ValueError _) => True
  | _, _ => False
  end.
Proof.
  apply (resolution_ignores_case "profile/EU.Meta.LLAMA3-2-90b"
                                 "PROFILE/eu.meta.llama3-2-90B").
  reflexivity.
Defined.

(* ------------------------------------------------------------------ *)
(** ** The orchestrator: the shape of what a frame returns *)

Section DictFacts.

Lemma dict_get_set_same (k : string) (v : json) (d : dict) :
  dict_get k (dict_set k v d) = Some v.
Proof.
  induction d as [|[k' v'] d IH]; cbn [dict_set dict_get].
  - rewrite String.eqb_refl. reflexivity.
  - destruct (String.eqb k k') eqn:E; cbn [dict_get]; rewrite E; [reflexivity | exact IH].
Qed.

Lemma dict_get_set_other (k k' : string) (v : json) (d : dict) :
  String.eqb k' k = false ->
  dict_get k' (dict_set k v d) = dict_get k' d.
Proof.
  intros Hne. induction d as [|[k0 v0] d IH]; cbn [dict_set dict_get].
  - rewrite Hne. reflexivity.
  - destruct (String.eqb k k0) eqn:E; cbn [dict_get].
    + apply String.eqb_eq in E. subst k0. rewrite Hne. reflexivity.
    + destruct (String.eqb k' k0); [reflexivity | exact IH].
Qed.

Lemma dict_has_set_same (k : string) (v : json) (d : dict) :
  dict_has k (dict_set k v d) = true.
Proof. unfold dict_has. rewrite dict_get_set_same. reflexivity. Qed.

Lemma dict_has_set_other (k k' : string) (v : json) (d : dict) :
  String.eqb k' k = false ->
  dict_has k' (dict_set k v d) = dict_has k' d.
Proof. intros H. unfold dict_has. rewrite dict_get_set_other by exact H. reflexivity. Qed.

End DictFacts.

(** Reads through the updates of a dict. *)
Ltac dict_simpl :=
  repeat first [ rewrite dict_get_set_same
               | rewrite dict_get_set_other by (reflexivity || assumption) ].

Section FrameShape.
Import Agent.

(** A value that carries both axes: the keys of a dict, or the two names
    found in a string or a list, for which [in] also answers [True]. *)
Lemma fill_missing_dict (d : dict) :
  exists d',
    fill_missing (JObj d) = Ok (JObj d')
    /\ dict_get "steering_angle" d'
       = Some (match dict_get "steering_angle" d with Some x => x | None => JFloat 0 end)
    /\ dict_get "speed" d'
       = Some (match dict_get "speed" d with Some x => x | None => JFloat 1 end)
    /\ (dict_has "steering_angle" d && dict_has "speed" d = true -> d' = d)
    /\ (dict_has "steering_angle" d && dict_has "speed" d = false ->
        dict_get "fallback" d' = Some (JBool true)
        /\ dict_get "error" d' = Some (JStr "Missing required parameters in response"))
    /\ (forall k, String.eqb k "steering_angle" = false -> String.eqb k "speed" = false ->
                  String.eqb k "fallback" = false -> String.eqb k "error" = false ->
                  dict_get k d' = dict_get k d).
Proof.
  unfold fill_missing. cbn [py_in bind]. unfold dict_has.
  destruct (dict_get "steering_angle" d) as [x|] eqn:Hs;
    [destruct (dict_get "speed" d) as [y|] eqn:Hv|]; cbn [andb bind py_in setitem].
  - exists d. repeat split; auto; discriminate.
  - unfold dict_has. rewrite Hv. cbn [bind setitem].
    eexists. split; [reflexivity|].
    repeat split; try discriminate; intros; dict_simpl; auto.
  - unfold dict_has. rewrite dict_get_set_other by reflexivity.
    destruct (dict_get "speed" d) as [y|] eqn:Hv; cbn [bind setitem];
      (eexists; split; [reflexivity|]);
      repeat split; try discriminate; intros; dict_simpl; auto.
Qed.

End FrameShape.

Section FrameResult.
Import Agent.

Variable json_dumps : json -> string.
Variable mistral_process :
  Bedrock.handler -> json -> string -> Bedrock.round_trip -> Bedrock.stepped json.
Variable float_of_str : string -> option R.

Lemma dict_get_has (k : string) (d : dict) (x : json) :
  dict_get k d = Some x -> dict_has k d = true.
Proof. intros H. unfold dict_has. rewrite H. reflexivity. Qed.

(** What passes the check of the parsed action has both names in it, and is
    a dict unless it passed unchanged. *)
Lemma fill_missing_shape (action r : json) :
  fill_missing action = Ok r ->
  py_in "steering_angle" r = Ok true /\ py_in "speed" r = Ok true
  /\ (r = action \/ exists d, r = JObj d).
Proof.
  destruct action as [| | | |s|l|d];
    try (intros H; discriminate H).
  - unfold fill_missing. cbn [py_in bind].
    destruct (contains "steering_angle" s) eqn:E1;
      [destruct (contains "speed" s) eqn:E2|]; cbn [andb bind setitem py_in].
    + intros H. injection H as <-. cbn [py_in]. rewrite E1, E2. auto.
    + rewrite E2. intros H; discriminate H.
    + intros H; discriminate H.
  - unfold fill_missing. cbn [py_in bind].
    destruct (existsb (fun x => eq_str x "steering_angle") l) eqn:E1;
      [destruct (existsb (fun x => eq_str x "speed") l) eqn:E2|];
      cbn [andb bind setitem py_in].
    + intros H. injection H as <-. cbn [py_in]. rewrite E1, E2. auto.
    + rewrite E2. intros H; discriminate H.
    + intros H; discriminate H.
  - destruct (fill_missing_dict d) as (d' & Hf & Hs & Hv & _).
    rewrite Hf. intros H. injection H as <-. cbn [py_in].
    rewrite (dict_get_has _ _ _ Hs), (dict_get_has _ _ _ Hv). eauto.
Qed.

Lemma preserve_fields_has (k : string) (fields n : dict) :
  dict_has k n = true -> dict_has k (preserve_fields fields n) = true.
Proof.
  unfold preserve_fields. revert n.
  induction fields as [|[k0 v0] rest IH]; intros n H; cbn [fold_left fst snd]; [exact H|].
  apply IH.
  destruct (negb (dict_has k0 n) && negb (is_axis k0)); [|exact H].
  destruct (String.eqb k k0) eqn:E.
  - apply String.eqb_eq in E. subst k0. apply dict_has_set_same.
  - rewrite dict_has_set_other by exact E. exact H.
Qed.

Lemma getitem_ok_dict (e : json) (k : string) (a : json) :
  getitem e k = Ok a -> exists d, e = JObj d /\ dict_get k d = Some a.
Proof.
  destruct e as [| | | | | |d]; cbn [getitem]; try (intros H; discriminate H).
  destruct (dict_get k d) as [x|] eqn:E; intros H; [|discriminate H].
  injection H as <-. eauto.
Qed.

(** Whatever [normalize_action] returns is a dict with both axes. *)
Lemma normalize_action_axes (md : json) (s v : R) (n : normalized) :
  normalize_action md s v = Ok n ->
  exists d, action_of n = JObj d
            /\ dict_has "steering_angle" d = true /\ dict_has "speed" d = true.
Proof.
  unfold normalize_action. destruct (negb (truth md)); [intros H; discriminate H|].
  destruct (get_action_space_type md) as [t|]; [|intros H; discriminate H].
  cbn [bind]. destruct t; cbn [is_continuous].
  - (* discrete *)
    intros H. bind_inv H. bind_inv H. bind_inv H.
    unfold find_closest_discrete_action in H.
    destruct (negb (truth md)); [discriminate H|].
    destruct (get_action_space_type md) as [t|]; [|discriminate H].
    cbn [bind] in H.
    destruct (negb (is_discrete t)); [discriminate H|].
    match goal with
    | Hs : getitem md "action_space" = Ok ?sp |- _ => rewrite Hs in H; cbn [bind] in H
    end.
    destruct (getitem0 x) as [first|] eqn:Hfirst; [|discriminate H]. cbn [bind] in H.
    match goal with
    | Hi : iter x = Ok ?l |- _ => rewrite Hi in H; cbn [bind] in H; rename Hi into Hiter
    end.
    destruct (closest_loop s v x0 0 (0%nat, first) None) as [[j e]|] eqn:Hloop;
      [|discriminate H].
    cbn [bind] in H.
    destruct (negb (truth e)); [discriminate H|]. injection H as <-.
    cbn [action_of].
    destruct (closest_loop_returns_entry s v x0 _ _ _ _ Hloop) as [Hwhere Hall].
    assert (Hin : In e x0).
    { destruct Hwhere as [E|Hin]; [|exact Hin].
      injection E as _ ->.
      destruct x as [| | | |str|l|d]; try discriminate Hfirst.
      - cbn [iter] in Hiter. injection Hiter as <-.
        destruct str as [|c r]; [discriminate Hfirst|].
        cbn [getitem0] in Hfirst. injection Hfirst as <-. left. reflexivity.
      - cbn [iter] in Hiter. injection Hiter as <-.
        unfold getitem0, index in Hfirst.
        destruct l as [|e0 l']; [discriminate Hfirst|].
        cbn [nth_error] in Hfirst. injection Hfirst as <-. left. reflexivity. }
    rewrite Forall_forall in Hall. destruct (Hall e Hin) as (a & b & Ha & Hb).
    destruct (getitem_ok_dict e _ a Ha) as (d & -> & Hda).
    destruct (getitem_ok_dict _ _ b Hb) as (d' & Ed & Hdb). injection Ed as <-.
    exists d. split; [reflexivity|].
    split; eapply dict_get_has; eassumption.
  - (* continuous *)
    intros H. repeat bind_inv H. injection H as <-. cbn [action_of].
    eexists. split; [reflexivity|]. split; reflexivity.
Qed.

Lemma normalize_attempt_shape (md action r md' : json) :
  normalize_attempt float_of_str md action = Ok (r, md') ->
  exists d, r = JObj d
            /\ dict_has "steering_angle" d = true /\ dict_has "speed" d = true.
Proof.
  unfold normalize_attempt. intros H. repeat bind_inv H.
  match goal with
  | Hn : normalize_action _ _ _ = Ok ?n |- _ =>
      destruct (normalize_action_axes _ _ _ _ Hn) as (d & Hd & Hs & Hv);
      destruct n as [a0|i a0]; cbn [action_of] in Hd; subst a0
  end; injection H as <- _;
    (eexists; split; [reflexivity|]; split; apply preserve_fields_has; assumption).
Qed.

End FrameResult.

(** Whatever the files, the reply or the failure, the value [process_image]
    returns has the names of both axes in it, in the sense of the test
    ['steering_angle' in action and 'speed' in action] of the source. *)
Theorem process_image_result_names_both_axes
    (json_dumps : json -> string)
    (mistral_process :
       Bedrock.handler -> json -> string -> Bedrock.round_trip -> Bedrock.stepped json)
    (float_of_str : string -> option R)
    (a : Agent.agent) (fs : file_system) (image_path : string)
    (rt : Bedrock.round_trip) :
  let r := fst (Agent.process_image json_dumps mistral_process float_of_str
                  a fs image_path rt) in
  py_in "steering_angle" r = Ok true /\ py_in "speed" r = Ok true.
Proof.
  cbv zeta. unfold Agent.process_image.
  destruct (Agent.prepare_frame _ fs image_path) as [[[b64 prompt] md]|];
    [|split; reflexivity].
  destruct (Bedrock.process json_dumps mistral_process _ prompt b64 None rt) as [r s].
  destruct (action <- r ;; Agent.fill_missing action) as [action|e] eqn:Hf;
    [|split; reflexivity].
  apply bind_ok in Hf. destruct Hf as (act0 & _ & Hf).
  destruct (fill_missing_shape act0 action Hf) as (Hs & Hv & _).
  unfold Agent._normalize_action.
  destruct (Agent.normalize_attempt float_of_str _ action) as [[r' md']|e] eqn:Hn;
    cbn [fst]; [|auto].
  destruct (normalize_attempt_shape float_of_str _ _ _ _ Hn) as (d & -> & Ds & Dv).
  cbn [py_in]. rewrite Ds, Dv. auto.
Qed.

Section ParsingFacts.

Lemma extract_failure_message (content model_name : string) (e : exn) :
  extract_json_from_llm_response content model_name = Raise e ->
  e = ValueError ("No valid JSON found in " ++ model_name ++ " response").
Proof.
  unfold extract_json_from_llm_response, extract_attempt.
  destruct (search json_pattern content) as [m|].
  - destruct (group1_or_group2 m) as [g|].
    + destruct (json_loads (strip g)) as [v|e0] eqn:E; [discriminate|].
      destruct (json_loads_raises _ _ E) as (msg & ->).
      intros H. injection H as <-. reflexivity.
    + intros H. injection H as <-. reflexivity.
  - destruct (json_loads (strip content)) as [v|e0] eqn:E; [discriminate|].
    destruct (json_loads_raises _ _ E) as (msg & ->).
    intros H. injection H as <-. reflexivity.
Qed.

End ParsingFacts.


Section NormalisedFrames.
Import Agent ActionSpace.

Variable json_dumps : json -> string.
Variable mistral_process :
  Bedrock.handler -> json -> string -> Bedrock.round_trip -> Bedrock.stepped json.
Variable float_of_str : string -> option R.

(** What the copying loop leaves under a key: the value the normalised dict
    had, else the value of the action unless the key is one of the axes. *)
Lemma preserve_fields_get (k : string) (fields n : dict) :
  dict_get k (preserve_fields fields n)
  = match dict_get k n with
    | Some x => Some x
    | None => if is_axis k then None else dict_get k fields
    end.
Proof.
  unfold preserve_fields. revert n.
  induction fields as [|[k0 v0] rest IH]; intros n; cbn [fold_left fst snd].
  - destruct (dict_get k n); [reflexivity|]. destruct (is_axis k); reflexivity.
  - rewrite IH. cbn [dict_get].
    destruct (String.eqb k k0) eqn:E.
    + apply String.eqb_eq in E. subst k0. unfold dict_has.
      destruct (dict_get k n) as [x|] eqn:Hn; cbn [negb andb]; [rewrite Hn; reflexivity|].
      destruct (is_axis k) eqn:Hax; cbn [negb].
      * rewrite Hn. reflexivity.
      * rewrite dict_get_set_same. reflexivity.
    + destruct (negb (dict_has k0 n) && negb (is_axis k0)); [|reflexivity].
      rewrite dict_get_set_other by exact E. reflexivity.
Qed.

Lemma process_image_normalised
    (a : agent) (fs : file_system) (image_path b64 : string)
    (prompt md action : json) (rt : Bedrock.round_trip) (s : Bedrock.service)
    (r md' : json) :
  let a1 := with_image_count a (image_count a + 1) in
  prepare_frame a1 fs image_path = Ok (b64, prompt, md) ->
  Bedrock.process json_dumps mistral_process (bedrock_service a1)
                  prompt b64 None rt = (Ok action, s) ->
  py_in "steering_angle" action = Ok true ->
  py_in "speed" action = Ok true ->
  normalize_attempt float_of_str md action = Ok (r, md') ->
  process_image json_dumps mistral_process float_of_str a fs image_path rt
    = (r, with_metadata (with_service (with_metadata a1 md) s) md').
Proof.
  intros a1 Hprep Hproc Hsteer Hspeed Hnorm.
  unfold process_image. fold a1. rewrite Hprep.
  cbn [with_metadata bedrock_service metadata].
  rewrite Hproc. cbn [bind with_service metadata].
  unfold fill_missing. rewrite Hsteer. cbn [bind]. rewrite Hspeed.
  cbn [bind andb metadata with_metadata].
  unfold _normalize_action. rewrite Hnorm. reflexivity.
Qed.

End NormalisedFrames.

(** [float(n)] of an integer below [2^53] in absolute value is the integer
    itself. *)
Lemma py_float_small_int (float_of_str : string -> option R) (n : Z) :
  (Z.abs n < 2 ^ 53)%Z -> Agent.py_float float_of_str (JInt n) = Ok (IZR n).
Proof.
  intros H. unfold Agent.py_float. rewrite round64_int by exact H. reflexivity.
Qed.

(** A frame on a validated continuous space, when the reply is an object
    whose two axes convert to numbers: [process_image] returns a new dict
    whose steering angle and speed are the reply's values clamped to the
    declared bounds, with every other field of the reply copied as it is, and
    the metadata is left as it was. *)
Theorem continuous_frame_is_clamped
    (json_dumps : json -> string)
    (mistral_process :
       Bedrock.handler -> json -> string -> Bedrock.round_trip -> Bedrock.stepped json)
    (float_of_str : string -> option R)
    (a : Agent.agent) (fs : file_system) (image_path b64 : string)
    (prompt md : json) (rt : Bedrock.round_trip) (s : Bedrock.service)
    (d : dict) (x y : json) (sx sv : R) :
  let a1 := Agent.with_image_count a (Agent.image_count a + 1) in
  Agent.prepare_frame a1 fs image_path = Ok (b64, prompt, md) ->
  _validate_metadata md = Ok tt ->
  get_action_space_type md = Ok CONTINUOUS ->
  Bedrock.process json_dumps mistral_process (Agent.bedrock_service a1)
                  prompt b64 None rt = (Ok (JObj d), s) ->
  dict_get "steering_angle" d = Some x -> Agent.py_float float_of_str x = Ok sx ->
  dict_get "speed" d = Some y -> Agent.py_float float_of_str y = Ok sv ->
  exists l1 h1 l2 h2 d' ja jb,
    ActionSpace.declared_range md "steering_angle" l1 h1
    /\ ActionSpace.declared_range md "speed" l2 h2
    /\ Agent.process_image json_dumps mistral_process float_of_str a fs image_path rt
       = (JObj d', Agent.with_service (Agent.with_metadata a1 md) s)
    /\ dict_get "steering_angle" d' = Some ja
    /\ num_value ja = Some (Rmax l1 (Rmin h1 sx))
    /\ dict_get "speed" d' = Some jb
    /\ num_value jb = Some (Rmax l2 (Rmin h2 sv))
    /\ (forall k, Agent.is_axis k = false -> dict_get k d' = dict_get k d).
Proof.
  intros a1 Hprep Hv Ht Hproc Hx Hsx Hy Hsv.
  destruct (normalize_continuous_spec md sx sv Hv Ht)
    as (l1 & h1 & l2 & h2 & ja & jb & R1 & _ & R2 & _ & Hn & Na & Nb).
  exists l1, h1, l2, h2,
    (Agent.preserve_fields d [("steering_angle", ja); ("speed", jb)]), ja, jb.
  split; [exact R1|]. split; [exact R2|].
  assert (Hnorm : Agent.normalize_attempt float_of_str md (JObj d)
                  = Ok (JObj (Agent.preserve_fields d [("steering_angle", ja); ("speed", jb)]),
                        md)).
  { unfold Agent.normalize_attempt. cbn [get bind]. rewrite Hx, Hsx. cbn [bind].
    rewrite Hy, Hsv. cbn [bind]. rewrite Hn. reflexivity. }
  assert (Hin1 : py_in "steering_angle" (JObj d) = Ok true).
  { cbn [py_in]. unfold dict_has. rewrite Hx. reflexivity. }
  assert (Hin2 : py_in "speed" (JObj d) = Ok true).
  { cbn [py_in]. unfold dict_has. rewrite Hy. reflexivity. }
  split.
  { rewrite (process_image_normalised json_dumps mistral_process float_of_str
               a fs image_path b64 prompt md (JObj d) rt s _ _
               Hprep Hproc Hin1 Hin2 Hnorm).
    reflexivity. }
  split; [rewrite preserve_fields_get; reflexivity|]. split; [exact Na|].
  split; [rewrite preserve_fields_get; reflexivity|]. split; [exact Nb|].
  intros k Hk. rewrite preserve_fields_get.
  unfold Agent.is_axis in Hk. apply orb_false_elim in Hk. destruct Hk as [K1 K2].
  cbn [dict_get]. rewrite K1, K2. unfold Agent.is_axis. rewrite K1, K2. reflexivity.
Qed.

Lemma continuous_frame_is_clamped_witness :
  exists l1 h1 l2 h2 d' ja jb,
    ActionSpace.declared_range MoreSamples.continuous_llm_metadata "steering_angle" l1 h1
    /\ ActionSpace.declared_range MoreSamples.continuous_llm_metadata "speed" l2 h2
    /\ Agent.process_image Samples.dumps_stub Samples.mistral_stub Samples.float_stub
         MoreSamples.continuous_agent Samples.files "frame_1.jpg"
         (Ok (Samples.claude_body MoreSamples.wide_reply))
       = (JObj d',
          Agent.with_service
            (Agent.with_metadata
               (Agent.with_image_count MoreSamples.continuous_agent
                  (Agent.image_count MoreSamples.continuous_agent + 1))
               MoreSamples.continuous_llm_metadata)
            (Agent.bedrock_service MoreSamples.continuous_agent))
    /\ dict_get "steering_angle" d' = Some ja
    /\ num_value ja = Some (Rmax l1 (Rmin h1 45))
    /\ dict_get "speed" d' = Some jb
    /\ num_value jb = Some (Rmax l2 (Rmin h2 2))
    /\ (forall k, Agent.is_axis k = false ->
          dict_get k d'
          = dict_get k [("steering_angle", JInt 45); ("speed", JInt 2);
                        ("reason", JStr "sharp turn")]).
Proof.
  apply (continuous_frame_is_clamped Samples.dumps_stub Samples.mistral_stub
           Samples.float_stub MoreSamples.continuous_agent Samples.files
           "frame_1.jpg" "SkZJRg==" (JStr "Next image.")
           MoreSamples.continuous_llm_metadata
           (Ok (Samples.claude_body MoreSamples.wide_reply))
           (Agent.bedrock_service MoreSamples.continuous_agent)
           [("steering_angle", JInt 45); ("speed", JInt 2); ("reason", JStr "sharp turn")]
           (JInt 45) (JInt 2) 45 2).
  - reflexivity.
  - unfold MoreSamples.continuous_llm_metadata. cbn.
    destruct (Rlt_dec 1 4) as [_|N]; [|exfalso; apply N; lra]. cbn.
    destruct (Rlt_dec (-30) 30) as [_|N]; [|exfalso; apply N; lra].
    reflexivity.
  - reflexivity.
  - reflexivity.
  - reflexivity.
  - apply py_float_small_int. reflexivity.
  - reflexivity.
  - apply py_float_small_int. reflexivity.
Defined.



(** Every call of [process_image] advances the frame counter by one, on the
    paths that fail as on the one that returns an action, and leaves the
    model identifier and the context bound of the agent as they were. *)
Theorem process_image_counts_every_frame
    (json_dumps : json -> string)
    (mistral_process :
       Bedrock.handler -> json -> string -> Bedrock.round_trip -> Bedrock.stepped json)
    (float_of_str : string -> option R)
    (a : Agent.agent) (fs : file_system) (image_path : string)
    (rt : Bedrock.round_trip) :
  let a' := snd (Agent.process_image json_dumps mistral_process float_of_str
                   a fs image_path rt) in
  Agent.image_count a' = (Agent.image_count a + 1)%Z
  /\ Agent.model_id a' = Agent.model_id a
  /\ Agent.max_context_messages a' = Agent.max_context_messages a.
Proof.
  cbv zeta. unfold Agent.process_image.
  destruct (Agent.prepare_frame _ fs image_path) as [[[b64 prompt] md]|];
    [|repeat split].
  destruct (Bedrock.process json_dumps mistral_process _ prompt b64 None rt) as [r s].
  destruct (action <- r ;; Agent.fill_missing action) as [action|e];
    [|repeat split].
  destruct (Agent._normalize_action float_of_str _ action) as [r' md'].
  repeat split.
Qed.

(** A reply that decodes to something other than an object and has the names
    of both axes in it, a JSON string or a list of strings, passes the check
    of the two fields; its normalisation raises, and [process_image] returns
    the decoded value itself, which is no dict. *)
Theorem reply_that_is_no_object_is_returned
    (json_dumps : json -> string)
    (mistral_process :
       Bedrock.handler -> json -> string -> Bedrock.round_trip -> Bedrock.stepped json)
    (float_of_str : string -> option R)
    (a : Agent.agent) (fs : file_system) (image_path b64 : string)
    (prompt md action : json) (rt : Bedrock.round_trip) (s : Bedrock.service) :
  let a1 := Agent.with_image_count a (Agent.image_count a + 1) in
  Agent.prepare_frame a1 fs image_path = Ok (b64, prompt, md) ->
  Bedrock.process json_dumps mistral_process (Agent.bedrock_service a1)
                  prompt b64 None rt = (Ok action, s) ->
  (forall d, action <> JObj d) ->
  py_in "steering_angle" action = Ok true ->
  py_in "speed" action = Ok true ->
  fst (Agent.process_image json_dumps mistral_process float_of_str a fs image_path rt)
    = action
  /\ getitem action "steering_angle"
     = Raise (TypeError "indices must be integers").
Proof.
  intros a1 Hprep Hproc Hno Hsteer Hspeed.
  assert (Hnorm : exists e, Agent.normalize_attempt float_of_str md action = Raise e).
  { unfold Agent.normalize_attempt.
    destruct action as [| | | | | |d]; cbn [get bind]; eauto.
    exfalso. apply (Hno d). reflexivity. }
  destruct Hnorm as (e & Hnorm).
  split.
  - unfold Agent.process_image. fold a1. rewrite Hprep.
    cbn [Agent.with_metadata Agent.bedrock_service Agent.metadata].
    rewrite Hproc. cbn [bind Agent.with_service Agent.metadata].
    unfold Agent.fill_missing. rewrite Hsteer. cbn [bind]. rewrite Hspeed.
    cbn [bind andb Agent.metadata Agent.with_metadata].
    unfold Agent._normalize_action. rewrite Hnorm. reflexivity.
  - destruct action as [| | | | | |d]; try discriminate Hsteer; try reflexivity.
    exfalso. apply (Hno d). reflexivity.
Qed.

Lemma reply_that_is_no_object_is_returned_witness :
  fst (Agent.process_image Samples.dumps_stub Samples.mistral_stub Samples.float_stub
         Samples.claude_agent Samples.files "frame_1.jpg"
         (Ok (Samples.claude_body MoreSamples.string_reply)))
    = JStr "steering_angle and speed"
  /\ getitem (JStr "steering_angle and speed") "steering_angle"
     = Raise (TypeError "indices must be integers").
Proof.
  apply (reply_that_is_no_object_is_returned
           Samples.dumps_stub Samples.mistral_stub Samples.float_stub
           Samples.claude_agent Samples.files "frame_1.jpg" "SkZJRg=="
           (JStr "Next image.") Samples.discrete_metadata
           (JStr "steering_angle and speed")
           (Ok (Samples.claude_body MoreSamples.string_reply))
           (snd (Bedrock.process Samples.dumps_stub Samples.mistral_stub
                   (Agent.bedrock_service Samples.claude_agent)
                   (JStr "Next image.") "SkZJRg==" None
                   (Ok (Samples.claude_body MoreSamples.string_reply))))).
  - reflexivity.
  - reflexivity.
  - intros d H; discriminate H.
  - reflexivity.
  - reflexivity.
Defined.

(* ------------------------------------------------------------------ *)
(** ** What validation guarantees about the LLM configuration *)

Section ConfigFacts.

Lemma validate_llm_config_inv (llm_config : json) :
  validate_llm_config llm_config = Ok tt ->
  exists cfg mt sp w n,
    llm_config = JObj cfg
    /\ dict_has "model_id" cfg = true
    /\ dict_get "max_tokens" cfg = Some mt /\ is_int mt = true
    /\ dict_get "system_prompt" cfg = Some sp /\ is_str sp || is_list sp = true
    /\ dict_get "context_window" cfg = Some w
    /\ int_value w = Some n /\ (0 <= n)%Z.
Proof.
  unfold validate_llm_config. intros H.
  destruct llm_config as [| | | | | |cfg];
    try (bind_inv H; bind_inv H; bind_inv H;
         match goal with
         | Hg : get_none _ "max_tokens" = Ok _ |- _ => discriminate Hg
         end);
    try discriminate H.
  cbn [py_in get_none get bind] in H.
  destruct (dict_has "model_id" cfg) eqn:Hid; [|discriminate H].
  cbn [negb raise_if bind] in H.
  destruct (dict_get "max_tokens" cfg) as [mt|] eqn:Emt; [|discriminate H].
  destruct (is_int mt) eqn:Imt; [|discriminate H].
  cbn [negb raise_if bind] in H.
  destruct (dict_get "system_prompt" cfg) as [sp|] eqn:Esp; [|discriminate H].
  destruct (is_str sp || is_list sp) eqn:Isp; [|discriminate H].
  cbn [negb raise_if bind] in H.
  destruct (dict_get "context_window" cfg) as [w|] eqn:Ew; [|discriminate H].
  destruct (is_int w) eqn:Iw; [|discriminate H].
  cbn [negb] in H.
  destruct (int_value w) as [n|] eqn:En; [|discriminate H].
  apply raise_if_ok in H. apply Z.ltb_ge in H.
  exists cfg, mt, sp, w, n. repeat split; auto.
Qed.

(** The checks of [_validate_metadata] that come before the action space. *)
Lemma validate_metadata_head (md : json) :
  _validate_metadata md = Ok tt ->
  exists d sensor nn,
    md = JObj d
    /\ dict_has "action_space" d = true
    /\ dict_get "sensor" d = Some sensor /\ is_list sensor = true
    /\ dict_get "neural_network" d = Some nn
    /\ (if eq_str nn LLM
        then exists cfg, dict_get "llm_config" d = Some cfg
                         /\ validate_llm_config cfg = Ok tt
        else dict_has "training_algorithm" d = true).
Proof.
  intros H.
  destruct (validate_metadata_space md H) as (Htruth & _ & space & _ & Hs & _).
  destruct (getitem_ok_dict md _ _ Hs) as (d & -> & _).
  unfold _validate_metadata in H. rewrite Htruth in H. cbn [negb] in H.
  cbn [py_in getitem bind] in H. unfold dict_has in *.
  destruct (dict_get "action_space" d) as [sp|] eqn:Esp; [|discriminate H].
  cbn [negb raise_if bind] in H.
  destruct (dict_get "sensor" d) as [sensor|] eqn:Ese; [|discriminate H].
  cbn [bind] in H.
  destruct (is_list sensor) eqn:Ils; [|discriminate H].
  cbn [negb raise_if bind] in H.
  destruct (dict_get "neural_network" d) as [nn|] eqn:Enn; [|discriminate H].
  cbn [negb raise_if bind] in H.
  exists d, sensor, nn.
  split; [reflexivity|].
  split; [first [reflexivity | rewrite Esp; reflexivity]|].
  split; [first [reflexivity | exact Ese]|]. split; [exact Ils|].
  split; [first [reflexivity | exact Enn]|].
  destruct (eq_str nn LLM).
  - destruct (dict_get "llm_config" d) as [cfg|] eqn:Ecfg; [|discriminate H].
    cbn [negb raise_if bind] in H.
    exists cfg. split; [first [reflexivity | exact Ecfg]|].
    destruct (validate_llm_config cfg) as [[]|]; [reflexivity | discriminate H].
  - destruct (dict_get "training_algorithm" d) eqn:Eta; [|discriminate H].
    first [reflexivity | rewrite Eta; reflexivity].
Qed.

End ConfigFacts.

(** On validated metadata [is_llm_model] never raises.  When it answers
    [True], [get_llm_config] returns the configuration, a dict with a
    [model_id], an integer [max_tokens], a [system_prompt] that is a string
    or a list, and an integer [context_window] that is not negative.  When it
    answers [False], [get_llm_config] returns [None] and the metadata names a
    training algorithm.  In both cases the sensors are a list. *)
Theorem validated_metadata_configuration (md : json) :
  _validate_metadata md = Ok tt ->
  exists llm sensor,
    is_llm_model md = Ok llm
    /\ getitem md "sensor" = Ok sensor /\ is_list sensor = true
    /\ if llm then
         exists cfg mt sp w n,
           get_llm_config md = Ok (JObj cfg)
           /\ dict_has "model_id" cfg = true
           /\ dict_get "max_tokens" cfg = Some mt /\ is_int mt = true
           /\ dict_get "system_prompt" cfg = Some sp /\ is_str sp || is_list sp = true
           /\ dict_get "context_window" cfg = Some w
           /\ int_value w = Some n /\ (0 <= n)%Z
       else
         get_llm_config md = Ok JNull
         /\ py_in "training_algorithm" md = Ok true.
Proof.
  intros Hv.
  destruct (validate_metadata_space md Hv) as (Htruth & _).
  destruct (validate_metadata_head md Hv) as (d & sensor & nn & -> & _ & Hse & Hls & Hnn & Hk).
  exists (eq_str nn LLM), sensor.
  unfold is_llm_model, get_llm_config, is_llm_model. rewrite Htruth.
  cbn [negb getitem bind get_none get py_in]. rewrite Hnn, Hse. cbn [bind].
  split; [reflexivity|]. split; [reflexivity|]. split; [exact Hls|].
  destruct (eq_str nn LLM); cbn [negb].
  - destruct Hk as (cfg & Hcfg & Hvc).
    destruct (validate_llm_config_inv cfg Hvc)
      as (c & mt & sp & w & n & -> & Hrest).
    exists c, mt, sp, w, n. rewrite Hcfg. split; [reflexivity | exact Hrest].
  - split; [reflexivity|]. rewrite Hk. reflexivity.
Qed.

Lemma validated_metadata_configuration_witness :
  exists llm sensor,
    is_llm_model Samples.discrete_metadata = Ok llm
    /\ getitem Samples.discrete_metadata "sensor" = Ok sensor /\ is_list sensor = true
    /\ if llm then
         exists cfg mt sp w n,
           get_llm_config Samples.discrete_metadata = Ok (JObj cfg)
           /\ dict_has "model_id" cfg = true
           /\ dict_get "max_tokens" cfg = Some mt /\ is_int mt = true
           /\ dict_get "system_prompt" cfg = Some sp /\ is_str sp || is_list sp = true
           /\ dict_get "context_window" cfg = Some w
           /\ int_value w = Some n /\ (0 <= n)%Z
       else
         get_llm_config Samples.discrete_metadata = Ok JNull
         /\ py_in "training_algorithm" Samples.discrete_metadata = Ok true.
Proof.
  apply (validated_metadata_configuration Samples.discrete_metadata). reflexivity.
Defined.

(* ------------------------------------------------------------------ *)
(** ** What the constructor of the agent establishes *)

Section ConstructorFacts.
Import Agent.

Lemma load_ok_validated (fs : file_system) (path : string) (md0 md : json) :
  fst (load_model_metadata fs path md0) = Ok md -> _validate_metadata md = Ok tt.
Proof.
  unfold load_model_metadata.
  destruct (fs path) as [text|]; [|intros H; discriminate H].
  destruct (json_loads text) as [loaded|]; [|intros H; discriminate H].
  cbn [fst]. intros H.
  destruct (_validate_metadata loaded) as [[]|] eqn:Hv; [|discriminate H].
  cbn [bind] in H. repeat bind_inv H. injection H as <-. exact Hv.
Qed.

End ConstructorFacts.

(** When the constructor of the agent returns, the metadata it holds has
    passed validation and has an [llm_config]; the frame counter is zero; the
    model identifier is a string with a slash; and the service has an active
    handler for that identifier with an empty conversation, whose context
    bound is the [context_window] of the configuration (0 when absent), the
    bound the agent keeps too, and whose action space is the one of the
    metadata. *)
Theorem constructed_agent_is_configured
    (fs : file_system) (env : Agent.environ) (metadata_path : string)
    (a : Agent.agent) :
  Agent.init fs env metadata_path = Ok a ->
  _validate_metadata (Agent.metadata a) = Ok tt
  /\ Agent.image_count a = 0%Z
  /\ exists h cfg space id,
       Bedrock.active_handler (Agent.bedrock_service a) = Some h
       /\ Agent.model_id a = JStr id
       /\ Bedrock.model_id h = id
       /\ contains "/" id = true
       /\ Bedrock.conversation_context h = []
       /\ getitem (Agent.metadata a) "llm_config" = Ok cfg
       /\ get cfg "context_window" (JInt 0) = Ok (Agent.max_context_messages a)
       /\ Bedrock.max_context_messages h = Agent.max_context_messages a
       /\ getitem (Agent.metadata a) "action_space" = Ok space
       /\ Bedrock.action_space h = space.
Proof.
  unfold Agent.init. intros H.
  destruct (fst (load_model_metadata fs metadata_path JNull)) as [md|] eqn:Hload;
    [|discriminate H].
  cbn [bind] in H.
  pose proof (load_ok_validated _ _ _ _ Hload) as Hv.
  destruct (Agent._get_model_id_from_metadata env md) as [id|]; [|discriminate H].
  cbn [bind] in H.
  destruct (raise_if (negb (truth id)) _) as [[]|]; [|discriminate H].
  cbn [bind] in H.
  destruct id as [| | | |m| |]; try discriminate H.
  unfold Agent.set_model, Bedrock.set_model in H.
  destruct (Bedrock.get_handler_for_model m) as [h0|] eqn:Hh; [|discriminate H].
  cbn [bind] in H.
  unfold Agent.configure in H. cbn [Bedrock.active_handler Bedrock.region] in H.
  destruct (getitem md "llm_config") as [cfg|] eqn:Hcfg; [|discriminate H].
  cbn [bind] in H.
  destruct (get cfg "system_prompt" _) as [prompt|]; [|discriminate H].
  cbn [bind] in H.
  destruct (get cfg "context_window" (JInt 0)) as [window|] eqn:Hw; [|discriminate H].
  cbn [bind] in H.
  destruct (get md "action_space" JNull) as [space|] eqn:Hsp; [|discriminate H].
  cbn [bind] in H.
  destruct (get md "action_space_type" JNull) as [st|]; [|discriminate H].
  cbn [bind] in H.
  destruct (getitem_ok_dict md _ _ Hcfg) as (dm & -> & Hdcfg).
  cbn [get] in H. rewrite Hdcfg in H. cbn [bind] in H. rewrite Hw in H.
  cbn [bind] in H. injection H as <-.
  cbn [Agent.metadata Agent.image_count Agent.bedrock_service Agent.model_id
       Agent.max_context_messages Bedrock.active_handler].
  split; [exact Hv|]. split; [reflexivity|].
  destruct (validate_metadata_space _ Hv) as (_ & _ & sp & _ & Hs & _).
  assert (Hslash : contains "/" m = true).
  { destruct (contains "/" m) eqn:E; [reflexivity|].
    rewrite (get_handler_no_slash m E) in Hh. discriminate Hh. }
  assert (Hnew : exists k, h0 = Bedrock.new_handler k m).
  { unfold Bedrock.get_handler_for_model in Hh.
    destruct (index (split "/" m) 1) as [seg|]; [|discriminate Hh].
    cbn [bind] in Hh.
    repeat match type of Hh with
           | (if ?b then _ else _) = _ => destruct b
           end; try discriminate Hh; injection Hh as <-; eauto. }
  destruct Hnew as (k & ->).
  eexists _, cfg, sp, m.
  split; [reflexivity|]. split; [reflexivity|]. split; [reflexivity|].
  split; [exact Hslash|]. split; [reflexivity|].
  split; [exact Hcfg|]. split; [exact Hw|]. split; [reflexivity|].
  split; [exact Hs|].
  cbn [Bedrock.action_space Bedrock.set_action_space_type Bedrock.set_action_space].
  cbn [get] in Hsp. cbn [getitem] in Hs.
  destruct (dict_get "action_space" dm); [|discriminate Hs].
  injection Hs as <-. injection Hsp as <-. reflexivity.
Qed.

Lemma constructed_agent_is_configured_witness :
  _validate_metadata (Agent.metadata Samples.claude_agent) = Ok tt
  /\ Agent.image_count Samples.claude_agent = 0%Z
  /\ exists h cfg space id,
       Bedrock.active_handler (Agent.bedrock_service Samples.claude_agent) = Some h
       /\ Agent.model_id Samples.claude_agent = JStr id
       /\ Bedrock.model_id h = id
       /\ contains "/" id = true
       /\ Bedrock.conversation_context h = []
       /\ getitem (Agent.metadata Samples.claude_agent) "llm_config" = Ok cfg
       /\ get cfg "context_window" (JInt 0)
          = Ok (Agent.max_context_messages Samples.claude_agent)
       /\ Bedrock.max_context_messages h = Agent.max_context_messages Samples.claude_agent
       /\ getitem (Agent.metadata Samples.claude_agent) "action_space" = Ok space
       /\ Bedrock.action_space h = space.
Proof.
  apply (constructed_agent_is_configured Samples.files Samples.no_environ
           "model_metadata.json" Samples.claude_agent).
  reflexivity.
Defined.

(* ------------------------------------------------------------------ *)
(** ** The model names of the pricing lookup *)

(** [_get_model_name] returns one of thirteen names, never the identifier it
    was given: a value of the mapping, a capitalised family, or "Unknown".
    An ARN whose last segment has no colon gives "Unknown" whatever model it
    names.  An identifier that is no ARN and names one of the four families
    in any letter case never gives "Unknown". *)
Theorem model_name_is_a_known_name (model_id : string) :
  In (PricingNames._get_model_name model_id)
     ["Nova Lite"; "Nova Pro"; "Claude 3 Sonnet"; "Claude 3 Haiku"; "Claude 3 Opus";
      "Mistral Large"; "Pixtral Large 25.02"; "Llama 3";
      "Claude"; "Mistral"; "Nova"; "Llama"; "Unknown"]
  /\ (contains "arn:aws:bedrock" model_id = true ->
      contains ":" (PricingNames.last_part (split "/" model_id)) = false ->
      PricingNames._get_model_name model_id = "Unknown")
  /\ (contains "arn:aws:bedrock" model_id = false ->
      (exists family, In family PricingNames.model_families
                      /\ contains family (lower model_id) = true) ->
      PricingNames._get_model_name model_id <> "Unknown").
Proof.
  split; [|split].
  - unfold PricingNames._get_model_name.
    generalize (PricingNames.searched_name model_id). intros name.
    cbn [PricingNames.first_mapped PricingNames.model_mapping
         PricingNames.first_family PricingNames.model_families].
    repeat match goal with
           | |- context [if ?b then _ else _] => destruct b
           end; cbn; tauto.
  - intros Harn Hcolon. unfold PricingNames._get_model_name, PricingNames.searched_name.
    rewrite Harn. cbv zeta. rewrite Hcolon. reflexivity.
  - intros Harn (family & Hin & Hc).
    unfold PricingNames._get_model_name, PricingNames.searched_name.
    rewrite Harn.
    cbn [PricingNames.first_mapped PricingNames.model_mapping].
    repeat match goal with
           | |- context [if contains ?k model_id then _ else _] =>
               destruct (contains k model_id); [discriminate|]
           end.
    cbn [PricingNames.first_family PricingNames.model_families].
    cbn [In PricingNames.model_families] in Hin.
    destruct Hin as [<-|[<-|[<-|[<-|[]]]]];
      repeat match goal with
             | |- context [if contains ?k (lower model_id) then _ else _] =>
                 destruct (contains k (lower model_id)) eqn:?; [discriminate|]
             end; congruence.
Qed.

(* ------------------------------------------------------------------ *)
(** ** The frames a run selects *)

Section FrameSelection.
Import MainFrames.

Lemma in_range (k i : Z) : In i (range k) <-> (0 <= i < k)%Z.
Proof.
  unfold range. rewrite in_map_iff. split.
  - intros (j & <- & Hj). apply in_seq in Hj. lia.
  - intros H. exists (Z.to_nat i). split; [lia|]. apply in_seq. lia.
Qed.

Lemma length_range (k : Z) : Z.of_nat (length (range k)) = Z.max 0 k.
Proof. unfold range. rewrite length_map, length_seq. lia. Qed.

End FrameSelection.

(** With a start offset that is not negative and a positive skip factor,
    whatever number of frames is asked for: the loop of [main] processes
    [min(frames, (n - start) // skip)] frames (all of [(n - start) // skip]
    when no number or zero is given, none when that is negative), every index
    [start + i * skip] it uses lies within the list of the [n] image files,
    so that indexing never raises, and the indices increase by [skip]. *)
Theorem frame_indices_stay_in_list
    {A} (image_files : list A) (start_offset skip_factor : Z) (frames : option Z) :
  (0 <= start_offset)%Z ->
  (0 < skip_factor)%Z ->
  let n := Z.of_nat (length image_files) in
  exists k l,
    MainFrames.frames_to_process n start_offset skip_factor frames = Some k
    /\ MainFrames.frame_indices n start_offset skip_factor frames = Some l
    /\ (k <= (n - start_offset) / skip_factor)%Z
    /\ Z.of_nat (length l) = Z.max 0 k
    /\ (forall i, (0 <= i < k)%Z ->
          nth_error l (Z.to_nat i) = Some (start_offset + i * skip_factor)%Z)
    /\ (forall j, In j l ->
          (0 <= j < n)%Z /\ exists f, MainFrames.list_index image_files j = Some f).
Proof.
  intros Hs Hk n.
  unfold MainFrames.frame_indices, MainFrames.frames_to_process.
  destruct (Z.eqb_spec skip_factor 0) as [E|_]; [lia|].
  set (available := ((n - start_offset) / skip_factor)%Z).
  set (max_frames := match frames with
                     | Some f => if (f =? 0)%Z then available else f
                     | None => available
                     end).
  eexists (Z.min max_frames available), _.
  split; [reflexivity|]. split; [reflexivity|].
  split; [lia|].
  split; [rewrite length_map; apply length_range|].
  split.
  - intros i Hi. rewrite nth_error_map. unfold MainFrames.range.
    rewrite nth_error_map, nth_error_seq.
    destruct (Nat.ltb_spec (Z.to_nat i) (Z.to_nat (Z.min max_frames available))) as [L|L];
      [|lia].
    cbn [option_map]. do 2 f_equal. lia.
  - intros j Hj. apply in_map_iff in Hj. destruct Hj as (i & <- & Hi).
    apply in_range in Hi.
    assert (Hi' : (i + 1 <= available)%Z) by lia.
    assert (Hb : (skip_factor * available <= n - start_offset)%Z).
    { apply Z.mul_div_le. exact Hk. }
    assert (Hin : (0 <= start_offset + i * skip_factor < n)%Z) by nia.
    split; [exact Hin|].
    unfold MainFrames.list_index.
    destruct (Z.leb_spec 0 (start_offset + i * skip_factor)) as [_|N]; [|lia].
    destruct (nth_error image_files (Z.to_nat (start_offset + i * skip_factor)))
      as [f|] eqn:E; [eauto|].
    apply nth_error_None in E. fold n in Hin. lia.
Qed.

Lemma frame_indices_stay_in_list_witness :
  exists k l,
    MainFrames.frames_to_process 5%Z 1%Z 2%Z (Some 7%Z) = Some k
    /\ MainFrames.frame_indices 5%Z 1%Z 2%Z (Some 7%Z) = Some l
    /\ (k <= (5 - 1) / 2)%Z
    /\ Z.of_nat (length l) = Z.max 0 k
    /\ (forall i, (0 <= i < k)%Z ->
          nth_error l (Z.to_nat i) = Some (1 + i * 2)%Z)
    /\ (forall j, In j l ->
          (0 <= j < 5)%Z
          /\ exists f, MainFrames.list_index ["a.jpg"; "b.jpg"; "c.jpg"; "d.jpg"; "e.jpg"] j
                       = Some f).
Proof.
  apply (frame_indices_stay_in_list ["a.jpg"; "b.jpg"; "c.jpg"; "d.jpg"; "e.jpg"]
           1%Z 2%Z (Some 7%Z)); lia.
Defined.

(* ------------------------------------------------------------------ *)
(** ** The request bodies: the prompt of the call is sent twice *)

Section RequestFacts.
Import Bedrock Runs Requests.

Lemma keep_last_snoc {A} (k : nat) (l : list A) (x : A) :
  keep_last (S k) (l ++ [x]) = keep_last k l ++ [x].
Proof.
  unfold keep_last. rewrite length_app. cbn [length].
  replace (length l + 1 - S k)%nat with (length l - k)%nat by lia.
  rewrite skipn_app.
  replace (length l - k - length l)%nat with 0%nat by lia. reflexivity.
Qed.

Lemma slice_last_pos {A} (k : Z) (l : list A) :
  (0 < k)%Z -> slice_last k l = keep_last (Z.to_nat k) l.
Proof.
  intros H. unfold slice_last, keep_last. destruct k as [|p|p]; try lia.
  rewrite Z2Nat.inj_pos. reflexivity.
Qed.

Lemma snoc_not_nil {A} (l : list A) (x : A) : exists y r, l ++ [x] = y :: r.
Proof. destruct l as [|y r]; cbn [app]; eauto. Qed.

End RequestFacts.

(** The request of the Claude handler.  With a positive context bound [n],
    the messages of the request body are the system message, the last
    [2n - 1] entries that the context held before the call, the user message
    with the prompt that the call has just appended to the context, and then
    the user message with the same prompt again, now with the image: the
    prompt is sent twice, in two consecutive user messages.  With a bound of
    zero the messages are the system message and the user message only. *)
Theorem claude_request_repeats_prompt
    (json_dumps py_str : json -> string)
    (h : Bedrock.handler) (n : Z) (prompt : json) (image : string) :
  Bedrock.max_context_messages h = JInt n ->
  (0 <= n)%Z ->
  exists body system_message final,
    Requests.claude_process_request json_dumps py_str h prompt image = Ok body
    /\ final = Bedrock.message "user"
                 (JArr (Requests.text_block prompt
                        :: (if String.eqb image "" then []
                            else [JObj [("type", JStr "image");
                                        ("source",
                                         JObj [("type", JStr "base64");
                                               ("media_type", JStr "image/jpeg");
                                               ("data", JStr image)])]])))
    /\ getitem body "messages"
       = Ok (JArr
               (system_message
                :: (if (0 <? n)%Z
                    then Runs.keep_last (2 * Z.to_nat n - 1) (Bedrock.conversation_context h)
                         ++ [Bedrock.message "user" (JArr [Requests.text_block prompt])]
                    else [])
                ++ [final])).
Proof.
  intros Hmax Hn.
  unfold Requests.claude_process_request. rewrite Hmax, positive_int. cbn [bind].
  unfold Requests.claude_prepare_prompt, Requests.claude_context_messages.
  destruct (Z.ltb_spec 0 n) as [Hpos|Hzero].
  - cbn [Bedrock.append_message Bedrock.set_context Bedrock.conversation_context
         Bedrock.max_context_messages Bedrock.system_prompt Bedrock.action_space
         Bedrock.action_space_type].
    destruct (snoc_not_nil (Bedrock.conversation_context h)
                (Bedrock.message "user" (JArr [Requests.text_block prompt])))
      as (y & r & E).
    rewrite E, Hmax, positive_int. rewrite <- E.
    destruct (Z.ltb_spec 0 n) as [_|N]; [|lia].
    cbn [bind int_value].
    rewrite slice_last_pos by lia.
    replace (Z.to_nat (n * 2)) with (S (2 * Z.to_nat n - 1)) by lia.
    rewrite keep_last_snoc.
    eexists _, _, _. split; [reflexivity|]. split; [reflexivity|].
    cbn [getitem dict_get String.eqb Ascii.eqb Bool.eqb]. reflexivity.
  - assert (n = 0%Z) by lia. subst n.
    destruct (Bedrock.conversation_context h) as [|y r] eqn:E.
    + cbn [bind]. eexists _, _, _. split; [reflexivity|]. split; [reflexivity|].
      cbn [getitem dict_get String.eqb Ascii.eqb Bool.eqb app]. reflexivity.
    + rewrite Hmax, positive_int. cbn [bind Z.ltb Z.compare].
      eexists _, _, _. split; [reflexivity|]. split; [reflexivity|].
      cbn [getitem dict_get String.eqb Ascii.eqb Bool.eqb app]. reflexivity.
Qed.

Lemma claude_request_repeats_prompt_witness :
  exists body system_message final,
    Requests.claude_process_request Samples.dumps_stub Samples.dumps_stub
      (Runs.fresh Bedrock.Claude 1) (JStr "Next image.") "SkZJRg==" = Ok body
    /\ final = Bedrock.message "user"
                 (JArr (Requests.text_block (JStr "Next image.")
                        :: (if String.eqb "SkZJRg==" "" then []
                            else [JObj [("type", JStr "image");
                                        ("source",
                                         JObj [("type", JStr "base64");
                                               ("media_type", JStr "image/jpeg");
                                               ("data", JStr "SkZJRg==")])]])))
    /\ getitem body "messages"
       = Ok (JArr
               (system_message
                :: (if (0 <? 1)%Z
                    then Runs.keep_last (2 * Z.to_nat 1 - 1)
                           (Bedrock.conversation_context (Runs.fresh Bedrock.Claude 1))
                         ++ [Bedrock.message "user"
                               (JArr [Requests.text_block (JStr "Next image.")])]
                    else [])
                ++ [final])).
Proof.
  apply (claude_request_repeats_prompt Samples.dumps_stub Samples.dumps_stub
           (Runs.fresh Bedrock.Claude 1) 1 (JStr "Next image.") "SkZJRg==").
  - reflexivity.
  - lia.
Defined.

(** The request of the Nova handler.  With a positive context bound [n] and
    a readable [MAX_TOKENS], the messages of the request body are the system
    message, the last [n - 1] entries that the context held before the call,
    and then the user message of the call twice: once as the entry just
    appended to the context and once as the current message, each with the
    image when there is one.  With a bound of zero the messages are the
    system message and the user message only. *)
Theorem nova_request_repeats_user_message
    (json_dumps : json -> string) (max_tokens : json)
    (h : Bedrock.handler) (n : Z) (prompt : json) (image : string) :
  Bedrock.max_context_messages h = JInt n ->
  (0 <= n)%Z ->
  exists body system_message,
    Requests.nova_process_request json_dumps (Ok max_tokens) h prompt image = Ok body
    /\ getitem body "messages"
       = Ok (JArr
               (system_message
                :: (if (0 <? n)%Z
                    then Runs.keep_last (Z.to_nat n - 1) (Bedrock.conversation_context h)
                         ++ [Bedrock.NovaHandler._create_user_message prompt image]
                    else [])
                ++ [Bedrock.NovaHandler._create_user_message prompt image])).
Proof.
  intros Hmax Hn.
  unfold Requests.nova_process_request. rewrite Hmax, positive_int. cbn [bind].
  unfold Requests.nova_prepare_prompt, Requests.nova_context_messages.
  destruct (Z.ltb_spec 0 n) as [Hpos|Hzero].
  - cbn [Bedrock.append_message Bedrock.set_context Bedrock.conversation_context
         Bedrock.max_context_messages Bedrock.system_prompt Bedrock.action_space
         Bedrock.action_space_type].
    destruct (snoc_not_nil (Bedrock.conversation_context h)
                (Bedrock.NovaHandler._create_user_message prompt image))
      as (y & r & E).
    rewrite E, Hmax, positive_int. rewrite <- E.
    destruct (Z.ltb_spec 0 n) as [_|N]; [|lia].
    cbn [bind]. rewrite limit_last_int by exact Hpos. cbn [bind].
    replace (Runs.keep_last (Z.to_nat n)
               (Bedrock.conversation_context h
                ++ [Bedrock.NovaHandler._create_user_message prompt image]))
      with (Runs.keep_last (S (Z.to_nat n - 1))
              (Bedrock.conversation_context h
               ++ [Bedrock.NovaHandler._create_user_message prompt image]))
      by (f_equal; lia).
    rewrite keep_last_snoc.
    eexists _, _. split; [reflexivity|].
    cbn [getitem dict_get String.eqb Ascii.eqb Bool.eqb]. reflexivity.
  - assert (n = 0%Z) by lia. subst n.
    destruct (Bedrock.conversation_context h) as [|y r] eqn:E.
    + cbn [bind]. eexists _, _. split; [reflexivity|].
      cbn [getitem dict_get String.eqb Ascii.eqb Bool.eqb app]. reflexivity.
    + rewrite Hmax, positive_int. cbn [bind Z.ltb Z.compare].
      eexists _, _. split; [reflexivity|].
      cbn [getitem dict_get String.eqb Ascii.eqb Bool.eqb app]. reflexivity.
Qed.

Lemma nova_request_repeats_user_message_witness :
  exists body system_message,
    Requests.nova_process_request Samples.dumps_stub (Ok (JInt 1000))
      (Runs.fresh Bedrock.Nova 2) (JStr "Next image.") "SkZJRg==" = Ok body
    /\ getitem body "messages"
       = Ok (JArr
               (system_message
                :: (if (0 <? 2)%Z
                    then Runs.keep_last (Z.to_nat 2 - 1)
                           (Bedrock.conversation_context (Runs.fresh Bedrock.Nova 2))
                         ++ [Bedrock.NovaHandler._create_user_message
                               (JStr "Next image.") "SkZJRg=="]
                    else [])
                ++ [Bedrock.NovaHandler._create_user_message
                      (JStr "Next image.") "SkZJRg=="])).
Proof.
  apply (nova_request_repeats_user_message Samples.dumps_stub (JInt 1000)
           (Runs.fresh Bedrock.Nova 2) 2 (JStr "Next image.") "SkZJRg==").
  - reflexivity.
  - lia.
Defined.

(* ------------------------------------------------------------------ *)
(** ** The state of the metadata handler after a load *)

(** [load_model_metadata] assigns the decoded file to the handler before it
    validates it.  When the load returns, the value returned is the one the
    handler holds, and it has passed validation.  When the file is missing or
    is no JSON, the handler keeps what it held.  When the file decodes and
    validation raises, that exception leaves the load and the handler holds
    the rejected value in place of what it held before. *)
Theorem load_assigns_before_validating
    (fs : file_system) (file_path : string) (held : json) :
  let r := fst (load_model_metadata fs file_path held) in
  let after := snd (load_model_metadata fs file_path held) in
  (forall md, r = Ok md -> after = md /\ _validate_metadata md = Ok tt)
  /\ (fs file_path = None ->
      (exists msg, r = Raise (FileNotFoundError msg)) /\ after = held)
  /\ (forall text e, fs file_path = Some text -> json_loads text = Raise e ->
        r = Raise e /\ after = held)
  /\ (forall text loaded e,
        fs file_path = Some text -> json_loads text = Ok loaded ->
        _validate_metadata loaded = Raise e ->
        r = Raise e /\ after = loaded).
Proof.
  cbv zeta. split; [|split; [|split]].
  - intros md H. split; [|exact (load_ok_validated _ _ _ _ H)].
    unfold load_model_metadata in *.
    destruct (fs file_path) as [text|]; [|discriminate H].
    destruct (json_loads text) as [loaded|]; [|discriminate H].
    cbn [fst snd] in *. repeat bind_inv H. injection H as <-. reflexivity.
  - intros H. unfold load_model_metadata. rewrite H. split; [eexists|]; reflexivity.
  - intros text e Hf Hj. unfold load_model_metadata. rewrite Hf, Hj.
    split; reflexivity.
  - intros text loaded e Hf Hj Hv. unfold load_model_metadata.
    rewrite Hf, Hj, Hv. split; reflexivity.
Qed.
(** ** The cost estimator *)

(** The binary64 literals of the last part of the statement. *)
Import PrimFloat.

